(** * condor.py: the Condor job object, its submission text and its life cycle

    A shallow embedding of [condor.py] (classes [Shell] and [Job], with the
    part of [Process] that [Shell.execute] goes through) and the properties of
    its specification.

    Text is modelled as [string]: every character is a code point below 256,
    which is what [Process.get] builds with [chr] from the bytes of a child
    process and what [Process.put] accepts with [ord]. *)

From Stdlib Require Import List String Ascii Bool Arith ZArith QArith Lia.
From Stdlib Require Import DecimalString Qminmax.
Import ListNotations.

Local Open Scope string_scope.
Local Open Scope Z_scope.

(** ** Python's string primitives, as far as [condor.py] uses them *)

Module PyStr.

Definition dquote : ascii := "034"%char.
Definition squote : ascii := "039"%char.
Definition backslash : ascii := "092"%char.
Definition newline : ascii := "010"%char.
Definition tab : ascii := "009"%char.
Definition cr : ascii := "013"%char.

(** A one-character string. *)
Definition chr (c : ascii) : string := String c EmptyString.

(** [str.isspace] on one character below 256: the controls 9-13 and 28-31,
    the blank, NEL (133) and the no-break space (160). *)
Definition isspace (c : ascii) : bool :=
  let n := nat_of_ascii c in
  ((9 <=? n) && (n <=? 13) || (28 <=? n) && (n <=? 32)
   || (n =? 133) || (n =? 160))%nat.

(** [\d] of module [re] on a character below 256: the ten ASCII digits. *)
Definition is_decimal (c : ascii) : bool :=
  let n := nat_of_ascii c in ((48 <=? n) && (n <=? 57))%nat.

(** [str.isdigit] on one character below 256: the ten ASCII digits and the
    superscripts two, three and one (178, 179, 185). *)
Definition isdigit_char (c : ascii) : bool :=
  let n := nat_of_ascii c in
  (is_decimal c || (n =? 178) || (n =? 179) || (n =? 185))%nat.

Fixpoint forallb_str (p : ascii -> bool) (s : string) : bool :=
  match s with
  | EmptyString => true
  | String c r => p c && forallb_str p r
  end.

(** [s.isdigit()]: non-empty and made of digits. *)
Definition isdigit (s : string) : bool :=
  match s with
  | EmptyString => false
  | _ => forallb_str isdigit_char s
  end.

(** Truth value of a string: non-empty. *)
Definition nonempty (s : string) : bool :=
  match s with EmptyString => false | _ => true end.

Fixpoint lstrip (s : string) : string :=
  match s with
  | EmptyString => EmptyString
  | String c r => if isspace c then lstrip r else s
  end.

Fixpoint rstrip (s : string) : string :=
  match s with
  | EmptyString => EmptyString
  | String c r =>
      match rstrip r with
      | EmptyString => if isspace c then EmptyString else chr c
      | r' => String c r'
      end
  end.

(** [s.strip()] *)
Definition strip (s : string) : string := rstrip (lstrip s).

(** [s.startswith(p)] *)
Fixpoint startswith (p s : string) : bool :=
  match p with
  | EmptyString => true
  | String a p' =>
      match s with
      | EmptyString => false
      | String b s' => Ascii.eqb a b && startswith p' s'
      end
  end.

(** [sub in s] *)
Fixpoint contains (sub s : string) : bool :=
  startswith sub s ||
  match s with
  | EmptyString => false
  | String _ r => contains sub r
  end.

Fixpoint mem_char (c : ascii) (s : string) : bool :=
  match s with
  | EmptyString => false
  | String d r => Ascii.eqb c d || mem_char c r
  end.

(** [s.endswith(suf)] for a one-character suffix. *)
Fixpoint endswith_char (c : ascii) (s : string) : bool :=
  match s with
  | EmptyString => false
  | String d EmptyString => Ascii.eqb c d
  | String _ r => endswith_char c r
  end.

(** [s.replace(old, new)] for a non-empty [old]: the occurrences of [old]
    are replaced from the left and do not overlap.  [skip] counts the
    characters of the occurrence just replaced that are still to be
    passed over. *)
Fixpoint replace_from (old new : string) (skip : nat) (s : string) : string :=
  match s with
  | EmptyString => EmptyString
  | String c r =>
      match skip with
      | S k => replace_from old new k r
      | O =>
          if startswith old s
          then new ++ replace_from old new (String.length old - 1) r
          else String c (replace_from old new 0 r)
      end
  end.

Definition replace (old new s : string) : string := replace_from old new 0 s.

(** [s.count(sub)] for a non-empty [sub]: the number of occurrences that do
    not overlap, taken from the left. *)
Fixpoint count_from (sub : string) (skip : nat) (s : string) : nat :=
  match s with
  | EmptyString => O
  | String c r =>
      match skip with
      | S k => count_from sub k r
      | O =>
          if startswith sub s
          then S (count_from sub (String.length sub - 1) r)
          else count_from sub 0 r
      end
  end.

Definition count (sub s : string) : nat := count_from sub 0 s.

(** The number of positions of [s] at which [sub] starts, overlapping or
    not. *)
Fixpoint occurrences (sub s : string) : nat :=
  match s with
  | EmptyString => O
  | String _ r =>
      ((if startswith sub s then 1 else 0) + occurrences sub r)%nat
  end.

(** [s.split(sep)] for a one-character separator: the pieces between the
    separators, the empty ones included; never the empty list. *)
Fixpoint split (sep : ascii) (s : string) : list string :=
  match s with
  | EmptyString => [EmptyString]
  | String c r =>
      if Ascii.eqb c sep then EmptyString :: split sep r
      else match split sep r with
           | [] => [chr c]
           | w :: ws => String c w :: ws
           end
  end.

(** [sep.join(l)] *)
Definition join (sep : string) (l : list string) : string :=
  String.concat sep l.

(** [str.lower] on one character below 256: the ASCII capitals and the
    Latin-1 capitals 192-222 (the multiplication sign 215 apart). *)
Definition lower_char (c : ascii) : ascii :=
  let n := nat_of_ascii c in
  if ((65 <=? n) && (n <=? 90)
      || (192 <=? n) && (n <=? 222) && negb (n =? 215))%nat
  then ascii_of_nat (n + 32) else c.

Fixpoint lower (s : string) : string :=
  match s with
  | EmptyString => EmptyString
  | String c r => String (lower_char c) (lower r)
  end.

(** [str(n)] for an [int]. *)
Definition str_of_int (n : Z) : string :=
  NilZero.string_of_int (Z.to_int n).

Definition digit_value (c : ascii) : Z := Z.of_nat (nat_of_ascii c) - 48.

Fixpoint int_of_digits_from (acc : Z) (s : string) : Z :=
  match s with
  | EmptyString => acc
  | String c r => int_of_digits_from (10 * acc + digit_value c) r
  end.

(** The value of a string of ASCII decimal digits. *)
Definition int_of_digits (s : string) : Z := int_of_digits_from 0 s.

(** The longest run of decimal digits at the head of [s]: what a greedy
    [\d+] takes there. *)
Fixpoint take_digits (s : string) : string :=
  match s with
  | EmptyString => EmptyString
  | String c r => if is_decimal c then String c (take_digits r) else EmptyString
  end.

Fixpoint drop (n : nat) (s : string) : string :=
  match n, s with
  | O, _ => s
  | S k, EmptyString => EmptyString
  | S k, String _ r => drop k r
  end.

End PyStr.

(** ** Python values, exceptions and dictionaries *)

(** The values that reach the methods of [Job]: [None], [bool], [int] and
    [str]. *)
Inductive PyVal : Type :=
| VNone
| VBool (b : bool)
| VInt (n : Z)
| VStr (s : string).

(** The exceptions of [condor.py] and the built-in ones its methods raise. *)
Inductive Exn : Type :=
| InvalidUniverseError (value : PyVal)
| TalkingToDeadError
| BadFormatError (value : string)
| SubmissionError (value : string)
| RequiredSetting (value : string)
| EmptySetting (value : string)
| BadQuotes (value : string)
| TypeError (message : string)
| ValueError (message : string)
| IndexError (message : string)
| AttributeError (message : string)
| NameError (name : string).

Module Py.

Definition int_of_bool (b : bool) : Z := if b then 1 else 0.

(** [a == b] *)
Definition eq (a b : PyVal) : bool :=
  match a, b with
  | VNone, VNone => true
  | VBool x, VBool y => Bool.eqb x y
  | VBool x, VInt n | VInt n, VBool x => int_of_bool x =? n
  | VInt m, VInt n => m =? n
  | VStr s, VStr t => String.eqb s t
  | _, _ => false
  end.

(** Truth value, as [if x:] takes it. *)
Definition truthy (v : PyVal) : bool :=
  match v with
  | VNone => false
  | VBool b => b
  | VInt n => negb (n =? 0)
  | VStr s => PyStr.nonempty s
  end.

(** [str(v)] *)
Definition str (v : PyVal) : string :=
  match v with
  | VNone => "None"
  | VBool true => "True"
  | VBool false => "False"
  | VInt n => PyStr.str_of_int n
  | VStr s => s
  end.

(** [str(type(v))] *)
Definition type_name (v : PyVal) : string :=
  match v with
  | VNone => "<class 'NoneType'>"
  | VBool _ => "<class 'bool'>"
  | VInt _ => "<class 'int'>"
  | VStr _ => "<class 'str'>"
  end.

(** [type(v) == bool] *)
Definition is_bool (v : PyVal) : bool :=
  match v with VBool _ => true | _ => false end.

(** [x in l] for a list [l]. *)
Definition in_list (x : PyVal) (l : list PyVal) : bool :=
  existsb (fun y => eq x y) l.

(** A value that is [None] or a string. *)
Definition of_opt (o : option string) : PyVal :=
  match o with None => VNone | Some s => VStr s end.

End Py.

(** A [dict] in insertion order: assigning to a key that is present keeps its
    place, a new key goes to the end. *)
Module Dict.

Definition t : Type := list (PyVal * PyVal).

Fixpoint get (k : PyVal) (d : t) : option PyVal :=
  match d with
  | [] => None
  | (k', v) :: r => if Py.eq k k' then Some v else get k r
  end.

Fixpoint set (k v : PyVal) (d : t) : t :=
  match d with
  | [] => [(k, v)]
  | (k', v') :: r =>
      if Py.eq k k' then (k', v) :: r else (k', v') :: set k v r
  end.

Fixpoint pop (k : PyVal) (d : t) : t :=
  match d with
  | [] => []
  | (k', v') :: r => if Py.eq k k' then r else (k', v') :: pop k r
  end.

Definition mem (k : PyVal) (d : t) : bool :=
  match get k d with Some _ => true | None => false end.

End Dict.

(** ** The world outside: child processes, the two output streams, the clock *)

(** One launched command with what was written to its standard input. *)
Record Call : Type := mkCall { cmd : string; input : option string }.

(** What a child process leaves: its exit status and its combined output,
    one character per byte. *)
Record Reply : Type := mkReply { exitcode : Z; output : string }.

(** [oracle] answers a call from the history of calls, the current one at the
    head; [calls] is that history; [stdout] and [stderr] collect what is
    printed; [sleeps] lists the arguments of [sleep], the latest first;
    [files] lists what was written to which file, the latest first. *)
Record World : Type := mkWorld {
  oracle : list Call -> Reply;
  calls : list Call;
  stdout : string;
  stderr : string;
  sleeps : list Q;
  files : list (string * string)
}.

(** [Shell]: [local], [remoteServer] and [remoteUser]. *)
Record Shell : Type := mkShell {
  local : bool;
  remoteServer : option string;
  remoteUser : option string
}.

(** The attributes of a [Job]. *)
Record Job : Type := mkJob {
  _validUniverses : list PyVal;
  _settings : Dict.t;
  submitLinesSoFar : string;
  _submitShell : option Shell;
  _executablePath : PyVal;
  cluster : option Z;
  maxPollTime : Q;
  _submitterUsername : option string;
  username : option string;
  server : string
}.

Record St : Type := mkSt { job : Job; world : World }.

(** The outcome of a call: a value, an exception, or [Fuel] when the model of
    a loop was given too few rounds. *)
Inductive Res (A : Type) : Type :=
| Ok (a : A)
| Raise (e : Exn)
| Fuel.
Arguments Ok {A} a.
Arguments Raise {A} e.
Arguments Fuel {A}.

(** Computations over the job and the world; an exception keeps the changes
    made before it was raised. *)
Definition M (A : Type) : Type := St -> Res A * St.

Definition ret {A} (a : A) : M A := fun s => (Ok a, s).

Definition bind {A B} (m : M A) (k : A -> M B) : M B :=
  fun s =>
    match m s with
    | (Ok a, s') => k a s'
    | (Raise e, s') => (Raise e, s')
    | (Fuel, s') => (Fuel, s')
    end.

Definition raise {A} (e : Exn) : M A := fun s => (Raise e, s).

Notation "x <- c1 ;; c2" := (bind c1 (fun x => c2))
  (at level 61, c1 at next level, right associativity).
Notation "' pat <- c1 ;; c2" :=
  (bind c1 (fun x => match x with pat => c2 end))
  (at level 61, pat pattern, c1 at next level, right associativity).
Notation "c1 ;; c2" := (bind c1 (fun _ => c2))
  (at level 61, right associativity).

(** [try: m except ...: h], where [catches] tells the exceptions caught. *)
Definition try_except {A} (m : M A) (catches : Exn -> bool) (h : M A) : M A :=
  fun s =>
    match m s with
    | (Raise e, s') => if catches e then h s' else (Raise e, s')
    | r => r
    end.

Definition get_job : M Job := fun s => (Ok (job s), s).
Definition modify_job (f : Job -> Job) : M unit :=
  fun s => (Ok tt, mkSt (f (job s)) (world s)).
Definition modify_world (f : World -> World) : M unit :=
  fun s => (Ok tt, mkSt (job s) (f (world s))).

Definition with_settings (d : Dict.t) (j : Job) : Job :=
  mkJob (_validUniverses j) d (submitLinesSoFar j) (_submitShell j)
        (_executablePath j) (cluster j) (maxPollTime j)
        (_submitterUsername j) (username j) (server j).
Definition with_submitLinesSoFar (t : string) (j : Job) : Job :=
  mkJob (_validUniverses j) (_settings j) t (_submitShell j)
        (_executablePath j) (cluster j) (maxPollTime j)
        (_submitterUsername j) (username j) (server j).
Definition with_submitShell (sh : option Shell) (j : Job) : Job :=
  mkJob (_validUniverses j) (_settings j) (submitLinesSoFar j) sh
        (_executablePath j) (cluster j) (maxPollTime j)
        (_submitterUsername j) (username j) (server j).
Definition with_executablePath (p : PyVal) (j : Job) : Job :=
  mkJob (_validUniverses j) (_settings j) (submitLinesSoFar j) (_submitShell j)
        p (cluster j) (maxPollTime j)
        (_submitterUsername j) (username j) (server j).
Definition with_cluster (c : option Z) (j : Job) : Job :=
  mkJob (_validUniverses j) (_settings j) (submitLinesSoFar j) (_submitShell j)
        (_executablePath j) c (maxPollTime j)
        (_submitterUsername j) (username j) (server j).
Definition with_submitterUsername (u : option string) (j : Job) : Job :=
  mkJob (_validUniverses j) (_settings j) (submitLinesSoFar j) (_submitShell j)
        (_executablePath j) (cluster j) (maxPollTime j)
        u (username j) (server j).
Definition with_username (u : option string) (j : Job) : Job :=
  mkJob (_validUniverses j) (_settings j) (submitLinesSoFar j) (_submitShell j)
        (_executablePath j) (cluster j) (maxPollTime j)
        (_submitterUsername j) u (server j).
Definition with_server (h : string) (j : Job) : Job :=
  mkJob (_validUniverses j) (_settings j) (submitLinesSoFar j) (_submitShell j)
        (_executablePath j) (cluster j) (maxPollTime j)
        (_submitterUsername j) (username j) h.

(** [job.maxPollTime = t], the attribute being public. *)
Definition with_maxPollTime (t : Q) (j : Job) : Job :=
  mkJob (_validUniverses j) (_settings j) (submitLinesSoFar j) (_submitShell j)
        (_executablePath j) (cluster j) t
        (_submitterUsername j) (username j) (server j).

Definition with_calls (h : list Call) (w : World) : World :=
  mkWorld (oracle w) h (stdout w) (stderr w) (sleeps w) (files w).
Definition with_stdout (t : string) (w : World) : World :=
  mkWorld (oracle w) (calls w) t (stderr w) (sleeps w) (files w).
Definition with_stderr (t : string) (w : World) : World :=
  mkWorld (oracle w) (calls w) (stdout w) t (sleeps w) (files w).
Definition with_sleeps (l : list Q) (w : World) : World :=
  mkWorld (oracle w) (calls w) (stdout w) (stderr w) l (files w).
Definition with_files (l : list (string * string)) (w : World) : World :=
  mkWorld (oracle w) (calls w) (stdout w) (stderr w) (sleeps w) l.

(** [print(a, b, ..., end=e)]: the arguments joined by a blank, then [e]. *)
Definition print_end (args : list string) (e : string) : M unit :=
  modify_world (fun w => with_stdout (stdout w ++ PyStr.join " " args ++ e) w).

(** [print(a, b, ...)] *)
Definition print (args : list string) : M unit :=
  print_end args (PyStr.chr PyStr.newline).

(** [print(a, b, ..., file=sys.stderr)] *)
Definition print_err (args : list string) : M unit :=
  modify_world (fun w =>
    with_stderr (stderr w ++ PyStr.join " " args ++ PyStr.chr PyStr.newline) w).

(** [sleep(t)]: a negative [t] is refused with [ValueError], before any
    time is spent. *)
Definition sleep (t : Q) : M unit :=
  if Qle_bool 0 t
  then modify_world (fun w => with_sleeps (t :: sleeps w) w)
  else raise (ValueError "sleep length must be non-negative").

(** [min(a, b)] of Python: [a] unless [b < a]. *)
Definition py_min (a b : Q) : Q :=
  match Qcompare b a with Lt => b | _ => a end.

(** ** [re.search] for the pattern of [Job.submit] *)

(** [re.search("(cluster )(\d+)", msg)], reduced to its second group: the
    leftmost place where [cluster ] (with its blank) is followed by a decimal
    digit, and the whole run of digits found there; [None] where the pattern
    matches nowhere. *)
Fixpoint re_search_cluster (msg : string) : option string :=
  match msg with
  | EmptyString => None
  | String _ r =>
      if PyStr.startswith "cluster " msg then
        match PyStr.take_digits (PyStr.drop 8 msg) with
        | EmptyString => re_search_cluster r
        | ds => Some ds
        end
      else re_search_cluster r
  end.

(** ** [shlex.split] of the standard library

    [shlex.split(s)] runs the lexer in POSIX mode with [whitespace_split] set
    and no comment characters.  [tokens] is the loop of [read_token], called
    again after every token: one character is read per round, the lexer's
    [state] and [token] live across calls, [quoted] and [escapedstate] are
    reset at every call. *)
Module Shlex.

(** The values [state] and [escapedstate] take: [None], the blank, the
    letter [a] (inside a word), a quote character, the escape character. *)
Inductive LexState : Type :=
| SNone
| SBlank
| SWord
| SQuote (q : ascii)
| SEscape.

Definition whitespace (c : ascii) : bool :=
  Ascii.eqb c " " || Ascii.eqb c PyStr.tab
  || Ascii.eqb c PyStr.cr || Ascii.eqb c PyStr.newline.

Definition quotes (c : ascii) : bool :=
  Ascii.eqb c PyStr.squote || Ascii.eqb c PyStr.dquote.

Definition escape (c : ascii) : bool := Ascii.eqb c PyStr.backslash.

Definition escapedquotes (c : ascii) : bool := Ascii.eqb c PyStr.dquote.

(** The end of [read_token]: in POSIX mode an empty token that was not
    quoted is [None], the end of the input. *)
Definition result (token : string) (quoted : bool) : option string :=
  if negb quoted && negb (PyStr.nonempty token) then None else Some token.

Fixpoint tokens (inp : string) (state : LexState) (token : string)
    (quoted : bool) (escapedstate : LexState) (acc : list string)
    {struct inp} : Res (list string) :=
  let emit (rest : string) (state' : LexState) (quoted' : bool) :=
    match result token quoted' with
    | None => Ok (rev acc)
    | Some t => tokens rest state' EmptyString false SBlank (t :: acc)
    end in
  match inp with
  | EmptyString =>
      match state with
      | SNone => Ok (rev acc)
      | SBlank | SWord =>
          match result token quoted with
          | None => Ok (rev acc)
          | Some t => Ok (rev (t :: acc))
          end
      | SQuote _ => Raise (ValueError "No closing quotation")
      | SEscape => Raise (ValueError "No escaped character")
      end
  | String nextchar rest =>
      match state with
      | SNone => Ok (rev acc)
      | SBlank =>
          if whitespace nextchar then
            if PyStr.nonempty token || quoted then emit rest SBlank quoted
            else tokens rest SBlank token quoted escapedstate acc
          else if escape nextchar then
            tokens rest SEscape token quoted SWord acc
          else if quotes nextchar then
            tokens rest (SQuote nextchar) token quoted escapedstate acc
          else
            (* a word character, or any other one under whitespace_split *)
            tokens rest SWord (PyStr.chr nextchar) quoted escapedstate acc
      | SQuote q =>
          if Ascii.eqb nextchar q then
            tokens rest SWord token true escapedstate acc
          else if escape nextchar && escapedquotes q then
            tokens rest SEscape token true (SQuote q) acc
          else
            tokens rest (SQuote q) (token ++ PyStr.chr nextchar) true
                   escapedstate acc
      | SEscape =>
          let token' :=
            match escapedstate with
            | SQuote q =>
                if negb (escape nextchar) && negb (Ascii.eqb nextchar q)
                then token ++ PyStr.chr PyStr.backslash else token
            | _ => token
            end in
          tokens rest escapedstate (token' ++ PyStr.chr nextchar) quoted
                 escapedstate acc
      | SWord =>
          if whitespace nextchar then
            if PyStr.nonempty token || quoted then emit rest SBlank quoted
            else tokens rest SBlank token quoted escapedstate acc
          else if quotes nextchar then
            tokens rest (SQuote nextchar) token quoted escapedstate acc
          else if escape nextchar then
            tokens rest SEscape token quoted SWord acc
          else
            tokens rest SWord (token ++ PyStr.chr nextchar) quoted
                   escapedstate acc
      end
  end.

(** [shlex.split(s)] *)
Definition split (s : string) : Res (list string) :=
  tokens s SBlank EmptyString false SBlank [].

End Shlex.

(** ** [Process] and [Shell] *)

(** [Process(args)], with [input] written to it by [put] when there is one,
    run to its end: the call is recorded and the world answers. *)
Definition Process_run (args : string) (inp : option string) : M Reply :=
  fun s =>
    let h := mkCall args inp :: calls (world s) in
    (Ok (oracle (world s) h), mkSt (job s) (with_calls h (world s))).

(** [Process.get] on a process that saved no output before: the output,
    stripped. *)
Definition Process_get (r : Reply) : string :=
  EmptyString ++ PyStr.strip (output r).

(** [Process.getBytes]: the output as it is. *)
Definition Process_getBytes (r : Reply) : string :=
  EmptyString ++ output r.

(** [Shell.__init__] *)
Definition Shell_init (server : option string) (user : option string)
    : M Shell :=
  let is_local :=
    match server with
    | None => true
    | Some h => String.eqb (PyStr.lower h) "localhost"
    end in
  if is_local then ret (mkShell true None None)
  else
    match user with
    | None =>
        r <- Process_run "whoami" None ;;
        ret (mkShell false server (Some (PyStr.strip (Process_get r))))
    | Some _ => ret (mkShell false server user)
    end.

(** [Shell._buildFullCommand] *)
Definition _buildFullCommand (sh : Shell) (commandString : string) : string :=
  if local sh then commandString
  else
    let retval := "ssh " in
    let retval :=
      if Py.truthy (Py.of_opt (remoteUser sh))
      then retval ++ Py.str (Py.of_opt (remoteUser sh)) ++ "@"
      else retval in
    retval ++ Py.str (Py.of_opt (remoteServer sh)) ++ " " ++ commandString.

(** [Shell.execute]: the exit status and the output, stripped unless
    [returnBytes]. *)
Definition execute (sh : Shell) (commandString : string)
    (inputStr : option string) (returnBytes : bool) : M (Z * string) :=
  r <- Process_run (_buildFullCommand sh commandString) inputStr ;;
  let s := if returnBytes then Process_getBytes r else Process_get r in
  ret (exitcode r, s).

(** ** [Job] *)

Definition validUniverses : list PyVal :=
  [VStr "vanilla"; VStr "standard"; VStr "java";
   VStr "scheduler"; VStr "local"; VStr "grid"; VStr "vm"].

(** [self._settings[k]], with the exception the getter raises on [KeyError]. *)
Definition get_setting (k : string) (e : Exn) : M PyVal :=
  j <- get_job ;;
  match Dict.get (VStr k) (_settings j) with
  | Some v => ret v
  | None => raise e
  end.

(** [self._settings[k] = v] *)
Definition set_setting (k : string) (v : PyVal) : M unit :=
  modify_job (fun j => with_settings (Dict.set (VStr k) v (_settings j)) j).

Definition getUniverse : M PyVal :=
  get_setting "Universe" (RequiredSetting "Universe").

Definition setUniverse (string_ : PyVal) : M unit :=
  j <- get_job ;;
  if negb (Py.in_list string_ (_validUniverses j))
  then raise (InvalidUniverseError string_)
  else set_setting "Universe" string_.

Definition getUsername : M (option string) :=
  j <- get_job ;; ret (username j).

Definition _setUsername (string_ : option string) : M unit :=
  modify_job (fun j =>
    match string_ with
    | None => with_username (_submitterUsername j) j
    | Some _ => with_username string_ j
    end).

Definition getServer : M string :=
  j <- get_job ;; ret (server j).

Definition _setServer (string_ : string) : M unit :=
  modify_job (with_server string_).

Definition getExecutable : M PyVal :=
  get_setting "Executable" (RequiredSetting "Executable").

(** The getter reads the key [Input]. *)
Definition getTransferExecutable : M PyVal :=
  get_setting "Input" (EmptySetting "TransferExecutable").

Definition setTransferExecutable (boolean : PyVal) : M unit :=
  if negb (Py.is_bool boolean)
  then raise (TypeError ("setTransferExecutable(): bool argument "
                         ++ "expected, but " ++ Py.type_name boolean
                         ++ " given."))
  else set_setting "transfer_executable" (VBool (Py.truthy boolean)).

(** [self._submitShell.execute], looked up before the arguments of the call
    are evaluated: an [AttributeError] while the shell is still [None]. *)
Definition submitShell : M Shell :=
  j <- get_job ;;
  match _submitShell j with
  | None => raise (AttributeError "'NoneType' object has no attribute 'execute'")
  | Some sh => ret sh
  end.

Definition submitShell_execute (commandString : string)
    (inputStr : option string) (returnBytes : bool) : M (Z * string) :=
  sh <- submitShell ;;
  execute sh commandString inputStr returnBytes.

Definition _resolveExecutable (string_ : string) : M string :=
  '(status0, _) <- submitShell_execute ("ls " ++ string_) None false ;;
  if negb (status0 =? 0) then
    '(status, reply) <- submitShell_execute ("which " ++ string_) None false ;;
    if status =? 0 then ret (PyStr.strip reply)
    else
      e <- getExecutable ;;
      print_err ["Warning: Could not find Executable:"; Py.str e] ;;
      ret string_
  else ret string_.

Definition setExecutable (string_ : string) : M unit :=
  newPath <- _resolveExecutable string_ ;;
  (if PyStr.contains "/"
        (PyStr.replace (String PyStr.backslash "/") EmptyString newPath)
   then setTransferExecutable (VBool false) else ret tt) ;;
  j <- get_job ;;
  if negb (Py.truthy (_executablePath j)) then
    set_setting "Executable" (VStr newPath) ;;
    e <- getExecutable ;;
    modify_job (with_executablePath e)
  else
    if Dict.mem (VStr "Executable") (_settings j) then
      e <- getExecutable ;;
      if negb (Py.eq e (VStr newPath)) then
        print_err ["Warning: Generally speaking, only one executable should "
                   ++ "be used per submission."] ;;
        set_setting "Executable" (VStr newPath)
      else ret tt
    else ret tt.

Definition getArguments : M PyVal :=
  get_setting "Arguments" (RequiredSetting "Arguments").

Definition setArguments (string_ : string) : M unit :=
  set_setting "Arguments"
    (VStr (PyStr.chr PyStr.dquote ++ string_ ++ PyStr.chr PyStr.dquote)).

Definition getInitialDirectory : M PyVal :=
  get_setting "initialdir" (EmptySetting "InitialDirectory").
Definition setInitialDirectory (string_ : PyVal) : M unit :=
  set_setting "initialdir" string_.

Definition getInput : M PyVal :=
  get_setting "Input" (EmptySetting "Input").
Definition setInput (string_ : PyVal) : M unit :=
  set_setting "Input" string_.

Definition getOutput : M PyVal :=
  get_setting "Output" (EmptySetting "Output").
Definition setOutput (string_ : PyVal) : M unit :=
  set_setting "Output" string_.

Definition getError : M PyVal :=
  get_setting "Error" (EmptySetting "Error").
Definition setError (string_ : PyVal) : M unit :=
  set_setting "Error" string_.

Definition getLog : M PyVal :=
  get_setting "Log" (EmptySetting "Log").
Definition setLog (string_ : PyVal) : M unit :=
  set_setting "Log" string_.

Definition getRequirements : M PyVal :=
  get_setting "Requirements" (EmptySetting "Requirements").
Definition setRequirements (string_ : PyVal) : M unit :=
  set_setting "Requirements" string_.

Definition getMatlabLock : M bool :=
  v <- get_setting "concurrency_limits" (EmptySetting "MatlabLock") ;;
  match v with
  | VStr s => ret (PyStr.contains "matlab" (PyStr.lower s))
  | _ => raise (AttributeError "object has no attribute 'lower'")
  end.

Definition setMatlabLock (boolean : PyVal) : M unit :=
  if Py.truthy boolean then set_setting "concurrency_limits" (VStr "MATLAB")
  else
    j <- get_job ;;
    if Dict.mem (VStr "concurrency_limits") (_settings j)
    then modify_job (fun j =>
           with_settings (Dict.pop (VStr "concurrency_limits") (_settings j)) j)
    else ret tt.

(** The three resource setters pass their argument through [int].  Their
    documentation names the argument an integer ([integer],
    [megabytes_int]); they are modelled on an [int] argument, which [int]
    leaves as it is. *)
Definition getCPUNum : M PyVal :=
  get_setting "request_cpus" (EmptySetting "request_cpus").
Definition setCPUNum (integer : Z) : M unit :=
  set_setting "request_cpus" (VInt integer).

Definition getRAM : M PyVal :=
  get_setting "request_memory" (EmptySetting "request_RAM").
Definition setRAM (megabytes_int : Z) : M unit :=
  set_setting "request_memory" (VInt megabytes_int).

Definition getDiskSpace : M PyVal :=
  get_setting "request_disk" (EmptySetting "request_diskSpace").
Definition setDiskSpace (megabytes_int : Z) : M unit :=
  set_setting "request_disk" (VInt megabytes_int).

Definition getTransferFiles : M PyVal :=
  get_setting "should_transfer_files" (EmptySetting "should_transfer_files").
Definition setTransferFiles (string_ : PyVal) : M unit :=
  set_setting "should_transfer_files" string_.

Definition getWhenTransferOutput : M PyVal :=
  get_setting "when_to_transfer_ouput" (EmptySetting "when_to_transfer_output").
Definition setWhenTransferOutput (string_ : PyVal) : M unit :=
  set_setting "when_to_transfer_output" string_.

Definition getNotification : M PyVal :=
  get_setting "notification" (EmptySetting "notification").
Definition setNotification (string_ : PyVal) : M unit :=
  set_setting "notification" string_.

Definition getEmail : M PyVal :=
  get_setting "notify_user" (EmptySetting "Email").

(** One line of the submission text. *)
Definition setting_line (kv : PyVal * PyVal) : string :=
  Py.str (fst kv) ++ " = " ++ Py.str (snd kv) ++ PyStr.chr PyStr.newline.

Definition setting_lines (d : Dict.t) : string :=
  String.concat EmptyString (map setting_line d).

Definition _generateSubmitString (update : bool) : M string :=
  j <- get_job ;;
  let allLines := submitLinesSoFar j ++ setting_lines (_settings j) in
  (if update then
     modify_job (with_settings []) ;;
     modify_job (with_submitLinesSoFar allLines)
   else ret tt) ;;
  ret allLines.

Definition saveSubmitFile (filename : string) : M unit :=
  text <- _generateSubmitString false ;;
  modify_world (fun w => with_files ((filename, text) :: files w) w).

(** [Job.__str__] *)
Definition Job_str : M string :=
  u <- getUsername ;;
  h <- getServer ;;
  text <- _generateSubmitString false ;;
  ret ("<Job: " ++ Py.str (Py.of_opt u) ++ "@" ++ h
       ++ PyStr.chr PyStr.newline ++ PyStr.strip text ++ ">").

(** A result computed without the job or the world. *)
Definition lift {A} (r : Res A) : M A := fun s => (r, s).

(** [while executable.endswith(backslash): executable += args.pop(0)] *)
Fixpoint join_continued (executable : string) (args : list string)
    : Res (string * list string) :=
  match args with
  | [] =>
      if PyStr.endswith_char PyStr.backslash executable
      then Raise (IndexError "pop from empty list")
      else Ok (executable, args)
  | a :: r =>
      if PyStr.endswith_char PyStr.backslash executable
      then join_continued (executable ++ a) r
      else Ok (executable, args)
  end.

(** The test that opens [queue]: a double quote is left once the doubled
    ones are taken out. *)
Definition has_bad_quote (command_line : string) : bool :=
  PyStr.contains (PyStr.chr PyStr.dquote)
    (PyStr.replace (String PyStr.dquote (PyStr.chr PyStr.dquote))
                   EmptyString command_line).

Definition queue (command_line : string) (times : PyVal) : M unit :=
  let command_line := PyStr.strip command_line in
  if has_bad_quote command_line then raise (BadQuotes (PyStr.chr PyStr.dquote))
  else
    toks <- lift (Shlex.split command_line) ;;
    first <- match toks with
             | [] => raise (IndexError "list index out of range")
             | t :: _ => ret t
             end ;;
    setExecutable first ;;
    '(executable, args) <-
       match PyStr.split " " command_line with
       | [] => raise (IndexError "pop from empty list")
       | e :: r => lift (join_continued e r)
       end ;;
    let argStr := PyStr.join " " args in
    (if PyStr.nonempty argStr then setArguments argStr else ret tt) ;;
    _generateSubmitString true ;;
    modify_job (fun j =>
      with_submitLinesSoFar
        (submitLinesSoFar j ++
         (if negb (Py.eq times (VInt 1))
          then "Queue " ++ Py.str times ++ PyStr.chr PyStr.newline
          else "Queue" ++ PyStr.chr PyStr.newline)) j).

(** The most digits [int] converts ([sys.int_info.default_max_str_digits] of
    CPython 3.11 and later); a longer string of digits is refused. *)
Definition int_max_str_digits : nat := 4300.

(** [int(s)] on a string that passed [isdigit]: its value when the digits are
    the ASCII ones and number at most [int_max_str_digits], leading zeros
    counted; a [ValueError] on more digits and on a superscript digit. *)
Definition py_int (s : string) : M Z :=
  if PyStr.forallb_str PyStr.is_decimal s then
    if (String.length s <=? int_max_str_digits)%nat
    then ret (PyStr.int_of_digits s)
    else raise (ValueError
                  ("Exceeds the limit (4300 digits) for integer string "
                   ++ "conversion: value has "
                   ++ PyStr.str_of_int (Z.of_nat (String.length s))
                   ++ " digits; use sys.set_int_max_str_digits() "
                   ++ "to increase the limit"))
  else raise (ValueError "invalid literal for int() with base 10").

Definition submit_warning : string :=
  "WARNING: Since 'condor_submit' returned an error, your "
  ++ "job was probably not submitted.  If your job submitted "
  ++ "after all, this object will still not be able to "
  ++ "monitor its status.".

(** [submit() -> cluster_int]: the new cluster number, or [None]. *)
Definition submit : M (option Z) :=
  sh <- submitShell ;;
  j <- get_job ;;
  text <- _generateSubmitString true ;;
  '(retval, msg) <-
     execute sh ("condor_submit -remote " ++ server j) (Some text) false ;;
  if negb (retval =? 0) then
    print_err ["ERROR #" ++ PyStr.str_of_int retval ++ ":"] ;;
    print_err [submit_warning] ;;
    ret None
  else
    print [msg] ;;
    match re_search_cluster msg with
    | None => raise (BadFormatError "condor_submit")
    | Some clusterStr =>
        if negb (PyStr.isdigit clusterStr)
        then raise (BadFormatError "condor_submit")
        else
          c <- py_int clusterStr ;;
          modify_job (with_cluster (Some c)) ;;
          j' <- get_job ;;
          ret (cluster j')
    end.

(** [str(self.cluster)] *)
Definition cluster_str (j : Job) : string :=
  Py.str (match cluster j with None => VNone | Some c => VInt c end).

(** The command line of [_checkQueue]; the second format holds a line feed. *)
Definition condor_q_formats (c : string) : string :=
  "condor_q " ++ c
  ++ " -format " ++ PyStr.chr PyStr.dquote ++ "%d." ++ PyStr.chr PyStr.dquote
  ++ " ClusterId -format " ++ PyStr.chr PyStr.dquote ++ "%d"
  ++ PyStr.chr PyStr.newline ++ PyStr.chr PyStr.dquote ++ " ProcId".

(** [_checkQueue]: the guard is the truth value of [self.cluster], which
    [None] and [0] both fail. *)
Definition _checkQueue : M (Z * string) :=
  j <- get_job ;;
  if Py.truthy (match cluster j with None => VNone | Some c => VInt c end)
  then submitShell_execute (condor_q_formats (cluster_str j)) None false
  else raise (SubmissionError "_checkQueue()").

(** The name [mesg] is read in [wait], [poll] and [status]; no function,
    module or built-in binds it, so reading it raises [NameError]. *)
Definition read_mesg : M PyVal := raise (NameError "mesg").

(** The body of the [while] loop of [wait], at most [fuel] rounds of it.
    The poll time starts at 1.0 and grows by 0.5: multiples of one half,
    which binary floating point holds exactly; they are kept as reduced
    fractions. *)
Fixpoint wait_loop (fuel : nat) (currPollTime : Q) (retval : Z) (msg : string)
    : M unit :=
  j <- get_job ;;
  if PyStr.contains (cluster_str j) (PyStr.strip msg) then
    match fuel with
    | O => lift Fuel
    | S fuel' =>
        (if negb (retval =? 0) then
           mesg <- read_mesg ;;
           print_err ["ERROR #" ++ PyStr.str_of_int retval ++ ":"; Py.str mesg]
         else ret tt) ;;
        print_end ["."] EmptyString ;;
        j <- get_job ;;
        sleep (py_min currPollTime (maxPollTime j)) ;;
        let currPollTime := Qred (currPollTime + (1 # 2))%Q in
        '(retval, msg) <- _checkQueue ;;
        wait_loop fuel' currPollTime retval msg
    end
  else ret tt.

Definition wait (fuel : nat) : M unit :=
  let currPollTime := 1%Q in
  j <- get_job ;;
  match cluster j with
  | None => raise (SubmissionError "wait()")
  | Some _ =>
      '(retval, msg) <- _checkQueue ;;
      (if PyStr.nonempty (PyStr.strip msg)
       then print_end ["Waiting for cluster " ++ cluster_str j ++ " to finish"]
                      EmptyString
       else ret tt) ;;
      wait_loop fuel currPollTime retval msg ;;
      print []
  end.

Definition poll : M Z :=
  j <- get_job ;;
  match cluster j with
  | None => raise (SubmissionError "poll()")
  | Some _ =>
      '(retval, msg) <- _checkQueue ;;
      if negb (retval =? 0) then
        mesg <- read_mesg ;;
        print_err ["ERROR #" ++ PyStr.str_of_int retval ++ ":"; Py.str mesg] ;;
        raise (BadFormatError "condor_q")
      else
        j <- get_job ;;
        ret (Z.of_nat (PyStr.count (cluster_str j ++ ".") msg))
  end.

Definition status {A} (outputFn : string -> M A) : M A :=
  j <- get_job ;;
  match cluster j with
  | None => raise (SubmissionError "status()")
  | Some _ =>
      '(retval, msg) <- submitShell_execute ("condor_q " ++ cluster_str j)
                                            None false ;;
      if negb (retval =? 0) then
        mesg <- read_mesg ;;
        print_err ["ERROR #" ++ PyStr.str_of_int retval ++ ":"; Py.str mesg] ;;
        raise (BadFormatError "condor_q")
      else outputFn msg
  end.

(** The two formatters the documentation of [status] names: [print], which
    returns [None], and [str]. *)
Definition outputFn_print (msg : string) : M PyVal := print [msg] ;; ret VNone.
Definition outputFn_str (msg : string) : M PyVal := ret (VStr msg).

(** ** The mail map, the constructor and the methods as operations *)

Section MailMap.

(** [pickle.load(BytesIO(bytes))] of the standard library, for a file that
    holds a dictionary: the dictionary, or the exception of a file that
    cannot be read back. *)
Variable pickle_load : string -> Exn + Dict.t.

Definition mail_map_command : string :=
  "cat /mnt/config/scripts/mail_map.pickle".

Definition default_email : string := "kollerg14@mail.wlu.edu".

Definition setEmail (string_ : PyVal) : M unit :=
  if Py.truthy string_ then set_setting "notify_user" string_
  else
    '(status, bytesOut) <- submitShell_execute mail_map_command None true ;;
    if status =? 0 then
      match pickle_load bytesOut with
      | inl e => raise e
      | inr emails =>
          u <- getUsername ;;
          match Dict.get (Py.of_opt u) emails with
          | Some v => set_setting "notify_user" v
          | None =>
              u' <- getUsername ;;
              print_err ["Note:"; Py.str (Py.of_opt u');
                         "not in email mapping. "; "Using a default value."] ;;
              match Dict.get VNone emails with
              | Some v => set_setting "notify_user" v
              | None => set_setting "notify_user" (VStr default_email)
              end
          end
      end
    else ret tt.

(** The attributes [Job.__init__] assigns before its first call; [username]
    and [server] do not exist yet and are assigned before they are read. *)
Definition blank_job : Job :=
  mkJob validUniverses [] EmptyString None (VStr EmptyString) None (30 # 1)
        None None EmptyString.

(** [Job.__init__(universe, username, server)] *)
Definition Job_init (universe : PyVal) (username : option string)
    (server : string) : M unit :=
  modify_job (fun _ => blank_job) ;;
  try_except
    (r <- Process_run "whoami" None ;;
     modify_job (with_submitterUsername (Some (PyStr.strip (Process_get r)))))
    (fun _ => true)
    (modify_job (with_submitterUsername None)) ;;
  setUniverse universe ;;
  _setUsername username ;;
  _setServer server ;;
  setCPUNum 1 ;;
  setRAM 1024 ;;
  setDiskSpace 32 ;;
  p <- Process_run "which condor_submit" None ;;
  j <- get_job ;;
  u <- getUsername ;;
  (if (exitcode p =? 0)
      && Py.eq (Py.of_opt u) (Py.of_opt (_submitterUsername j))
   then
     sh <- Shell_init None None ;;
     modify_job (with_submitShell (Some sh))
   else
     h <- getServer ;;
     u <- getUsername ;;
     sh <- Shell_init (Some h) u ;;
     modify_job (with_submitShell (Some sh))) ;;
  setEmail VNone.

(** The public methods of a [Job] that act on it, with their arguments. *)
Inductive Op : Type :=
| OpSetUniverse (v : PyVal)
| OpSetExecutable (s : string)
| OpSetTransferExecutable (v : PyVal)
| OpSetArguments (s : string)
| OpSetInitialDirectory (v : PyVal)
| OpSetInput (v : PyVal)
| OpSetOutput (v : PyVal)
| OpSetError (v : PyVal)
| OpSetLog (v : PyVal)
| OpSetRequirements (v : PyVal)
| OpSetMatlabLock (v : PyVal)
| OpSetCPUNum (n : Z)
| OpSetRAM (n : Z)
| OpSetDiskSpace (n : Z)
| OpSetTransferFiles (v : PyVal)
| OpSetWhenTransferOutput (v : PyVal)
| OpSetNotification (v : PyVal)
| OpSetEmail (v : PyVal)
| OpGet (k : string)
| OpStr
| OpSaveSubmitFile (filename : string)
| OpQueue (command_line : string) (times : PyVal)
| OpSubmit
| OpWait (fuel : nat)
| OpPoll
| OpStatusPrint
| OpStatusStr.

Definition is_submit (o : Op) : bool :=
  match o with OpSubmit => true | _ => false end.

Definition ignore {A} (m : M A) : M unit := _ <- m ;; ret tt.

(** The getter named [k]. *)
Definition getter (k : string) : M unit :=
  if String.eqb k "Universe" then ignore getUniverse
  else if String.eqb k "Username" then ignore getUsername
  else if String.eqb k "Server" then ignore getServer
  else if String.eqb k "Executable" then ignore getExecutable
  else if String.eqb k "TransferExecutable" then ignore getTransferExecutable
  else if String.eqb k "Arguments" then ignore getArguments
  else if String.eqb k "InitialDirectory" then ignore getInitialDirectory
  else if String.eqb k "Input" then ignore getInput
  else if String.eqb k "Output" then ignore getOutput
  else if String.eqb k "Error" then ignore getError
  else if String.eqb k "Log" then ignore getLog
  else if String.eqb k "Requirements" then ignore getRequirements
  else if String.eqb k "MatlabLock" then ignore getMatlabLock
  else if String.eqb k "CPUNum" then ignore getCPUNum
  else if String.eqb k "RAM" then ignore getRAM
  else if String.eqb k "DiskSpace" then ignore getDiskSpace
  else if String.eqb k "TransferFiles" then ignore getTransferFiles
  else if String.eqb k "WhenTransferOutput" then ignore getWhenTransferOutput
  else if String.eqb k "Notification" then ignore getNotification
  else if String.eqb k "Email" then ignore getEmail
  else raise (AttributeError k).

Definition run_op (o : Op) : M unit :=
  match o with
  | OpSetUniverse v => setUniverse v
  | OpSetExecutable s => setExecutable s
  | OpSetTransferExecutable v => setTransferExecutable v
  | OpSetArguments s => setArguments s
  | OpSetInitialDirectory v => setInitialDirectory v
  | OpSetInput v => setInput v
  | OpSetOutput v => setOutput v
  | OpSetError v => setError v
  | OpSetLog v => setLog v
  | OpSetRequirements v => setRequirements v
  | OpSetMatlabLock v => setMatlabLock v
  | OpSetCPUNum n => setCPUNum n
  | OpSetRAM n => setRAM n
  | OpSetDiskSpace n => setDiskSpace n
  | OpSetTransferFiles v => setTransferFiles v
  | OpSetWhenTransferOutput v => setWhenTransferOutput v
  | OpSetNotification v => setNotification v
  | OpSetEmail v => setEmail v
  | OpGet k => getter k
  | OpStr => ignore Job_str
  | OpSaveSubmitFile f => saveSubmitFile f
  | OpQueue c t => queue c t
  | OpSubmit => ignore submit
  | OpWait fuel => wait fuel
  | OpPoll => ignore poll
  | OpStatusPrint => ignore (status outputFn_print)
  | OpStatusStr => ignore (status outputFn_str)
  end.

(** A sequence of operations, each one run whatever the one before it
    returned or raised, as a caller that catches exceptions can do. *)
Fixpoint run_ops (ops : list Op) (s : St) : St :=
  match ops with
  | [] => s
  | o :: r => run_ops r (snd (run_op o s))
  end.

End MailMap.

(** ** Sample worlds and jobs *)

Module Sample.

(** A world that answers its calls from a script: the first call gets the
    first reply, and so on; past the script every call exits with 0 and
    prints nothing. *)
Definition scripted (script : list Reply) : list Call -> Reply :=
  fun history => nth (List.length history - 1) script (mkReply 0 EmptyString).

Definition world_of (script : list Reply) : World :=
  mkWorld (scripted script) [] EmptyString EmptyString [] [].

(** A mail map that cannot be read back. *)
Definition no_pickle (bytes : string) : Exn + Dict.t :=
  inl (ValueError "could not unpickle").

(** A mail map with an entry for [kollerg] and one for [None], whatever
    the bytes. *)
Definition two_entries (bytes : string) : Exn + Dict.t :=
  inr [(VStr "kollerg", VStr "kollerg@wlu.edu");
       (VNone, VStr "admin@wlu.edu")].

(** A mail map with an entry for [None] only, and an empty one. *)
Definition default_only (bytes : string) : Exn + Dict.t :=
  inr [(VNone, VStr "admin@wlu.edu")].

Definition empty_map (bytes : string) : Exn + Dict.t := inr [].

Definition nl : string := PyStr.chr PyStr.newline.
Definition dq : string := PyStr.chr PyStr.dquote.

(** [Job('vanilla', 'kollerg')] on a machine where [whoami] says
    [kollerg], [condor_submit] is installed and the mail map is missing. *)
Definition init_script : list Reply :=
  [mkReply 0 ("kollerg" ++ nl);
   mkReply 0 ("/usr/bin/condor_submit" ++ nl);
   mkReply 1 "cat: /mnt/config/scripts/mail_map.pickle: No such file"].

Definition new_job (rest : list Reply) : St :=
  snd (Job_init no_pickle (VStr "vanilla") (Some "kollerg")
         "condor.cs.wlu.edu" (mkSt blank_job (world_of (init_script ++ rest)))).

(** The same job after [queue('whoami')], where [ls whoami] fails and
    [which whoami] finds the program; [rest] scripts the later calls. *)
Definition queue_script : list Reply :=
  [mkReply 2 "ls: whoami: No such file";
   mkReply 0 ("/usr/bin/whoami" ++ nl)].

Definition queued_job (rest : list Reply) : St :=
  run_ops no_pickle [OpQueue "whoami" (VInt 1)]
    (new_job (queue_script ++ rest)).

(** The reply of [condor_submit] for the cluster number [n]. *)
Definition submit_reply (n : string) : Reply :=
  mkReply 0 ("Submitting job(s)." ++ nl
             ++ "1 job(s) submitted to cluster " ++ n ++ "." ++ nl).

(** The job once a [submit()] was answered with cluster 42. *)
Definition submitted_job (rest : list Reply) : St :=
  run_ops no_pickle [OpSubmit] (queued_job (submit_reply "42" :: rest)).

Definition local_shell : Shell := mkShell true None None.

(** Three command lines: a double quote inside single quotes, the same
    with a backslash before it, and a doubled double quote there. *)
Definition quote_in_single_quotes : string := "echo 'a" ++ dq ++ "b'".
Definition escaped_quote_in_single_quotes : string :=
  "echo 'a" ++ PyStr.chr PyStr.backslash ++ dq ++ "b'".
Definition doubled_quote_in_single_quotes : string :=
  "echo 'a" ++ dq ++ dq ++ "b'".
Definition double_quoted_word : string := "echo " ++ dq ++ "a" ++ dq.

(** A new job for which [ls echo] fails and [which echo] finds the
    program. *)
Definition echo_job : St :=
  new_job [mkReply 2 "ls: echo: No such file";
           mkReply 0 ("/bin/echo" ++ nl)].

(** The job of [submitted_job] with [maxPollTime] set to [t]. *)
Definition impatient_job (t : Q) (rest : list Reply) : St :=
  mkSt (with_maxPollTime t (job (submitted_job rest)))
       (world (submitted_job rest)).

(** A reply of [condor_q] with one process of cluster 42 left, and one with
    none. *)
Definition one_left : Reply := mkReply 0 ("42.0" ++ nl).
Definition none_left : Reply := mkReply 0 EmptyString.

(** A failing [condor_q] whose output names the cluster. *)
Definition condor_q_failure : Reply :=
  mkReply 1 ("Error: cannot reach the schedd for 42.0" ++ nl).

End Sample.

(** ** What the specification says of a reply of the submit command *)





(** ** The steps of a call of the shell, named *)

(** The text a flush returns. *)
Definition flush_text (j : Job) : string :=
  submitLinesSoFar j ++ setting_lines (_settings j).

(** The state after [_generateSubmitString(True)]. *)
Definition flushed (s : St) : St :=
  mkSt (with_submitLinesSoFar (flush_text (job s)) (with_settings [] (job s)))
       (world s).

(** The call [sh.execute(commandString, inputStr)] launches. *)
Definition shell_call (sh : Shell) (commandString : string)
    (inputStr : option string) : Call :=
  mkCall (_buildFullCommand sh commandString) inputStr.

(** The reply of the world to the call [c] made in state [s], and the state
    once the call is made. *)
Definition answer (s : St) (c : Call) : Reply :=
  oracle (world s) (c :: calls (world s)).

Definition called (s : St) (c : Call) : St :=
  mkSt (job s) (with_calls (c :: calls (world s)) (world s)).

(** The call [submit] makes in state [s] through the shell [sh]. *)
Definition submit_call (s : St) (sh : Shell) : Call :=
  shell_call sh ("condor_submit -remote " ++ server (job s))
             (Some (flush_text (job s))).

(** The call [_checkQueue] makes for the cluster number [c]. *)
Definition check_call (sh : Shell) (c : Z) : Call :=
  shell_call sh (condor_q_formats (PyStr.str_of_int c)) None.

(** The call [status] makes for the cluster number [c]. *)
Definition status_call (sh : Shell) (c : Z) : Call :=
  shell_call sh ("condor_q " ++ PyStr.str_of_int c) None.

(** The call [setEmail] makes to read the mail map. *)
Definition mail_map_call (sh : Shell) : Call :=
  shell_call sh mail_map_command None.

(** ** What the specification says of the mail map and of quotes *)

(** The address for the user [u]: the entry of [u], else the entry of
    [None], else the address written in the code. *)
Definition mail_for (emails : Dict.t) (u : option string) : PyVal :=
  match Dict.get (Py.of_opt u) emails with
  | Some a => a
  | None =>
      match Dict.get VNone emails with
      | Some a => a
      | None => VStr default_email
      end
  end.

(** Some run of consecutive double quotes of [s] has an odd length;
    [odd] tells whether the run that ends just before [s] has one. *)
Fixpoint odd_quote_run_from (odd : bool) (s : string) : bool :=
  match s with
  | EmptyString => odd
  | String c r =>
      if Ascii.eqb c PyStr.dquote then odd_quote_run_from (negb odd) r
      else odd || odd_quote_run_from false r
  end.

Definition has_odd_quote_run (s : string) : bool :=
  odd_quote_run_from false s.

(** An exception other than [BadQuotes]. *)
Definition not_BadQuotes (e : Exn) : Prop :=
  match e with BadQuotes _ => False | _ => True end.

(** A computation that never raises [BadQuotes]. *)
Definition quote_safe {A} (m : M A) : Prop :=
  forall s e, fst (m s) = Raise e -> not_BadQuotes e.

(** A computation that leaves the attribute [f] of the job as it is. *)
Definition keeps {X A} (f : Job -> X) (m : M A) : Prop :=
  forall s, f (job (snd (m s))) = f (job s).

(** A computation that, when it returns, leaves a job with a shell. *)
Definition gives_shell {A} (m : M A) : Prop :=
  forall s a, fst (m s) = Ok a ->
              exists sh, _submitShell (job (snd (m s))) = Some sh.

(** What the methods rely on in a job that [__init__] built: the list of
    universes and a shell. *)
Definition constructed (j : Job) : Prop :=
  _validUniverses j = validUniverses /\ exists sh, _submitShell j = Some sh.

(** ** What the specification says of the rounds of [wait] *)

(** The reply to the call number [k] of [_checkQueue] made from the state
    [s], counting from 0, no other call being made in between. *)
Definition check_reply (s : St) (sh : Shell) (c : Z) (k : nat) : Reply :=
  oracle (world s) (repeat (check_call sh c) (S k) ++ calls (world s)).

(** The reply the loop holds, then the replies to the calls it makes. *)
Definition pending (s : St) (sh : Shell) (c : Z) (held : Reply) (i : nat)
    : Reply :=
  match i with
  | O => held
  | S j => check_reply s sh c j
  end.

(** The cluster number still stands in the reply, as the loop of [wait]
    tests it. *)
Definition still_queued (c : Z) (r : Reply) : bool :=
  PyStr.contains (PyStr.str_of_int c) (PyStr.strip (PyStr.strip (output r))).

(** The intervals of [n] rounds that start with the interval [t], capped
    at [cap]. *)
Fixpoint backoff (t cap : Q) (n : nat) : list Q :=
  match n with
  | O => []
  | S m => py_min t cap :: backoff (Qred (t + (1 # 2))) cap m
  end.

(** The interval before the re-poll number [k + 1], uncapped: 1 + k/2. *)
Definition poll_time (k : nat) : Q := Qred (1 + (Z.of_nat k # 2)).

(** The state after one round of the loop of [wait]: the dot printed, the
    sleep taken, the queue asked again. *)
Definition after_round (s : St) (t : Q) (c : Call) : St :=
  called
    (mkSt (job s)
       (with_sleeps (py_min t (maxPollTime (job s)) :: sleeps (world s))
          (with_stdout (stdout (world s) ++ PyStr.join " " ["."] ++ EmptyString)
                       (world s))))
    c.

(** ** [Process]: the output kept from one read to the next *)

Module Proc.

(** What [subprocess.Popen.communicate] does at one call: it returns the
    bytes the process wrote, or raises [ValueError] because the streams of
    the process are closed already. *)
Inductive Communicate : Type :=
| Returns (outBytes : string)
| RaisesValueError.

(** The attributes of a [Process] that its methods use. *)
Record t : Type := mk { args : string; pid : Z; _savedOutput : string }.

(** [Process.__init__]: nothing is saved yet. *)
Definition init (args : string) (pid : Z) : t := mk args pid EmptyString.

Definition with_savedOutput (o : string) (p : t) : t := mk (args p) (pid p) o.

(** A process object and the text of the error stream. *)
Definition state : Type := (t * string)%type.

(** [print(a, b, ..., file=sys.stderr)] *)
Definition print_err (words : list string) (err : string) : string :=
  err ++ PyStr.join " " words ++ PyStr.chr PyStr.newline.

(** [Process.get(ignoreEmpty)], where [comm] is what [communicate] does at
    this call and [polled] what [self.poll()] returns: the saved output
    followed by the new output, stripped; nothing stays saved. *)
Definition get (ignoreEmpty : bool) (comm : Communicate) (polled : option Z)
    (st : state) : string * state :=
  let '(p, err) := st in
  let '(outBytes, err) :=
    match comm with
    | Returns b => (b, err)
    | RaisesValueError =>
        (EmptyString,
         if negb ignoreEmpty then
           let err :=
             print_err ["get: end of output.  Pid"; PyStr.str_of_int (pid p);
                        "is probably dead."] err in
           match polled with
           | Some code =>
               print_err ["get: Yup, pid"; PyStr.str_of_int (pid p);
                          "died a while ago.";
                          "Its final words were the retval";
                          PyStr.str_of_int code ++ "."] err
           | None => err
           end
         else err)
    end in
  let charString := outBytes in
  let retval := _savedOutput p ++ PyStr.strip charString in
  (retval, (with_savedOutput EmptyString p, err)).

(** [Process.finish()]: [self._savedOutput += self.get(True)].  The
    attribute is read before [get] is called, and what [get] returns is
    added to that value. *)
Definition finish (comm : Communicate) (st : state) : state :=
  let old := _savedOutput (fst st) in
  let '(retval, (p, err)) := get true comm None st in
  (with_savedOutput (old ++ retval) p, err).

End Proc.

(** ** What holds of the settings of every job *)

(** The keys the setters of [Job] assign to. *)
Definition setting_keys : list string :=
  ["Universe"; "Executable"; "transfer_executable"; "Arguments";
   "initialdir"; "Input"; "Output"; "Error"; "Log"; "Requirements";
   "concurrency_limits"; "request_cpus"; "request_memory"; "request_disk";
   "should_transfer_files"; "when_to_transfer_output"; "notification";
   "notify_user"].

(** No key stands twice in the mapping, as in a [dict]. *)
Fixpoint dict_wf (d : Dict.t) : bool :=
  match d with
  | [] => true
  | (k, _) :: r => negb (Dict.mem k r) && dict_wf r
  end.

(** Every key is a string of [setting_keys]. *)
Definition keys_known (d : Dict.t) : bool :=
  forallb (fun kv =>
             match fst kv with
             | VStr k => existsb (String.eqb k) setting_keys
             | _ => false
             end) d.

Definition settings_ok (j : Job) : Prop :=
  dict_wf (_settings j) = true /\ keys_known (_settings j) = true.

(** From [j] to [j'] the accumulated text only grew at its end. *)
Definition text_grew (j j' : Job) : Prop :=
  exists t, submitLinesSoFar j' = submitLinesSoFar j ++ t.

(** A computation that takes every job to one related to it by [R]. *)
Definition steps (R : Job -> Job -> Prop) {A} (m : M A) : Prop :=
  forall s, R (job s) (job (snd (m s))).

(** The methods that only ask. *)
Definition is_query (o : Op) : bool :=
  match o with
  | OpGet _ | OpStr | OpSaveSubmitFile _ | OpWait _ | OpPoll
  | OpStatusPrint | OpStatusStr => true
  | _ => false
  end.

(** ** More sample jobs *)

Module Cases.

(** A new job for which neither [ls] nor [which] finds the program. *)
Definition lost_job : St :=
  Sample.new_job [mkReply 2 "ls: cannot access 'nosuch'";
                  mkReply 1 "which: no nosuch in PATH"].

(** The job of [Sample.queued_job] once more, for a second stanza: [ls]
    fails again and [which] finds another program. *)
Definition second_stanza_script : list Reply :=
  [mkReply 2 "ls: hostname: No such file";
   mkReply 0 ("/bin/hostname" ++ Sample.nl)].



(** A job whose [submit()] was answered with cluster 0. *)
Definition cluster_zero_job (rest : list Reply) : St :=
  run_ops Sample.no_pickle [OpSubmit]
    (Sample.queued_job (Sample.submit_reply "0" :: rest)).

End Cases.

(** * Properties *)

(** ** The monad *)

Lemma bind_ok {A B} (m : M A) (k : A -> M B) (s s' : St) (a : A) :
  m s = (Ok a, s') -> bind m k s = k a s'.
Proof. unfold bind; intros ->; reflexivity. Qed.

Lemma bind_raise {A B} (m : M A) (k : A -> M B) (s s' : St) (e : Exn) :
  m s = (Raise e, s') -> bind m k s = (Raise e, s').
Proof. unfold bind; intros ->; reflexivity. Qed.

(** ** Strings *)

Lemma append_empty_r (s : string) : s ++ EmptyString = s.
Proof. induction s as [|c r IH]; simpl; [reflexivity | now rewrite IH]. Qed.

Lemma append_assoc (a b c : string) : (a ++ b) ++ c = a ++ (b ++ c).
Proof. induction a as [|x a IH]; simpl; [reflexivity | now rewrite IH]. Qed.

Lemma length_append (a b : string) :
  String.length (a ++ b) = (String.length a + String.length b)%nat.
Proof. induction a as [|x a IH]; simpl; [reflexivity | now rewrite IH]. Qed.

(** ** C2: flushing the settings *)






(** ** Values and dictionaries *)

Lemma Py_eq_refl (v : PyVal) : Py.eq v v = true.
Proof.
  destruct v as [|b|n|t]; simpl.
  - reflexivity.
  - now destruct b.
  - apply Z.eqb_refl.
  - apply String.eqb_refl.
Qed.

Lemma Dict_get_set_same (k v : PyVal) (d : Dict.t) :
  Dict.get k (Dict.set k v d) = Some v.
Proof.
  induction d as [|[k' v'] r IH]; simpl.
  - now rewrite Py_eq_refl.
  - destruct (Py.eq k k') eqn:E; simpl; rewrite E; [reflexivity | exact IH].
Qed.

Lemma Py_eq_VStr (x : PyVal) (t : string) : Py.eq x (VStr t) = true <-> x = VStr t.
Proof.
  destruct x as [|b|n|u]; simpl; try (split; [discriminate | discriminate]).
  rewrite String.eqb_eq. split; [now intros -> | now intros [= ->]].
Qed.

Lemma in_list_validUniverses (x : PyVal) :
  Py.in_list x validUniverses = true <-> In x validUniverses.
Proof.
  unfold Py.in_list. rewrite existsb_exists. split.
  - intros [y [Hy E]]. unfold validUniverses in Hy. simpl in Hy.
    repeat (destruct Hy as [<- | Hy];
            [apply Py_eq_VStr in E; subst x; simpl; tauto |]).
    contradiction.
  - intros H. exists x. split; [exact H | apply Py_eq_refl].
Qed.

(** ** C6: the universe setter *)

Lemma setUniverse_valid (s : St) (x : PyVal) :
  _validUniverses (job s) = validUniverses ->
  In x validUniverses ->
  setUniverse x s
  = (Ok tt, mkSt (with_settings (Dict.set (VStr "Universe") x (_settings (job s)))
                                (job s)) (world s)).
Proof.
  intros Hv Hin. apply in_list_validUniverses in Hin.
  unfold setUniverse, bind, get_job. rewrite Hv, Hin. reflexivity.
Qed.

Lemma setUniverse_invalid (s : St) (x : PyVal) :
  _validUniverses (job s) = validUniverses ->
  ~ In x validUniverses ->
  setUniverse x s = (Raise (InvalidUniverseError x), s).
Proof.
  intros Hv Hin. unfold setUniverse, bind, get_job. rewrite Hv.
  destruct (Py.in_list x validUniverses) eqn:E; [|reflexivity].
  apply in_list_validUniverses in E. contradiction.
Qed.

(** C6.  On a job whose list of universes is the one [__init__] gives it,
    [setUniverse(x)] succeeds exactly when [x] is one of the seven strings
    vanilla, standard, java, scheduler, local, grid, vm; it then stores [x]
    under [Universe], where [getUniverse] finds it; for any other [x] it
    raises [InvalidUniverseError(x)] and leaves the job, its settings
    included, and the world as they were. *)
Theorem setUniverse_succeeds_iff_valid (s : St) (x : PyVal) :
  _validUniverses (job s) = validUniverses ->
  let s' := snd (setUniverse x s) in
  (fst (setUniverse x s) = Ok tt <-> In x validUniverses)
  /\ (In x validUniverses ->
      Dict.get (VStr "Universe") (_settings (job s')) = Some x
      /\ getUniverse s' = (Ok x, s'))
  /\ (~ In x validUniverses ->
      setUniverse x s = (Raise (InvalidUniverseError x), s)).
Proof.
  intros Hv s'. subst s'. split; [|split].
  - split.
    + intros H. destruct (Py.in_list x validUniverses) eqn:E.
      * now apply in_list_validUniverses.
      * assert (Hn : ~ In x validUniverses).
        { intros Hin. apply in_list_validUniverses in Hin. congruence. }
        rewrite (setUniverse_invalid s x Hv Hn) in H. discriminate.
    + intros H. now rewrite (setUniverse_valid s x Hv H).
  - intros H. rewrite (setUniverse_valid s x Hv H). simpl.
    assert (G : Dict.get (VStr "Universe")
                  (Dict.set (VStr "Universe") x (_settings (job s))) = Some x)
      by apply Dict_get_set_same.
    split; [exact G|].
    unfold getUniverse, get_setting, bind, get_job. simpl. now rewrite G.
  - apply setUniverse_invalid, Hv.
Qed.

Lemma setUniverse_succeeds_iff_valid_witness :
  _validUniverses (job (Sample.new_job [])) = validUniverses
  /\ fst (setUniverse (VStr "grid") (Sample.new_job [])) = Ok tt
  /\ setUniverse (VStr "Grid") (Sample.new_job [])
     = (Raise (InvalidUniverseError (VStr "Grid")), Sample.new_job []).
Proof.
  assert (H : _validUniverses (job (Sample.new_job [])) = validUniverses)
    by reflexivity.
  split; [exact H|].
  destruct (setUniverse_succeeds_iff_valid (Sample.new_job []) (VStr "grid") H)
    as [[_ Hok] _].
  destruct (setUniverse_succeeds_iff_valid (Sample.new_job []) (VStr "Grid") H)
    as [_ [_ Hbad]].
  split.
  - apply Hok. simpl. tauto.
  - apply Hbad. simpl. intros G.
    repeat (destruct G as [G | G]; [discriminate G|]). exact G.
Defined.

(** ** C8: the transfer_executable pair *)

Lemma setTransferExecutable_not_bool (s : St) (v : PyVal) :
  Py.is_bool v = false ->
  exists m, setTransferExecutable v s = (Raise (TypeError m), s).
Proof.
  intros H. unfold setTransferExecutable. rewrite H. simpl.
  eexists. reflexivity.
Qed.

Lemma setTransferExecutable_bool (s : St) (b : bool) :
  setTransferExecutable (VBool b) s
  = (Ok tt, mkSt (with_settings
                    (Dict.set (VStr "transfer_executable") (VBool b)
                              (_settings (job s))) (job s)) (world s)).
Proof. reflexivity. Qed.

(** What the getter returns is what [getInput] returns, up to the name in
    the exception. *)
Lemma getTransferExecutable_reads_Input (s : St) :
  getTransferExecutable s
  = match Dict.get (VStr "Input") (_settings (job s)) with
    | Some v => (Ok v, s)
    | None => (Raise (EmptySetting "TransferExecutable"), s)
    end.
Proof.
  unfold getTransferExecutable, get_setting, bind, get_job.
  now destruct (Dict.get (VStr "Input") (_settings (job s))).
Qed.

(** C8, at the failing input.  On a new job, [setTransferExecutable(True)]
    stores [True] under [transfer_executable], and the call of
    [getTransferExecutable()] that follows raises [EmptySetting]; once
    [setInput('in.txt')] was called it returns ['in.txt']: the getter reads
    the key [Input]. *)
Theorem getTransferExecutable_does_not_round_trip :
  let s0 := Sample.new_job [] in
  let s1 := snd (setTransferExecutable (VBool true) s0) in
  let s2 := snd (setTransferExecutable (VBool true)
                   (snd (setInput (VStr "in.txt") s0))) in
  fst (setTransferExecutable (VBool true) s0) = Ok tt
  /\ Dict.get (VStr "transfer_executable") (_settings (job s1))
     = Some (VBool true)
  /\ fst (getTransferExecutable s1) = Raise (EmptySetting "TransferExecutable")
  /\ fst (getTransferExecutable s2) = Ok (VStr "in.txt").
Proof. vm_compute. repeat split. Qed.

(** ** Prefixes and runs of digits *)

Lemma startswith_iff (p s : string) :
  PyStr.startswith p s = true <-> exists t, s = p ++ t.
Proof.
  revert s. induction p as [|a p IH]; intros s; simpl.
  - split; [intros _; now exists s | reflexivity].
  - destruct s as [|b s]; simpl.
    + split; [discriminate | intros [t Ht]; discriminate].
    + destruct (Ascii.eqb_spec a b) as [->|Hne]; simpl.
      * rewrite IH. split; intros [t Ht]; exists t; congruence.
      * split; [discriminate | intros [t [= E _]]; congruence].
Qed.







(** ** The search for the cluster number *)









(** ** The steps of a call of the shell *)

Lemma bind_get_job {B} (k : Job -> M B) (s : St) :
  bind get_job k s = k (job s) s.
Proof. reflexivity. Qed.

Lemma submitShell_some (s : St) (sh : Shell) :
  _submitShell (job s) = Some sh -> submitShell s = (Ok sh, s).
Proof. intros H. unfold submitShell. rewrite bind_get_job, H. reflexivity. Qed.

Lemma generateSubmitString_true (s : St) :
  _generateSubmitString true s = (Ok (flush_text (job s)), flushed s).
Proof. reflexivity. Qed.

Lemma generateSubmitString_false (s : St) :
  _generateSubmitString false s = (Ok (flush_text (job s)), s).
Proof. reflexivity. Qed.

Lemma execute_eq (sh : Shell) (commandString : string)
    (inputStr : option string) (returnBytes : bool) (s : St) :
  let c := shell_call sh commandString inputStr in
  execute sh commandString inputStr returnBytes s
  = (Ok (exitcode (answer s c),
         if returnBytes then output (answer s c)
         else PyStr.strip (output (answer s c))),
     called s c).
Proof. destruct returnBytes; reflexivity. Qed.

Lemma submitShell_execute_eq (sh : Shell) (commandString : string)
    (inputStr : option string) (returnBytes : bool) (s : St) :
  _submitShell (job s) = Some sh ->
  let c := shell_call sh commandString inputStr in
  submitShell_execute commandString inputStr returnBytes s
  = (Ok (exitcode (answer s c),
         if returnBytes then output (answer s c)
         else PyStr.strip (output (answer s c))),
     called s c).
Proof.
  intros H c. unfold submitShell_execute.
  rewrite (bind_ok _ _ _ _ _ (submitShell_some s sh H)).
  apply execute_eq.
Qed.

Ltac step lem := rewrite (bind_ok _ _ _ _ _ lem); cbv beta iota.

(** ** C1: what [submit] makes of the reply *)

(** [submit] up to the test of the exit status. *)
Lemma submit_after_call (s : St) (sh : Shell) :
  _submitShell (job s) = Some sh ->
  let r := answer s (submit_call s sh) in
  let msg := PyStr.strip (output r) in
  let s2 := called (flushed s) (submit_call s sh) in
  submit s
  = (if negb (exitcode r =? 0) then
       print_err ["ERROR #" ++ PyStr.str_of_int (exitcode r) ++ ":"] ;;
       print_err [submit_warning] ;;
       ret None
     else
       print [msg] ;;
       match re_search_cluster msg with
       | None => raise (BadFormatError "condor_submit")
       | Some clusterStr =>
           if negb (PyStr.isdigit clusterStr)
           then raise (BadFormatError "condor_submit")
           else
             c <- py_int clusterStr ;;
             modify_job (with_cluster (Some c)) ;;
             j' <- get_job ;;
             ret (cluster j')
       end) s2.
Proof.
  intros Hs r msg s2. unfold submit.
  step (submitShell_some s sh Hs).
  rewrite bind_get_job.
  step (generateSubmitString_true s).
  step (execute_eq sh ("condor_submit -remote " ++ server (job s))
          (Some (flush_text (job s))) false (flushed s)).
  reflexivity.
Qed.












(** ** Counting a pattern that ends in its only dot *)

Lemma mem_char_app (c : ascii) (a b : string) :
  PyStr.mem_char c (a ++ b) = PyStr.mem_char c a || PyStr.mem_char c b.
Proof.
  induction a as [|x a IH]; simpl; [reflexivity|].
  now rewrite IH, orb_assoc.
Qed.

(** A text that has a dot where the pattern has none does not begin with
    the pattern. *)
Lemma startswith_dot_mismatch (p2 p t : string) :
  PyStr.mem_char "." p = false ->
  (String.length p2 < String.length p)%nat ->
  PyStr.startswith (p ++ ".") (p2 ++ String "." t) = false.
Proof.
  revert p. induction p2 as [|b p2 IH]; intros p Hp Hlen.
  - destruct p as [|a p]; [simpl in Hlen; lia|].
    cbn [PyStr.mem_char] in Hp. apply orb_false_iff in Hp as [Ha _].
    cbn [PyStr.startswith append]. rewrite Ascii.eqb_sym, Ha. reflexivity.
  - destruct p as [|a p]; [simpl in Hlen; lia|].
    cbn [PyStr.mem_char] in Hp. apply orb_false_iff in Hp as [_ Hp].
    cbn [PyStr.startswith append]. simpl in Hlen.
    rewrite (IH p Hp) by lia. apply andb_false_r.
Qed.

Lemma drop_inside (p x : string) (i : nat) :
  (i <= String.length p)%nat ->
  exists p2, PyStr.drop i (p ++ x) = p2 ++ x
             /\ String.length p2 = (String.length p - i)%nat.
Proof.
  revert i. induction p as [|a p IH]; intros i Hi.
  - simpl in Hi. assert (i = O) by lia. subst i. now exists EmptyString.
  - destruct i as [|i].
    + now exists (String a p).
    + simpl in Hi. destruct (IH i) as [p2 [E L]]; [lia|].
      exists p2. simpl. now split.
Qed.

(** Two occurrences of such a pattern do not overlap. *)
Lemma no_overlap (p s : string) (i : nat) :
  PyStr.mem_char "." p = false ->
  PyStr.startswith (p ++ ".") s = true ->
  (0 < i <= String.length p)%nat ->
  PyStr.startswith (p ++ ".") (PyStr.drop i s) = false.
Proof.
  intros Hp Hs Hi. apply startswith_iff in Hs as [t ->].
  rewrite append_assoc.
  destruct (drop_inside p ("." ++ t) i) as [p2 [E L]]; [lia|].
  rewrite E. apply startswith_dot_mismatch; [exact Hp | lia].
Qed.

Lemma count_from_occurrences (p : string) :
  PyStr.mem_char "." p = false ->
  forall (s : string) (k : nat),
    (k <= String.length p)%nat ->
    (forall i, (i < k)%nat ->
               PyStr.startswith (p ++ ".") (PyStr.drop i s) = false) ->
    PyStr.count_from (p ++ ".") k s = PyStr.occurrences (p ++ ".") s.
Proof.
  intros Hp. induction s as [|c r IH]; intros k Hk Hfree; [reflexivity|].
  assert (Hlen : (String.length (p ++ ".") - 1 = String.length p)%nat).
  { rewrite length_append. simpl. lia. }
  destruct k as [|k]; cbn [PyStr.count_from PyStr.occurrences].
  - destruct (PyStr.startswith (p ++ ".") (String c r)) eqn:Hst.
    + rewrite Hlen. rewrite IH; [reflexivity | lia |].
      intros i Hi.
      apply (no_overlap p (String c r) (S i) Hp Hst). lia.
    + rewrite IH; [reflexivity | lia |]. intros i Hi. lia.
  - assert (H0 : PyStr.startswith (p ++ ".") (String c r) = false)
      by (apply (Hfree O); lia).
    rewrite H0. rewrite IH; [reflexivity | lia |].
    intros i Hi. apply (Hfree (S i)). lia.
Qed.

(** [s.count(p + '.')] is the number of places of [s] where [p + '.']
    stands, when [p] has no dot. *)
Lemma count_is_occurrences (p s : string) :
  PyStr.mem_char "." p = false ->
  PyStr.count (p ++ ".") s = PyStr.occurrences (p ++ ".") s.
Proof.
  intros Hp. apply (count_from_occurrences p Hp s O); [lia|].
  intros i Hi. lia.
Qed.

(** ** The decimal form of an integer *)

Lemma string_of_uint_no_dot (d : Decimal.uint) :
  PyStr.mem_char "." (NilEmpty.string_of_uint d) = false.
Proof. induction d; simpl; auto. Qed.

Lemma str_of_int_no_dot (n : Z) :
  PyStr.mem_char "." (PyStr.str_of_int n) = false.
Proof.
  unfold PyStr.str_of_int, NilZero.string_of_int, NilZero.string_of_uint.
  destruct (Z.to_int n) as [d | d]; destruct d; simpl;
    auto using string_of_uint_no_dot.
Qed.

(** ** The queue status: [_checkQueue], [poll] and [status] *)

Lemma checkQueue_eq (s : St) (sh : Shell) (c : Z) :
  cluster (job s) = Some c -> c <> 0 -> _submitShell (job s) = Some sh ->
  _checkQueue s
  = (Ok (exitcode (answer s (check_call sh c)),
         PyStr.strip (output (answer s (check_call sh c)))),
     called s (check_call sh c)).
Proof.
  intros Hc Hnz Hs. unfold _checkQueue. rewrite bind_get_job.
  unfold cluster_str. rewrite Hc. cbn [Py.truthy Py.str].
  apply Z.eqb_neq in Hnz. rewrite Hnz. cbn [negb].
  apply (submitShell_execute_eq sh _ None false s Hs).
Qed.

(** A cluster number 0 fails the guard of [_checkQueue] as [None] does. *)
Lemma checkQueue_zero (s : St) :
  cluster (job s) = Some 0 ->
  _checkQueue s = (Raise (SubmissionError "_checkQueue()"), s).
Proof.
  intros Hc. unfold _checkQueue. rewrite bind_get_job, Hc. reflexivity.
Qed.

Lemma poll_unsubmitted (s : St) :
  cluster (job s) = None -> poll s = (Raise (SubmissionError "poll()"), s).
Proof. intros Hc. unfold poll. rewrite bind_get_job, Hc. reflexivity. Qed.

Lemma poll_zero_exit (s : St) (sh : Shell) (c : Z) :
  cluster (job s) = Some c -> c <> 0 -> _submitShell (job s) = Some sh ->
  exitcode (answer s (check_call sh c)) = 0 ->
  poll s
  = (Ok (Z.of_nat (PyStr.count (PyStr.str_of_int c ++ ".")
                     (PyStr.strip (output (answer s (check_call sh c)))))),
     called s (check_call sh c)).
Proof.
  intros Hc Hnz Hs Hr. unfold poll. rewrite bind_get_job, Hc.
  step (checkQueue_eq s sh c Hc Hnz Hs).
  apply Z.eqb_eq in Hr. rewrite Hr. cbn [negb].
  rewrite bind_get_job. unfold cluster_str.
  change (cluster (job (called s (check_call sh c)))) with (cluster (job s)).
  rewrite Hc. reflexivity.
Qed.

(** With a non-zero exit status [poll] reads the unbound name before it can
    print or raise its own error. *)
Lemma poll_nonzero_exit (s : St) (sh : Shell) (c : Z) :
  cluster (job s) = Some c -> c <> 0 -> _submitShell (job s) = Some sh ->
  exitcode (answer s (check_call sh c)) <> 0 ->
  poll s = (Raise (NameError "mesg"), called s (check_call sh c)).
Proof.
  intros Hc Hnz Hs Hr. unfold poll. rewrite bind_get_job, Hc.
  step (checkQueue_eq s sh c Hc Hnz Hs).
  apply Z.eqb_neq in Hr. rewrite Hr. reflexivity.
Qed.

Lemma status_unsubmitted {A} (outputFn : string -> M A) (s : St) :
  cluster (job s) = None ->
  status outputFn s = (Raise (SubmissionError "status()"), s).
Proof. intros Hc. unfold status. rewrite bind_get_job, Hc. reflexivity. Qed.

Lemma status_zero_exit {A} (outputFn : string -> M A) (s : St)
    (sh : Shell) (c : Z) :
  cluster (job s) = Some c -> _submitShell (job s) = Some sh ->
  exitcode (answer s (status_call sh c)) = 0 ->
  status outputFn s
  = outputFn (PyStr.strip (output (answer s (status_call sh c))))
             (called s (status_call sh c)).
Proof.
  intros Hc Hs Hr. unfold status. rewrite bind_get_job, Hc.
  unfold cluster_str. rewrite Hc. cbn [Py.str].
  step (submitShell_execute_eq sh ("condor_q " ++ PyStr.str_of_int c)
          None false s Hs).
  apply Z.eqb_eq in Hr. unfold status_call in *. rewrite Hr. reflexivity.
Qed.

Lemma status_nonzero_exit {A} (outputFn : string -> M A) (s : St)
    (sh : Shell) (c : Z) :
  cluster (job s) = Some c -> _submitShell (job s) = Some sh ->
  exitcode (answer s (status_call sh c)) <> 0 ->
  status outputFn s = (Raise (NameError "mesg"), called s (status_call sh c)).
Proof.
  intros Hc Hs Hr. unfold status. rewrite bind_get_job, Hc.
  unfold cluster_str. rewrite Hc. cbn [Py.str].
  step (submitShell_execute_eq sh ("condor_q " ++ PyStr.str_of_int c)
          None false s Hs).
  apply Z.eqb_neq in Hr. unfold status_call in *. rewrite Hr. reflexivity.
Qed.

(** ** C3: what [poll] counts *)

(** C3 as stated fails: the job was submitted and got cluster 42, the queue
    command answers [42.0] with exit status 1; the reply holds [42.] once,
    and [poll()] does not return 1: it raises. *)
Lemma poll_with_failed_query_returns_no_count :
  let s := Sample.submitted_job [mkReply 1 ("42.0" ++ Sample.nl)] in
  let r := answer s (check_call Sample.local_shell 42) in
  cluster (job s) = Some 42
  /\ exitcode r = 1
  /\ PyStr.occurrences "42." (PyStr.strip (output r)) = 1%nat
  /\ fst (poll s) <> Ok 1
  /\ fst (poll s) = Raise (NameError "mesg").
Proof. vm_compute. repeat split. discriminate. Qed.

(** Nor does it with the cluster number 0, whatever the reply. *)
Lemma poll_cluster_zero (s : St) :
  cluster (job s) = Some 0 ->
  poll s = (Raise (SubmissionError "_checkQueue()"), s).
Proof.
  intros Hc. unfold poll. rewrite bind_get_job, Hc.
  rewrite (bind_raise _ _ _ _ _ (checkQueue_zero s Hc)). reflexivity.
Qed.

(** C3, amended.  [poll()] on a job without cluster number raises
    [SubmissionError('poll()')] and changes nothing; on a job with a cluster
    number [c] other than 0, when the queue command exits with status 0,
    [poll()] returns the number of places of the reply, stripped, at which
    the decimal form of [c] followed by a dot stands. *)
Theorem poll_counts_occurrences (s : St) (sh : Shell) (c : Z) :
  (cluster (job s) = None -> poll s = (Raise (SubmissionError "poll()"), s))
  /\ (cluster (job s) = Some c -> c <> 0 -> _submitShell (job s) = Some sh ->
      exitcode (answer s (check_call sh c)) = 0 ->
      fst (poll s)
      = Ok (Z.of_nat (PyStr.occurrences (PyStr.str_of_int c ++ ".")
                        (PyStr.strip (output (answer s (check_call sh c))))))).
Proof.
  split; [apply poll_unsubmitted|].
  intros Hc Hnz Hs Hr. rewrite (poll_zero_exit s sh c Hc Hnz Hs Hr).
  cbn [fst]. now rewrite count_is_occurrences by apply str_of_int_no_dot.
Qed.

Lemma poll_counts_occurrences_witness :
  let s := Sample.submitted_job
             [mkReply 0 ("42.0" ++ Sample.nl ++ "42.1" ++ Sample.nl)] in
  cluster (job (Sample.new_job [])) = None
  /\ poll (Sample.new_job [])
     = (Raise (SubmissionError "poll()"), Sample.new_job [])
  /\ cluster (job s) = Some 42
  /\ _submitShell (job s) = Some Sample.local_shell
  /\ exitcode (answer s (check_call Sample.local_shell 42)) = 0
  /\ fst (poll s) = Ok 2.
Proof.
  intros s.
  destruct (poll_counts_occurrences (Sample.new_job []) Sample.local_shell 42)
    as [U _].
  destruct (poll_counts_occurrences s Sample.local_shell 42) as [_ P].
  assert (Hc0 : cluster (job (Sample.new_job [])) = None) by reflexivity.
  assert (Hc : cluster (job s) = Some 42) by reflexivity.
  assert (Hs : _submitShell (job s) = Some Sample.local_shell) by reflexivity.
  assert (Hr : exitcode (answer s (check_call Sample.local_shell 42)) = 0)
    by reflexivity.
  split; [exact Hc0|]. split; [exact (U Hc0)|].
  split; [exact Hc|]. split; [exact Hs|]. split; [exact Hr|].
  rewrite (P Hc ltac:(discriminate) Hs Hr). reflexivity.
Defined.

(** ** C5: a failing queue command *)

(** C5, at the failing input.  The job has cluster 42 and [condor_q] exits
    with status 1: [poll()] and [status()] both raise [NameError] for the
    name [mesg], not [BadFormatError], and print nothing on the error
    stream. *)
Theorem failed_query_raises_NameError :
  let s := Sample.submitted_job [Sample.condor_q_failure] in
  cluster (job s) = Some 42
  /\ exitcode (answer s (check_call Sample.local_shell 42)) = 1
  /\ fst (poll s) = Raise (NameError "mesg")
  /\ fst (status outputFn_print s) = Raise (NameError "mesg")
  /\ fst (status outputFn_str s) = Raise (NameError "mesg")
  /\ stderr (world (snd (poll s))) = stderr (world s)
  /\ stderr (world (snd (status outputFn_print s))) = stderr (world s).
Proof. vm_compute. repeat split. Qed.

(** ** C10: the address found by [setEmail] *)

Lemma setEmail_given (pickle_load : string -> Exn + Dict.t) (s : St)
    (v : PyVal) :
  Py.truthy v = true ->
  setEmail pickle_load v s
  = (Ok tt, mkSt (with_settings (Dict.set (VStr "notify_user") v
                                          (_settings (job s))) (job s))
                 (world s)).
Proof. intros H. unfold setEmail. rewrite H. reflexivity. Qed.

Lemma setEmail_no_map (pickle_load : string -> Exn + Dict.t) (s : St)
    (sh : Shell) (v : PyVal) :
  Py.truthy v = false -> _submitShell (job s) = Some sh ->
  exitcode (answer s (mail_map_call sh)) <> 0 ->
  setEmail pickle_load v s = (Ok tt, called s (mail_map_call sh)).
Proof.
  intros Hv Hs Hr. unfold setEmail. rewrite Hv.
  step (submitShell_execute_eq sh mail_map_command None true s Hs).
  apply Z.eqb_neq in Hr. unfold mail_map_call in Hr. rewrite Hr. reflexivity.
Qed.

Lemma setEmail_from_map (pickle_load : string -> Exn + Dict.t) (s : St)
    (sh : Shell) (v : PyVal) (emails : Dict.t) :
  Py.truthy v = false -> _submitShell (job s) = Some sh ->
  exitcode (answer s (mail_map_call sh)) = 0 ->
  pickle_load (output (answer s (mail_map_call sh))) = inr emails ->
  fst (setEmail pickle_load v s) = Ok tt
  /\ _settings (job (snd (setEmail pickle_load v s)))
     = Dict.set (VStr "notify_user") (mail_for emails (username (job s)))
                (_settings (job s)).
Proof.
  intros Hv Hs Hr Hp. unfold setEmail. rewrite Hv.
  step (submitShell_execute_eq sh mail_map_command None true s Hs).
  apply Z.eqb_eq in Hr. unfold mail_map_call in Hr, Hp. rewrite Hr, Hp.
  cbv beta iota.
  unfold getUsername, bind, get_job, ret, print_err, modify_world,
    set_setting, modify_job, mail_for.
  cbn [fst snd job world called username].
  destruct (Dict.get (Py.of_opt (username (job s))) emails) as [a|];
    [split; reflexivity|].
  destruct (Dict.get VNone emails) as [a|]; split; reflexivity.
Qed.

(** C10.  [setEmail] with an argument that counts as false ([None], the
    empty string), on a job that has its shell: when reading the mail map
    exits with a non-zero status, the call returns and the job, its settings
    included, is what it was, so [notify_user] is not written; when it exits
    with status 0 and the file holds the dictionary [emails], [notify_user]
    is set to the entry of the job's user name, else to the entry of [None],
    else to [kollerg14@mail.wlu.edu]. *)
Theorem setEmail_looks_up_mail_map (pickle_load : string -> Exn + Dict.t)
    (s : St) (sh : Shell) (v : PyVal) :
  Py.truthy v = false -> _submitShell (job s) = Some sh ->
  let r := answer s (mail_map_call sh) in
  (exitcode r <> 0 ->
     fst (setEmail pickle_load v s) = Ok tt
     /\ job (snd (setEmail pickle_load v s)) = job s)
  /\ (exitcode r = 0 -> forall emails,
        pickle_load (output r) = inr emails ->
        fst (setEmail pickle_load v s) = Ok tt
        /\ _settings (job (snd (setEmail pickle_load v s)))
           = Dict.set (VStr "notify_user") (mail_for emails (username (job s)))
                      (_settings (job s))
        /\ Dict.get (VStr "notify_user")
                    (_settings (job (snd (setEmail pickle_load v s))))
           = Some (mail_for emails (username (job s))))
  /\ (forall emails,
        mail_for emails (username (job s))
        = match Dict.get (Py.of_opt (username (job s))) emails with
          | Some a => a
          | None => match Dict.get VNone emails with
                    | Some a => a
                    | None => VStr "kollerg14@mail.wlu.edu"
                    end
          end).
Proof.
  intros Hv Hs r. split; [|split].
  - intros Hr. rewrite (setEmail_no_map pickle_load s sh v Hv Hs Hr).
    split; reflexivity.
  - intros Hr emails Hp.
    destruct (setEmail_from_map pickle_load s sh v emails Hv Hs Hr Hp) as [A B].
    split; [exact A|]. split; [exact B|].
    rewrite B. apply Dict_get_set_same.
  - reflexivity.
Qed.

Lemma setEmail_looks_up_mail_map_witness :
  let s := Sample.new_job [mkReply 0 "mail map"] in
  let s1 := Sample.new_job [mkReply 1 "cat: no such file"] in
  Py.truthy VNone = false
  /\ _submitShell (job s) = Some Sample.local_shell
  /\ job (snd (setEmail Sample.two_entries VNone s1)) = job s1
  /\ Dict.get (VStr "notify_user")
       (_settings (job (snd (setEmail Sample.two_entries VNone s))))
     = Some (VStr "kollerg@wlu.edu")
  /\ Dict.get (VStr "notify_user")
       (_settings (job (snd (setEmail Sample.default_only (VStr EmptyString) s))))
     = Some (VStr "admin@wlu.edu")
  /\ Dict.get (VStr "notify_user")
       (_settings (job (snd (setEmail Sample.empty_map VNone s))))
     = Some (VStr "kollerg14@mail.wlu.edu").
Proof.
  intros s s1.
  assert (Hv : Py.truthy VNone = false) by reflexivity.
  assert (Hv' : Py.truthy (VStr EmptyString) = false) by reflexivity.
  assert (Hs : _submitShell (job s) = Some Sample.local_shell) by reflexivity.
  assert (Hs1 : _submitShell (job s1) = Some Sample.local_shell) by reflexivity.
  destruct (setEmail_looks_up_mail_map Sample.two_entries s1 _ VNone Hv Hs1)
    as [F _].
  destruct (setEmail_looks_up_mail_map Sample.two_entries s _ VNone Hv Hs)
    as [_ [T _]].
  destruct (setEmail_looks_up_mail_map Sample.default_only s _ _ Hv' Hs)
    as [_ [D _]].
  destruct (setEmail_looks_up_mail_map Sample.empty_map s _ VNone Hv Hs)
    as [_ [E _]].
  split; [exact Hv|]. split; [exact Hs|].
  split; [apply F; vm_compute; discriminate|].
  split; [exact (proj2 (proj2 (T eq_refl _ eq_refl)))|].
  split; [exact (proj2 (proj2 (D eq_refl _ eq_refl)))|].
  exact (proj2 (proj2 (E eq_refl _ eq_refl))).
Defined.

(** ** C4: the quotes [queue] accepts *)

Lemma contains_chr (c : ascii) (s : string) :
  PyStr.contains (PyStr.chr c) s = PyStr.mem_char c s.
Proof.
  induction s as [|d r IH]; [reflexivity|].
  cbn [PyStr.contains PyStr.mem_char]. rewrite IH.
  unfold PyStr.chr. cbn [PyStr.startswith]. now rewrite andb_true_r.
Qed.

Lemma replace_doubled_quotes (s : string) :
  let dd := String PyStr.dquote (PyStr.chr PyStr.dquote) in
  PyStr.mem_char PyStr.dquote (PyStr.replace_from dd EmptyString 0 s)
  = odd_quote_run_from false s
  /\ PyStr.mem_char PyStr.dquote
       (PyStr.replace_from dd EmptyString 0 (String PyStr.dquote s))
     = odd_quote_run_from true s.
Proof.
  cbv zeta. induction s as [|c r [IH1 IH2]].
  - split; reflexivity.
  - destruct (Ascii.eqb_spec c PyStr.dquote) as [->|Hne].
    + split; [exact IH2|].
      cbn [odd_quote_run_from]. rewrite Ascii.eqb_refl. cbn [negb].
      rewrite <- IH1. reflexivity.
    + assert (E : Ascii.eqb c PyStr.dquote = false)
        by (now apply Ascii.eqb_neq).
      assert (E' : Ascii.eqb PyStr.dquote c = false)
        by (now rewrite Ascii.eqb_sym).
      split.
      * cbn [PyStr.replace_from PyStr.startswith PyStr.chr].
        rewrite E'. cbn [andb PyStr.mem_char]. rewrite E'.
        cbn [orb odd_quote_run_from]. rewrite E. exact IH1.
      * cbn [PyStr.replace_from PyStr.startswith PyStr.chr].
        rewrite Ascii.eqb_refl, E'. cbn [andb PyStr.mem_char].
        rewrite Ascii.eqb_refl. cbn [orb odd_quote_run_from].
        rewrite E. reflexivity.
Qed.

(** The test of [queue] fails exactly on a command line with a run of
    double quotes of odd length. *)
Lemma has_bad_quote_odd_run (s : string) :
  has_bad_quote s = has_odd_quote_run s.
Proof.
  unfold has_bad_quote, has_odd_quote_run, PyStr.replace.
  rewrite contains_chr. apply (proj1 (replace_doubled_quotes s)).
Qed.

Lemma queue_bad_quote (command_line : string) (times : PyVal) (s : St) :
  has_bad_quote (PyStr.strip command_line) = true ->
  queue command_line times s = (Raise (BadQuotes (PyStr.chr PyStr.dquote)), s).
Proof. intros H. unfold queue. rewrite H. reflexivity. Qed.

(** *** No later step of [queue] raises [BadQuotes] *)

Lemma quote_safe_ret {A} (a : A) : quote_safe (ret a).
Proof. intros s e H. discriminate H. Qed.

Lemma quote_safe_raise {A} (e : Exn) : not_BadQuotes e -> quote_safe (@raise A e).
Proof. intros He s e' H. injection H as <-. exact He. Qed.

Lemma quote_safe_bind {A B} (m : M A) (k : A -> M B) :
  quote_safe m -> (forall a, quote_safe (k a)) -> quote_safe (bind m k).
Proof.
  intros Hm Hk s e. unfold bind.
  destruct (m s) as [[a|e'|] s'] eqn:E; cbn [fst].
  - apply Hk.
  - intros [= <-]. apply (Hm s). now rewrite E.
  - discriminate.
Qed.

Lemma quote_safe_get_job : quote_safe get_job.
Proof. intros s e H. discriminate H. Qed.

Lemma quote_safe_modify_job (f : Job -> Job) : quote_safe (modify_job f).
Proof. intros s e H. discriminate H. Qed.

Lemma quote_safe_modify_world (f : World -> World) : quote_safe (modify_world f).
Proof. intros s e H. discriminate H. Qed.

Lemma quote_safe_Process_run (args : string) (inp : option string) :
  quote_safe (Process_run args inp).
Proof. intros s e H. discriminate H. Qed.

Lemma quote_safe_lift {A} (r : Res A) :
  (forall e, r = Raise e -> not_BadQuotes e) -> quote_safe (lift r).
Proof. intros H s e E. apply H. exact E. Qed.

Ltac quote_safe_step :=
  first
    [ apply quote_safe_ret
    | apply quote_safe_raise; exact I
    | apply quote_safe_get_job
    | apply quote_safe_modify_job
    | apply quote_safe_modify_world
    | apply quote_safe_Process_run
    | apply quote_safe_bind; [|intros]
    | match goal with
      | |- quote_safe (match ?x with _ => _ end) => destruct x
      end ].

Ltac quote_safe_auto := repeat quote_safe_step.

Lemma quote_safe_get_setting (k : string) (e : Exn) :
  not_BadQuotes e -> quote_safe (get_setting k e).
Proof.
  intros He. unfold get_setting. quote_safe_auto.
  apply quote_safe_raise, He.
Qed.

Lemma quote_safe_submitShell_execute (c : string) (i : option string)
    (b : bool) : quote_safe (submitShell_execute c i b).
Proof.
  unfold submitShell_execute, submitShell, execute. quote_safe_auto.
Qed.

Lemma quote_safe_setExecutable (x : string) : quote_safe (setExecutable x).
Proof.
  unfold setExecutable, _resolveExecutable, setTransferExecutable,
    getExecutable, set_setting, print_err.
  repeat first
    [ apply quote_safe_submitShell_execute
    | apply quote_safe_get_setting; exact I
    | quote_safe_step ].
Qed.

Lemma tokens_not_BadQuotes (inp : string) :
  forall state token quoted escapedstate acc e,
    Shlex.tokens inp state token quoted escapedstate acc = Raise e ->
    not_BadQuotes e.
Proof.
  induction inp as [|c r IH]; intros state token quoted escapedstate acc e.
  - destruct state; cbn [Shlex.tokens];
      try destruct (Shlex.result token quoted);
      intros H; try discriminate H; injection H as <-; exact I.
  - destruct state; cbn [Shlex.tokens];
      repeat match goal with
             | |- context [if ?b then _ else _] => destruct b
             | |- context [match Shlex.result ?t ?q with _ => _ end] =>
                 destruct (Shlex.result t q)
             end;
      try (intros H; discriminate H); try apply IH.
Qed.

Lemma join_continued_not_BadQuotes (args : list string) :
  forall executable e,
    join_continued executable args = Raise e -> not_BadQuotes e.
Proof.
  induction args as [|a r IH]; intros executable e; cbn [join_continued];
    destruct (PyStr.endswith_char PyStr.backslash executable);
    intros H; try discriminate H.
  - injection H as <-. exact I.
  - now apply (IH _ _ H).
Qed.

Lemma queue_past_the_test (command_line : string) (times : PyVal) (s : St) :
  has_bad_quote (PyStr.strip command_line) = false ->
  forall e, fst (queue command_line times s) = Raise e -> not_BadQuotes e.
Proof.
  intros H. unfold queue. rewrite H.
  assert (Q : quote_safe
    (toks <- lift (Shlex.split (PyStr.strip command_line)) ;;
     first <- match toks with
              | [] => raise (IndexError "list index out of range")
              | t :: _ => ret t
              end ;;
     setExecutable first ;;
     '(executable, args) <-
        match PyStr.split " " (PyStr.strip command_line) with
        | [] => raise (IndexError "pop from empty list")
        | e :: r => lift (join_continued e r)
        end ;;
     (if PyStr.nonempty (PyStr.join " " args)
      then setArguments (PyStr.join " " args) else ret tt) ;;
     _generateSubmitString true ;;
     modify_job (fun j =>
       with_submitLinesSoFar
         (submitLinesSoFar j ++
          (if negb (Py.eq times (VInt 1))
           then "Queue " ++ Py.str times ++ PyStr.chr PyStr.newline
           else "Queue" ++ PyStr.chr PyStr.newline)) j))).
  { unfold setArguments, set_setting, _generateSubmitString.
    repeat first
      [ apply quote_safe_setExecutable
      | apply quote_safe_lift; intros e;
        first [ apply tokens_not_BadQuotes | apply join_continued_not_BadQuotes ]
      | quote_safe_step ]. }
  intros e. apply Q.
Qed.

(** C4 as stated fails: [queue] on the command line [echo], blank, then
    between single quotes [a], one double quote and [b], raises [BadQuotes];
    it does so with a backslash before the double quote too; the job is
    left as it was. *)
Lemma queue_rejects_quote_in_single_quotes :
  queue Sample.quote_in_single_quotes (VInt 1) Sample.echo_job
  = (Raise (BadQuotes Sample.dq), Sample.echo_job)
  /\ queue Sample.escaped_quote_in_single_quotes (VInt 1) Sample.echo_job
     = (Raise (BadQuotes Sample.dq), Sample.echo_job)
  /\ fst (queue Sample.quote_in_single_quotes (VInt 1) Sample.echo_job)
     <> Ok tt.
Proof.
  split; [|split].
  - apply queue_bad_quote. reflexivity.
  - apply queue_bad_quote. reflexivity.
  - rewrite queue_bad_quote by reflexivity. discriminate.
Qed.

(** C4, amended.  [queue] raises [BadQuotes] exactly when the command line,
    stripped, has a run of consecutive double quotes of odd length, which is
    when a double quote is left once the doubled ones are taken out; single
    quotes around the double quote or a backslash before it change nothing.
    The job is then left as it was.  On any other command line no step of
    [queue] raises [BadQuotes]. *)
Theorem queue_rejects_odd_quote_runs (command_line : string) (times : PyVal)
    (s : St) :
  has_bad_quote (PyStr.strip command_line)
  = has_odd_quote_run (PyStr.strip command_line)
  /\ (has_odd_quote_run (PyStr.strip command_line) = true ->
      queue command_line times s
      = (Raise (BadQuotes (PyStr.chr PyStr.dquote)), s))
  /\ (has_odd_quote_run (PyStr.strip command_line) = false ->
      forall v, fst (queue command_line times s) <> Raise (BadQuotes v)).
Proof.
  split; [apply has_bad_quote_odd_run|]. split.
  - intros H. apply queue_bad_quote. now rewrite has_bad_quote_odd_run.
  - intros H v E.
    apply (queue_past_the_test command_line times s) in E; [exact E|].
    now rewrite has_bad_quote_odd_run.
Qed.

Lemma queue_rejects_odd_quote_runs_witness :
  has_odd_quote_run (PyStr.strip Sample.double_quoted_word) = true
  /\ fst (queue Sample.double_quoted_word (VInt 1) Sample.echo_job)
     = Raise (BadQuotes Sample.dq)
  /\ has_odd_quote_run (PyStr.strip Sample.quote_in_single_quotes) = true
  /\ fst (queue Sample.quote_in_single_quotes (VInt 1) Sample.echo_job)
     = Raise (BadQuotes Sample.dq)
  /\ has_odd_quote_run (PyStr.strip Sample.doubled_quote_in_single_quotes)
     = false
  /\ fst (queue Sample.doubled_quote_in_single_quotes (VInt 1) Sample.echo_job)
     <> Raise (BadQuotes Sample.dq)
  /\ fst (queue Sample.doubled_quote_in_single_quotes (VInt 1) Sample.echo_job)
     = Ok tt.
Proof.
  destruct (queue_rejects_odd_quote_runs Sample.double_quoted_word (VInt 1)
              Sample.echo_job) as [_ [A _]].
  destruct (queue_rejects_odd_quote_runs Sample.quote_in_single_quotes (VInt 1)
              Sample.echo_job) as [_ [B _]].
  destruct (queue_rejects_odd_quote_runs Sample.doubled_quote_in_single_quotes
              (VInt 1) Sample.echo_job) as [_ [_ C]].
  assert (H1 : has_odd_quote_run (PyStr.strip Sample.double_quoted_word) = true)
    by reflexivity.
  assert (H2 : has_odd_quote_run (PyStr.strip Sample.quote_in_single_quotes)
               = true) by reflexivity.
  assert (H3 : has_odd_quote_run
                 (PyStr.strip Sample.doubled_quote_in_single_quotes) = false)
    by reflexivity.
  split; [exact H1|]. split; [now rewrite (A H1)|].
  split; [exact H2|]. split; [now rewrite (B H2)|].
  split; [exact H3|]. split; [exact (C H3 Sample.dq)|].
  vm_compute. reflexivity.
Defined.

(** ** Attributes that the methods leave alone *)

Section Keeps.

(** An attribute [f] of the job that assigning to the settings, to the
    accumulated text or to the path of the executable does not touch. *)
Context {X : Type} (f : Job -> X).
Hypothesis f_settings : forall d j, f (with_settings d j) = f j.
Hypothesis f_lines : forall t j, f (with_submitLinesSoFar t j) = f j.
Hypothesis f_path : forall p j, f (with_executablePath p j) = f j.

Lemma keeps_ret {A} (a : A) : keeps f (ret a).
Proof. intros s. reflexivity. Qed.

Lemma keeps_raise {A} (e : Exn) : keeps f (@raise A e).
Proof. intros s. reflexivity. Qed.

Lemma keeps_lift {A} (r : Res A) : keeps f (lift r).
Proof. intros s. reflexivity. Qed.

Lemma keeps_get_job : keeps f get_job.
Proof. intros s. reflexivity. Qed.

Lemma keeps_modify_world (g : World -> World) : keeps f (modify_world g).
Proof. intros s. reflexivity. Qed.

Lemma keeps_Process_run (args : string) (inp : option string) :
  keeps f (Process_run args inp).
Proof. intros s. reflexivity. Qed.

Lemma keeps_modify_job (g : Job -> Job) :
  (forall j, f (g j) = f j) -> keeps f (modify_job g).
Proof. intros H s. apply H. Qed.

Lemma keeps_bind {A B} (m : M A) (k : A -> M B) :
  keeps f m -> (forall a, keeps f (k a)) -> keeps f (bind m k).
Proof.
  intros Hm Hk s. unfold bind. specialize (Hm s).
  destruct (m s) as [[a|e|] s']; cbn [snd] in *; try exact Hm.
  now rewrite Hk.
Qed.

Lemma keeps_try_except {A} (m h : M A) (catches : Exn -> bool) :
  keeps f m -> keeps f h -> keeps f (try_except m catches h).
Proof.
  intros Hm Hh s. unfold try_except. specialize (Hm s).
  destruct (m s) as [[a|e|] s']; cbn [snd] in *; try exact Hm.
  destruct (catches e); cbn [snd]; [now rewrite Hh | exact Hm].
Qed.

Ltac keeps_step :=
  first
    [ apply keeps_ret
    | apply keeps_raise
    | apply keeps_lift
    | apply keeps_get_job
    | apply keeps_modify_world
    | apply keeps_Process_run
    | apply keeps_modify_job; intros; cbv beta;
      first [ apply f_settings | apply f_lines | apply f_path ]
    | apply keeps_bind; [|intros]
    | match goal with
      | |- keeps f (match ?x with _ => _ end) => destruct x
      end ].

Ltac keeps_auto := repeat keeps_step.

Lemma keeps_get_setting (k : string) (e : Exn) : keeps f (get_setting k e).
Proof. unfold get_setting. keeps_auto. Qed.

Lemma keeps_set_setting (k : string) (v : PyVal) : keeps f (set_setting k v).
Proof. unfold set_setting. keeps_auto. Qed.

Lemma keeps_submitShell_execute (c : string) (i : option string) (b : bool) :
  keeps f (submitShell_execute c i b).
Proof. unfold submitShell_execute, submitShell, execute. keeps_auto. Qed.

Lemma keeps_generateSubmitString (update : bool) :
  keeps f (_generateSubmitString update).
Proof. unfold _generateSubmitString. keeps_auto. Qed.

Ltac keeps_known :=
  first
    [ apply keeps_get_setting
    | apply keeps_set_setting
    | apply keeps_submitShell_execute
    | apply keeps_generateSubmitString
    | keeps_step ].

Lemma keeps_setExecutable (x : string) : keeps f (setExecutable x).
Proof.
  unfold setExecutable, _resolveExecutable, setTransferExecutable,
    getExecutable, print_err.
  repeat keeps_known.
Qed.

Lemma keeps_queue (command_line : string) (times : PyVal) :
  keeps f (queue command_line times).
Proof.
  unfold queue, setArguments.
  repeat first [ apply keeps_setExecutable | keeps_known ].
Qed.

Lemma keeps_setEmail (pickle_load : string -> Exn + Dict.t) (v : PyVal) :
  keeps f (setEmail pickle_load v).
Proof. unfold setEmail, getUsername, print_err. repeat keeps_known. Qed.

Lemma keeps_checkQueue : keeps f _checkQueue.
Proof. unfold _checkQueue. repeat keeps_known. Qed.

Lemma keeps_wait_loop (fuel : nat) :
  forall currPollTime retval msg,
    keeps f (wait_loop fuel currPollTime retval msg).
Proof.
  induction fuel as [|fuel IH]; intros currPollTime retval msg;
    cbn [wait_loop]; unfold read_mesg, print_err, print_end, sleep.
  - keeps_auto.
  - repeat first [ apply IH | apply keeps_checkQueue | keeps_known ].
Qed.

Lemma keeps_wait (fuel : nat) : keeps f (wait fuel).
Proof.
  unfold wait, print, print_end.
  repeat first [ apply keeps_wait_loop | apply keeps_checkQueue | keeps_known ].
Qed.

Lemma keeps_poll : keeps f poll.
Proof.
  unfold poll, read_mesg, print_err.
  repeat first [ apply keeps_checkQueue | keeps_known ].
Qed.

Lemma keeps_status {A} (outputFn : string -> M A) :
  (forall msg, keeps f (outputFn msg)) -> keeps f (status outputFn).
Proof.
  intros H. unfold status, read_mesg, print_err.
  repeat first [ apply H | keeps_known ].
Qed.

Lemma keeps_getter (k : string) : keeps f (getter k).
Proof.
  unfold getter, ignore, getUniverse, getUsername, getServer, getExecutable,
    getTransferExecutable, getArguments, getInitialDirectory, getInput,
    getOutput, getError, getLog, getRequirements, getMatlabLock, getCPUNum,
    getRAM, getDiskSpace, getTransferFiles, getWhenTransferOutput,
    getNotification, getEmail.
  repeat keeps_known.
Qed.

(** Every method but [submit] leaves [f] alone. *)
Lemma keeps_run_op (pickle_load : string -> Exn + Dict.t) (o : Op) :
  is_submit o = false -> keeps f (run_op pickle_load o).
Proof.
  destruct o; intros H; try discriminate H; cbn [run_op];
    unfold ignore, setUniverse, setTransferExecutable, setArguments,
      setInitialDirectory, setInput, setOutput, setError, setLog,
      setRequirements, setMatlabLock, setCPUNum, setRAM, setDiskSpace,
      setTransferFiles, setWhenTransferOutput, setNotification,
      saveSubmitFile, Job_str, getUsername, getServer,
      outputFn_print, outputFn_str, print, print_end;
    repeat first
      [ apply keeps_setExecutable
      | apply keeps_setEmail
      | apply keeps_getter
      | apply keeps_queue
      | apply keeps_wait
      | apply keeps_poll
      | apply keeps_status; intros
      | keeps_known ].
Qed.

(** So does [submit] when assigning the cluster number does not touch
    [f]. *)
Lemma keeps_submit :
  (forall c j, f (with_cluster c j) = f j) -> keeps f submit.
Proof.
  intros f_cluster. unfold submit, submitShell, execute, py_int, print,
    print_end, print_err.
  repeat first
    [ apply keeps_modify_job; intros; apply f_cluster
    | keeps_known ].
Qed.

(** [__init__] leaves [f] as it is in the blank job when the other
    assignments of [__init__] do not touch [f] either. *)
Lemma Job_init_from_blank (pickle_load : string -> Exn + Dict.t)
    (universe : PyVal) (user : option string) (host : string) (s : St) :
  (forall u j, f (with_submitterUsername u j) = f j) ->
  (forall u j, f (with_username u j) = f j) ->
  (forall h j, f (with_server h j) = f j) ->
  (forall sh j, f (with_submitShell sh j) = f j) ->
  f (job (snd (Job_init pickle_load universe user host s))) = f blank_job.
Proof.
  intros f_submitter f_username f_server f_shell.
  unfold Job_init.
  match goal with
  | |- f (job (snd (bind ?m ?k s))) = _ =>
      change (bind m k s) with (k tt (mkSt blank_job (world s)));
      assert (K : keeps f (k tt))
  end.
  { cbv beta.
    unfold setUniverse, _setUsername, _setServer, setCPUNum, setRAM,
      setDiskSpace, getUsername, getServer, Shell_init. cbv zeta.
    repeat first
      [ apply keeps_setEmail
      | apply keeps_try_except
      | apply keeps_modify_job; intros; cbv beta;
        first [ apply f_submitter | apply f_username | apply f_server
              | apply f_shell | destruct user; apply f_username ]
      | keeps_known ]. }
  apply (K (mkSt blank_job (world s))).
Qed.

End Keeps.

(** ** Jobs that [__init__] built *)

Lemma run_op_constructed (pickle_load : string -> Exn + Dict.t) (o : Op)
    (s : St) :
  constructed (job s) -> constructed (job (snd (run_op pickle_load o s))).
Proof.
  intros [Hu [sh Hs]].
  assert (K : forall X (f : Job -> X),
             (forall d j, f (with_settings d j) = f j) ->
             (forall t j, f (with_submitLinesSoFar t j) = f j) ->
             (forall p j, f (with_executablePath p j) = f j) ->
             (forall c j, f (with_cluster c j) = f j) ->
             f (job (snd (run_op pickle_load o s))) = f (job s)).
  { intros X f H1 H2 H3 H4. destruct (is_submit o) eqn:E.
    - destruct o; try discriminate E. cbn [run_op]. unfold ignore.
      apply keeps_bind; [now apply keeps_submit | intros; apply keeps_ret].
    - now apply keeps_run_op. }
  split.
  - rewrite (K _ _validUniverses); auto.
  - exists sh. rewrite (K _ _submitShell); auto.
Qed.

(** Whatever methods are called on it, a job keeps its list of universes
    and its shell. *)
Lemma run_ops_constructed (pickle_load : string -> Exn + Dict.t)
    (ops : list Op) :
  forall s, constructed (job s) ->
            constructed (job (run_ops pickle_load ops s)).
Proof.
  induction ops as [|o r IH]; intros s H; [exact H|].
  cbn [run_ops]. apply IH. now apply run_op_constructed.
Qed.

Lemma gives_shell_bind {A B} (m : M A) (k : A -> M B) :
  (forall a, gives_shell (k a)) -> gives_shell (bind m k).
Proof.
  intros Hk s b. unfold bind.
  destruct (m s) as [[a|e|] s']; cbn [fst]; try discriminate.
  apply Hk.
Qed.

(** [setEmail(None)] needs the shell and keeps it. *)
Lemma gives_shell_setEmail (pickle_load : string -> Exn + Dict.t) :
  gives_shell (setEmail pickle_load VNone).
Proof.
  intros s a H. destruct (_submitShell (job s)) as [sh|] eqn:Hs.
  - exists sh. rewrite <- Hs.
    now apply (keeps_setEmail _submitShell).
  - exfalso. unfold setEmail in H. cbn [Py.truthy] in H.
    unfold submitShell_execute, submitShell, bind, get_job in H.
    rewrite Hs in H. discriminate H.
Qed.

(** A job that [__init__] returned has the seven universes, a shell, no
    cluster number and a cap of 30 on the poll interval. *)
Lemma Job_init_constructs (pickle_load : string -> Exn + Dict.t)
    (universe : PyVal) (user : option string) (host : string) (s : St) :
  fst (Job_init pickle_load universe user host s) = Ok tt ->
  let j := job (snd (Job_init pickle_load universe user host s)) in
  constructed j /\ cluster j = None /\ maxPollTime j = (30 # 1)%Q.
Proof.
  intros H j. subst j. split; [split|split].
  - now rewrite (Job_init_from_blank _validUniverses).
  - revert H. generalize tt. revert s. 
    change (gives_shell (Job_init pickle_load universe user host)).
    unfold Job_init.
    repeat first [ apply gives_shell_setEmail
                 | apply gives_shell_bind; intros ].
  - now rewrite (Job_init_from_blank cluster).
  - now rewrite (Job_init_from_blank maxPollTime).
Qed.

(** ** C9: what changes the cluster number *)

(** [submit] leaves the cluster number as it was unless it returns a new
    one, which is then the cluster number. *)
Lemma submit_cluster (s : St) :
  match fst (submit s) with
  | Ok (Some c) => cluster (job (snd (submit s))) = Some c
  | _ => cluster (job (snd (submit s))) = cluster (job s)
  end.
Proof.
  destruct (_submitShell (job s)) as [sh|] eqn:Hs.
  - rewrite (submit_after_call s sh Hs). cbv zeta.
    destruct (negb (exitcode (answer s (submit_call s sh)) =? 0));
      [reflexivity|].
    unfold bind, print, print_end, modify_world.
    destruct (re_search_cluster _) as [ds|]; [|reflexivity].
    destruct (negb (PyStr.isdigit ds)); [reflexivity|].
    unfold py_int.
    destruct (PyStr.forallb_str PyStr.is_decimal ds); [|reflexivity].
    destruct (String.length ds <=? int_max_str_digits)%nat; reflexivity.
  - unfold submit, submitShell, bind, get_job. rewrite Hs. reflexivity.
Qed.

(** C9 as stated fails: the job has cluster 42, a second [submit()] is
    answered with cluster 43, and the cluster number of the job is 43. *)
Lemma second_submit_changes_cluster :
  let s := Sample.submitted_job [Sample.submit_reply "43"] in
  cluster (job s) = Some 42
  /\ fst (submit s) = Ok (Some 43)
  /\ cluster (job (snd (submit s))) = Some 43
  /\ cluster (job (snd (submit s))) <> cluster (job s).
Proof. vm_compute. repeat split. discriminate. Qed.

(** C9, amended.  No method other than [submit] changes the cluster number
    of a job, alone or in a sequence, returning or raising; [submit] leaves
    it as it was when it returns [None] or raises, and replaces it by the
    number it returns otherwise, also when the job had one already. *)
Theorem cluster_changes_only_by_submit (pickle_load : string -> Exn + Dict.t)
    (s : St) :
  (forall o, is_submit o = false ->
             cluster (job (snd (run_op pickle_load o s))) = cluster (job s))
  /\ (forall ops, forallb (fun o => negb (is_submit o)) ops = true ->
                  cluster (job (run_ops pickle_load ops s)) = cluster (job s))
  /\ match fst (submit s) with
     | Ok (Some c) => cluster (job (snd (submit s))) = Some c
     | _ => cluster (job (snd (submit s))) = cluster (job s)
     end.
Proof.
  split; [|split].
  - intros o H. now apply (keeps_run_op cluster).
  - intros ops. revert s. induction ops as [|o r IH]; intros s H; [reflexivity|].
    cbn [forallb] in H. apply andb_true_iff in H as [Ho Hr].
    cbn [run_ops]. rewrite (IH _ Hr).
    apply (keeps_run_op cluster); auto. now destruct (is_submit o).
  - apply submit_cluster.
Qed.

Lemma cluster_changes_only_by_submit_witness :
  let s := Sample.submitted_job
             [mkReply 0 ("42.0" ++ Sample.nl); mkReply 1 "ERROR"] in
  let ops := [OpPoll; OpSetUniverse (VStr "java"); OpStatusPrint;
              OpQueue "whoami" (VInt 2); OpSetEmail VNone] in
  cluster (job s) = Some 42
  /\ forallb (fun o => negb (is_submit o)) ops = true
  /\ cluster (job (run_ops Sample.no_pickle ops s)) = Some 42.
Proof.
  intros s ops.
  destruct (cluster_changes_only_by_submit Sample.no_pickle s) as [_ [H _]].
  assert (Hc : cluster (job s) = Some 42) by reflexivity.
  assert (Ho : forallb (fun o => negb (is_submit o)) ops = true) by reflexivity.
  split; [exact Hc|]. split; [exact Ho|].
  rewrite (H ops Ho). exact Hc.
Defined.

(** ** C7: the rounds of [wait] *)

Lemma wait_unsubmitted (fuel : nat) (s : St) :
  cluster (job s) = None ->
  wait fuel s = (Raise (SubmissionError "wait()"), s).
Proof. intros Hc. unfold wait. rewrite bind_get_job, Hc. reflexivity. Qed.

Lemma wait_loop_done (fuel : nat) (t : Q) (retval : Z) (msg : string)
    (s : St) (c : Z) :
  cluster (job s) = Some c ->
  PyStr.contains (PyStr.str_of_int c) (PyStr.strip msg) = false ->
  wait_loop fuel t retval msg s = (Ok tt, s).
Proof.
  intros Hc Hq. destruct fuel; cbn [wait_loop]; rewrite bind_get_job;
    unfold cluster_str; rewrite Hc; cbn [Py.str]; rewrite Hq; reflexivity.
Qed.

(** A round with a non-zero exit status reads the unbound name. *)
Lemma wait_loop_failed_query (fuel : nat) (t : Q) (retval : Z) (msg : string)
    (s : St) (c : Z) :
  cluster (job s) = Some c ->
  PyStr.contains (PyStr.str_of_int c) (PyStr.strip msg) = true ->
  retval <> 0 ->
  wait_loop (S fuel) t retval msg s = (Raise (NameError "mesg"), s).
Proof.
  intros Hc Hq Hr. cbn [wait_loop]. rewrite bind_get_job.
  unfold cluster_str. rewrite Hc. cbn [Py.str]. rewrite Hq.
  apply Z.eqb_neq in Hr. rewrite Hr. reflexivity.
Qed.

Lemma wait_loop_round (fuel : nat) (t : Q) (retval : Z) (msg : string)
    (s : St) (sh : Shell) (c : Z) :
  cluster (job s) = Some c -> c <> 0 -> _submitShell (job s) = Some sh ->
  PyStr.contains (PyStr.str_of_int c) (PyStr.strip msg) = true ->
  retval = 0 ->
  Qle_bool 0 (py_min t (maxPollTime (job s))) = true ->
  wait_loop (S fuel) t retval msg s
  = wait_loop fuel (Qred (t + (1 # 2)))
      (exitcode (answer s (check_call sh c)))
      (PyStr.strip (output (answer s (check_call sh c))))
      (after_round s t (check_call sh c)).
Proof.
  intros Hc Hnz Hs Hq Hr Hsl. cbn [wait_loop]. rewrite bind_get_job.
  unfold cluster_str. rewrite Hc. cbn [Py.str]. rewrite Hq.
  subst retval. cbn [Z.eqb negb].
  unfold print_end, sleep.
  unfold bind at 1. cbn [ret].
  unfold bind at 1. cbn [modify_world].
  rewrite bind_get_job. cbn [job]. rewrite Hsl.
  unfold bind at 1. cbn [modify_world job world].
  set (s1 := mkSt (job s) _).
  assert (H1 : _checkQueue s1
               = (Ok (exitcode (answer s1 (check_call sh c)),
                      PyStr.strip (output (answer s1 (check_call sh c)))),
                  called s1 (check_call sh c)))
    by (apply checkQueue_eq; assumption).
  step H1. reflexivity.
Qed.

(** A round whose interval is negative: the dot is printed, [sleep] raises
    and the queue is not asked again. *)
Lemma wait_loop_refused_sleep (fuel : nat) (t : Q) (retval : Z)
    (msg : string) (s : St) (c : Z) :
  cluster (job s) = Some c ->
  PyStr.contains (PyStr.str_of_int c) (PyStr.strip msg) = true ->
  retval = 0 ->
  Qle_bool 0 (py_min t (maxPollTime (job s))) = false ->
  wait_loop (S fuel) t retval msg s
  = (Raise (ValueError "sleep length must be non-negative"),
     mkSt (job s)
          (with_stdout (stdout (world s) ++ PyStr.join " " ["."] ++ EmptyString)
                       (world s))).
Proof.
  intros Hc Hq Hr Hsl. cbn [wait_loop]. rewrite bind_get_job.
  unfold cluster_str. rewrite Hc. cbn [Py.str]. rewrite Hq.
  subst retval. cbn [Z.eqb negb].
  unfold print_end, sleep.
  unfold bind at 1. cbn [ret].
  unfold bind at 1. cbn [modify_world].
  rewrite bind_get_job. cbn [job]. rewrite Hsl.
  reflexivity.
Qed.

Lemma repeat_app_cons {A} (x : A) (n : nat) (l : list A) :
  (repeat x n ++ x :: l = x :: repeat x n ++ l)%list.
Proof. induction n as [|n IH]; cbn; [reflexivity | now rewrite IH]. Qed.

Lemma pending_after_round (s : St) (sh : Shell) (c : Z) (held : Reply)
    (t : Q) (i : nat) :
  pending (after_round s t (check_call sh c)) sh c
          (answer s (check_call sh c)) i
  = pending s sh c held (S i).
Proof.
  destruct i as [|j]; [reflexivity|].
  unfold pending, check_reply, after_round, called. cbn [world oracle calls with_calls].
  change (repeat (check_call sh c) (S (S j)))
    with (check_call sh c :: repeat (check_call sh c) (S j)).
  now rewrite repeat_app_cons.
Qed.

(** [min] of two times that are not negative is not negative, so [sleep]
    takes it. *)
Lemma py_min_nonneg (t cap : Q) :
  (0 <= t)%Q -> (0 <= cap)%Q -> Qle_bool 0 (py_min t cap) = true.
Proof.
  intros Ht Hcap. apply Qle_bool_iff. unfold py_min.
  now destruct (Qcompare cap t).
Qed.

(** A negative cap is what [min] returns for a time that is not negative,
    and [sleep] refuses it. *)
Lemma py_min_negative (t cap : Q) :
  (0 <= t)%Q -> (cap < 0)%Q -> Qle_bool 0 (py_min t cap) = false.
Proof.
  intros Ht Hcap. unfold py_min.
  assert (L : (cap < t)%Q) by (eapply Qlt_le_trans; eassumption).
  destruct (Qcompare cap t) eqn:C.
  - apply Qeq_alt in C. rewrite C in L. now apply Qlt_irrefl in L.
  - destruct (Qle_bool 0 cap) eqn:E; [|reflexivity].
    apply Qle_bool_iff in E. exfalso. exact (Qlt_not_le _ _ Hcap E).
  - apply Qgt_alt in C. exfalso.
    exact (Qlt_irrefl _ (Qlt_trans _ _ _ L C)).
Qed.

Lemma next_poll_time_nonneg (t : Q) : (0 <= t)%Q -> (0 <= Qred (t + (1 # 2)))%Q.
Proof.
  intros Ht. rewrite Qred_correct.
  apply (Qle_trans _ (t + 0)); [now rewrite Qplus_0_r|].
  apply Qplus_le_r. discriminate.
Qed.

(** The loop of [wait]: while the replies exit with status 0 and name the
    cluster, every round sleeps the next interval and asks again; the loop
    ends at the first reply that does not name the cluster.  The cap on the
    interval is not negative. *)
Lemma wait_loop_schedule (sh : Shell) (c : Z) (n : nat) :
  forall (s : St) (t : Q) (fuel : nat) (held : Reply),
    cluster (job s) = Some c -> c <> 0 -> _submitShell (job s) = Some sh ->
    (0 <= t)%Q -> (0 <= maxPollTime (job s))%Q ->
    (forall i, (i < n)%nat ->
               exitcode (pending s sh c held i) = 0
               /\ still_queued c (pending s sh c held i) = true) ->
    still_queued c (pending s sh c held n) = false ->
    (n <= fuel)%nat ->
    let final :=
      wait_loop fuel t (exitcode held) (PyStr.strip (output held)) s in
    fst final = Ok tt
    /\ job (snd final) = job s
    /\ sleeps (world (snd final))
       = (rev (backoff t (maxPollTime (job s)) n) ++ sleeps (world s))%list
    /\ calls (world (snd final))
       = (repeat (check_call sh c) n ++ calls (world s))%list.
Proof.
  induction n as [|n IH];
    intros s t fuel held Hc Hnz Hs Ht Hcap Hgood Hend Hfuel final;
    subst final.
  - rewrite (wait_loop_done fuel t _ _ s c Hc Hend). repeat split.
  - destruct fuel as [|fuel]; [lia|].
    destruct (Hgood O ltac:(lia)) as [Hr Hq]. cbn [pending] in Hr, Hq.
    rewrite (wait_loop_round fuel t _ _ s sh c Hc Hnz Hs Hq Hr
               (py_min_nonneg _ _ Ht Hcap)).
    destruct (IH (after_round s t (check_call sh c)) (Qred (t + (1 # 2)))
                 fuel (answer s (check_call sh c)) Hc Hnz Hs
                 (next_poll_time_nonneg t Ht) Hcap)
      as [A [B [C D]]].
    + intros i Hi. rewrite (pending_after_round s sh c held t i).
      apply Hgood. lia.
    + rewrite (pending_after_round s sh c held t n). exact Hend.
    + lia.
    + split; [exact A|]. split; [exact B|]. split.
      * rewrite C. cbn [backoff rev]. rewrite <- app_assoc. reflexivity.
      * rewrite D. cbn [repeat]. apply repeat_app_cons.
Qed.

Lemma pending_shift (s s' : St) (sh : Shell) (c : Z) (i : nat) :
  oracle (world s') = oracle (world s) ->
  calls (world s') = check_call sh c :: calls (world s) ->
  pending s' sh c (answer s (check_call sh c)) i = check_reply s sh c i.
Proof.
  intros Ho Hc. destruct i as [|j]; [reflexivity|].
  unfold pending, check_reply. rewrite Ho, Hc.
  change (repeat (check_call sh c) (S (S j)))
    with (check_call sh c :: repeat (check_call sh c) (S j)).
  now rewrite repeat_app_cons.
Qed.

(** [wait] on a job with a cluster number other than 0, while the replies
    exit with status 0: it asks the queue [n + 1] times when the reply
    number [n] is the first that does not name the cluster, and sleeps the
    [n] intervals that start with 1 in between; the cap on the interval is
    not negative. *)
Lemma wait_schedule (sh : Shell) (c : Z) (n fuel : nat) (s : St) :
  cluster (job s) = Some c -> c <> 0 -> _submitShell (job s) = Some sh ->
  (0 <= maxPollTime (job s))%Q ->
  (forall k, (k < n)%nat ->
             exitcode (check_reply s sh c k) = 0
             /\ still_queued c (check_reply s sh c k) = true) ->
  still_queued c (check_reply s sh c n) = false ->
  (n <= fuel)%nat ->
  fst (wait fuel s) = Ok tt
  /\ sleeps (world (snd (wait fuel s)))
     = (rev (backoff 1 (maxPollTime (job s)) n) ++ sleeps (world s))%list
  /\ calls (world (snd (wait fuel s)))
     = (repeat (check_call sh c) (S n) ++ calls (world s))%list.
Proof.
  intros Hc Hnz Hs Hcap Hgood Hend Hfuel.
  unfold wait. rewrite bind_get_job, Hc.
  step (checkQueue_eq s sh c Hc Hnz Hs).
  set (held := answer s (check_call sh c)).
  set (banner := if PyStr.nonempty (PyStr.strip (PyStr.strip (output held)))
                 then _ else _).
  assert (Hb : exists s0,
             banner (called s (check_call sh c)) = (Ok tt, s0)
             /\ job s0 = job s
             /\ oracle (world s0) = oracle (world s)
             /\ calls (world s0) = check_call sh c :: calls (world s)
             /\ sleeps (world s0) = sleeps (world s)).
  { subst banner.
    destruct (PyStr.nonempty (PyStr.strip (PyStr.strip (output held))));
      eexists; (split; [reflexivity|]); repeat split. }
  destruct Hb as [s0 [Eb [Hj [Ho [Hcalls Hsl]]]]].
  step Eb.
  assert (Hc0 : cluster (job s0) = Some c) by (now rewrite Hj).
  assert (Hs0 : _submitShell (job s0) = Some sh) by (now rewrite Hj).
  assert (Hcap0 : (0 <= maxPollTime (job s0))%Q) by (now rewrite Hj).
  destruct (wait_loop_schedule sh c n s0 1 fuel held Hc0 Hnz Hs0
              ltac:(discriminate) Hcap0)
    as [A [B [C D]]].
  - intros i Hi. unfold held. rewrite (pending_shift s s0 sh c i Ho Hcalls).
    now apply Hgood.
  - unfold held. now rewrite (pending_shift s s0 sh c n Ho Hcalls).
  - exact Hfuel.
  - destruct (wait_loop fuel 1 (exitcode held) (PyStr.strip (output held)) s0)
      as [[[]|e|] s1] eqn:W; cbn [fst] in A; try discriminate A.
    rewrite (bind_ok _ _ _ _ _ W). cbn [snd] in B, C, D.
    unfold print, print_end, modify_world.
    split; [reflexivity|]. split.
    + transitivity (sleeps (world s1)); [reflexivity|].
      rewrite C, Hj, Hsl. reflexivity.
    + transitivity (calls (world s1)); [reflexivity|].
      rewrite D, Hcalls. cbn [repeat]. apply repeat_app_cons.
Qed.

Lemma wait_failed_query (sh : Shell) (c : Z) (fuel : nat) (s : St) :
  cluster (job s) = Some c -> c <> 0 -> _submitShell (job s) = Some sh ->
  exitcode (check_reply s sh c 0) <> 0 ->
  still_queued c (check_reply s sh c 0) = true ->
  fst (wait (S fuel) s) = Raise (NameError "mesg")
  /\ sleeps (world (snd (wait (S fuel) s))) = sleeps (world s)
  /\ calls (world (snd (wait (S fuel) s)))
     = check_call sh c :: calls (world s).
Proof.
  intros Hc Hnz Hs Hr Hq.
  unfold wait. rewrite bind_get_job, Hc.
  step (checkQueue_eq s sh c Hc Hnz Hs).
  change (answer s (check_call sh c)) with (check_reply s sh c 0).
  set (held := check_reply s sh c 0) in *.
  set (banner := if PyStr.nonempty (PyStr.strip (PyStr.strip (output held)))
                 then _ else _).
  assert (Hb : exists s0,
             banner (called s (check_call sh c)) = (Ok tt, s0)
             /\ job s0 = job s
             /\ calls (world s0) = check_call sh c :: calls (world s)
             /\ sleeps (world s0) = sleeps (world s)).
  { subst banner.
    destruct (PyStr.nonempty (PyStr.strip (PyStr.strip (output held))));
      eexists; (split; [reflexivity|]); repeat split. }
  destruct Hb as [s0 [Eb [Hj [Hcalls Hsl]]]].
  step Eb.
  assert (Hc0 : cluster (job s0) = Some c) by (now rewrite Hj).
  rewrite (bind_raise _ _ _ _ _
             (wait_loop_failed_query fuel 1 _ _ s0 c Hc0 Hq Hr)).
  cbn [fst snd]. now rewrite Hcalls, Hsl.
Qed.

(** [wait] with a negative cap on the interval, when the first reply exits
    with status 0 and names the cluster: [sleep] refuses the first interval,
    so [wait] raises [ValueError] after one call of the queue command and
    no sleep. *)
Lemma wait_negative_cap (sh : Shell) (c : Z) (fuel : nat) (s : St) :
  cluster (job s) = Some c -> c <> 0 -> _submitShell (job s) = Some sh ->
  (maxPollTime (job s) < 0)%Q ->
  exitcode (check_reply s sh c 0) = 0 ->
  still_queued c (check_reply s sh c 0) = true ->
  fst (wait (S fuel) s) = Raise (ValueError "sleep length must be non-negative")
  /\ sleeps (world (snd (wait (S fuel) s))) = sleeps (world s)
  /\ calls (world (snd (wait (S fuel) s)))
     = check_call sh c :: calls (world s).
Proof.
  intros Hc Hnz Hs Hcap Hr Hq.
  unfold wait. rewrite bind_get_job, Hc.
  step (checkQueue_eq s sh c Hc Hnz Hs).
  change (answer s (check_call sh c)) with (check_reply s sh c 0).
  set (held := check_reply s sh c 0) in *.
  set (banner := if PyStr.nonempty (PyStr.strip (PyStr.strip (output held)))
                 then _ else _).
  assert (Hb : exists s0,
             banner (called s (check_call sh c)) = (Ok tt, s0)
             /\ job s0 = job s
             /\ calls (world s0) = check_call sh c :: calls (world s)
             /\ sleeps (world s0) = sleeps (world s)).
  { subst banner.
    destruct (PyStr.nonempty (PyStr.strip (PyStr.strip (output held))));
      eexists; (split; [reflexivity|]); repeat split. }
  destruct Hb as [s0 [Eb [Hj [Hcalls Hsl]]]].
  step Eb.
  assert (Hc0 : cluster (job s0) = Some c) by (now rewrite Hj).
  assert (Hn : Qle_bool 0 (py_min 1 (maxPollTime (job s0))) = false).
  { rewrite Hj. apply py_min_negative; [discriminate | exact Hcap]. }
  rewrite (bind_raise _ _ _ _ _
             (wait_loop_refused_sleep fuel 1 _ _ s0 c Hc0 Hq Hr Hn)).
  cbn [fst snd world calls sleeps with_stdout]. now rewrite Hcalls, Hsl.
Qed.

(** With the cluster number 0 [wait] passes its own test and fails the one
    of [_checkQueue]. *)
Lemma wait_cluster_zero (fuel : nat) (s : St) :
  cluster (job s) = Some 0 ->
  wait fuel s = (Raise (SubmissionError "_checkQueue()"), s).
Proof.
  intros Hc. unfold wait. rewrite bind_get_job, Hc.
  rewrite (bind_raise _ _ _ _ _ (checkQueue_zero s Hc)). reflexivity.
Qed.

(** *** The intervals *)

Lemma poll_time_succ (k : nat) :
  Qred (poll_time k + (1 # 2)) = poll_time (S k).
Proof.
  unfold poll_time. apply Qred_complete. rewrite Qred_correct.
  unfold Qeq, Qplus. cbn [Qnum Qden]. rewrite Nat2Z.inj_succ. lia.
Qed.

Lemma backoff_from (cap : Q) (n : nat) :
  forall k,
    backoff (poll_time k) cap n
    = map (fun i => py_min (poll_time i) cap) (seq k n).
Proof.
  induction n as [|n IH]; intros k; [reflexivity|].
  cbn [backoff seq map]. now rewrite poll_time_succ, IH.
Qed.

(** The intervals of [wait]: the one before the re-poll number [k + 1] is
    the smaller of 1 + k/2 and the cap. *)
Lemma backoff_intervals (cap : Q) (n : nat) :
  backoff 1 cap n = map (fun k => py_min (poll_time k) cap) (seq 0 n).
Proof. exact (backoff_from cap n O). Qed.

Lemma poll_time_value (k : nat) :
  (poll_time k == 1 + (1 # 2) * inject_Z (Z.of_nat k))%Q.
Proof.
  unfold poll_time. rewrite Qred_correct.
  unfold Qeq, Qplus, Qmult, inject_Z. cbn [Qnum Qden]. lia.
Qed.

Lemma py_min_is_min (a b : Q) : (py_min a b == Qmin a b)%Q.
Proof.
  unfold py_min. destruct (Qcompare b a) eqn:E.
  - apply Qeq_alt in E. rewrite E. symmetry. apply Q.min_id.
  - apply Qlt_alt in E. symmetry. apply Q.min_r. now apply Qlt_le_weak.
  - apply Qgt_alt in E. symmetry. apply Q.min_l. now apply Qlt_le_weak.
Qed.

(** Three rounds under the default cap of 30, and under a cap of 5/4. *)
Lemma wait_three_rounds :
  let rest := [Sample.one_left; Sample.one_left; Sample.one_left;
               Sample.none_left] in
  fst (wait 3 (Sample.submitted_job rest)) = Ok tt
  /\ rev (sleeps (world (snd (wait 3 (Sample.submitted_job rest)))))
     = [1; 3 # 2; 2]%Q
  /\ rev (sleeps (world (snd (wait 3 (Sample.impatient_job (5 # 4) rest)))))
     = [1; 5 # 4; 5 # 4]%Q
  /\ fst (wait 2 (Sample.submitted_job rest)) = Fuel.
Proof. vm_compute. repeat split. Qed.

(** C7, at the failing input.  The job has cluster 42 and the first reply of
    [condor_q] names the cluster with exit status 1: [wait()] raises
    [NameError] for the name [mesg] before any sleep and without asking
    again, however many rounds it is given. *)
Theorem wait_stops_on_failed_query :
  let s := Sample.submitted_job [Sample.condor_q_failure; Sample.none_left] in
  cluster (job s) = Some 42
  /\ exitcode (check_reply s Sample.local_shell 42 0) = 1
  /\ still_queued 42 (check_reply s Sample.local_shell 42 0) = true
  /\ still_queued 42 (check_reply s Sample.local_shell 42 1) = false
  /\ forall fuel,
       fst (wait (S fuel) s) = Raise (NameError "mesg")
       /\ sleeps (world (snd (wait (S fuel) s))) = []
       /\ calls (world (snd (wait (S fuel) s)))
          = check_call Sample.local_shell 42 :: calls (world s).
Proof.
  intros s.
  assert (Hc : cluster (job s) = Some 42) by reflexivity.
  assert (Hs : _submitShell (job s) = Some Sample.local_shell) by reflexivity.
  assert (Hr : exitcode (check_reply s Sample.local_shell 42 0) = 1)
    by reflexivity.
  assert (Hq : still_queued 42 (check_reply s Sample.local_shell 42 0) = true)
    by reflexivity.
  split; [exact Hc|]. split; [exact Hr|]. split; [exact Hq|].
  split; [reflexivity|].
  intros fuel.
  destruct (wait_failed_query Sample.local_shell 42 fuel s Hc
              ltac:(discriminate) Hs) as [A [B C]].
  - rewrite Hr. discriminate.
  - exact Hq.
  - split; [exact A|]. split; [|exact C]. rewrite B. reflexivity.
Qed.

(** * Further properties of the code *)

(** ** [Process.get] and [Process.finish] *)

Lemma strip_empty : PyStr.strip EmptyString = EmptyString.
Proof. reflexivity. Qed.

(** [get] on a new process is what [Shell.execute] returns. *)
Lemma Process_get_is_get (r : Reply) (a : string) (n : Z) (err : string)
    (i : bool) :
  fst (Proc.get i (Proc.Returns (output r)) None (Proc.init a n, err))
  = Process_get r.
Proof. reflexivity. Qed.

(** What a call of [communicate] brought, as [get] sees it. *)
Lemma get_returns (i : bool) (c : Proc.Communicate) (polled : option Z)
    (p : Proc.t) (err : string) :
  fst (Proc.get i c polled (p, err))
  = Proc._savedOutput p
    ++ PyStr.strip (match c with
                    | Proc.Returns b => b
                    | Proc.RaisesValueError => EmptyString
                    end)
  /\ Proc._savedOutput (fst (snd (Proc.get i c polled (p, err)))) = EmptyString.
Proof. destruct c; split; reflexivity. Qed.

(** X1.  [get] keeps nothing of what it returns: it returns the output
    saved before the call followed by what [communicate] brings at this
    call, stripped, and it leaves no saved output.  So what the [get] that
    follows returns is what [communicate] brings at that second call,
    stripped, and nothing else: the same output once more when
    [communicate] hands out the same bytes again, and the empty string when
    [communicate] raises [ValueError], in which case [get] prints nothing
    if called with [ignoreEmpty]. *)
Theorem get_leaves_no_saved_output (i1 i2 : bool)
    (c1 c2 : Proc.Communicate) (polled1 polled2 : option Z)
    (st : Proc.state) (b : string) :
  let brought := fun c => match c with
                          | Proc.Returns x => x
                          | Proc.RaisesValueError => EmptyString
                          end in
  let st1 := snd (Proc.get i1 c1 polled1 st) in
  fst (Proc.get i1 c1 polled1 st)
  = Proc._savedOutput (fst st) ++ PyStr.strip (brought c1)
  /\ Proc._savedOutput (fst st1) = EmptyString
  /\ fst (Proc.get i2 c2 polled2 st1) = PyStr.strip (brought c2)
  /\ (c1 = Proc.Returns b -> c2 = Proc.Returns b ->
      Proc._savedOutput (fst st) = EmptyString ->
      fst (Proc.get i2 c2 polled2 st1) = fst (Proc.get i1 c1 polled1 st))
  /\ fst (Proc.get i2 Proc.RaisesValueError polled2 st1) = EmptyString
  /\ snd (snd (Proc.get true Proc.RaisesValueError polled2 st1)) = snd st1.
Proof.
  destruct st as [p err]. cbv zeta.
  destruct (Proc.get i1 c1 polled1 (p, err)) as [r1 [p1 err1]] eqn:E.
  pose proof (get_returns i1 c1 polled1 p err) as [R S1].
  rewrite E in R, S1. cbn [fst snd] in R, S1 |- *.
  assert (G : forall i c,
             fst (Proc.get i c polled2 (p1, err1))
             = PyStr.strip (match c with
                            | Proc.Returns x => x
                            | Proc.RaisesValueError => EmptyString
                            end)).
  { intros i c. rewrite (proj1 (get_returns i c polled2 p1 err1)).
    now rewrite S1. }
  split; [exact R|]. split; [exact S1|]. split; [apply G|].
  split; [|split; [apply G | reflexivity]].
  intros -> -> Hp. rewrite G, R, Hp. reflexivity.
Qed.

Lemma get_leaves_no_saved_output_witness :
  let st := (Proc.init "echo hi" 7, EmptyString) in
  let c := Proc.Returns ("hi" ++ Sample.nl) in
  let st1 := snd (Proc.get false c None st) in
  Proc._savedOutput (fst st) = EmptyString
  /\ fst (Proc.get false c None st) = "hi"
  /\ fst (Proc.get false c (Some 0) st1) = "hi"
  /\ fst (Proc.get false Proc.RaisesValueError (Some 0) st1) = EmptyString.
Proof.
  intros st c st1.
  assert (H : Proc._savedOutput (fst st) = EmptyString) by reflexivity.
  destruct (get_leaves_no_saved_output false false c c None (Some 0) st
              ("hi" ++ Sample.nl)) as (A & _ & _ & B & C & _).
  split; [exact H|]. split; [rewrite A; reflexivity|].
  split; [|exact C].
  fold st1 in B. rewrite (B eq_refl eq_refl H), A. reflexivity.
Defined.

(** X2.  [finish] adds what [get] returns to the output that was saved
    before the call, and [get] returns that saved output too: after
    [finish] the saved output is the old one twice, then the new output.
    So on a new process [finish] then [get] returns the output once, and
    [finish], [finish], [get] returns it twice when the later calls of
    [communicate] bring nothing. *)
Theorem finish_doubles_saved_output (c : Proc.Communicate) (p : Proc.t)
    (err : string) (a : string) (n : Z) (b : string) (i : bool)
    (polled : option Z) :
  let out := PyStr.strip (match c with
                          | Proc.Returns x => x
                          | Proc.RaisesValueError => EmptyString
                          end) in
  let new := (Proc.init a n, err) in
  Proc._savedOutput (fst (Proc.finish c (p, err)))
  = Proc._savedOutput p ++ Proc._savedOutput p ++ out
  /\ fst (Proc.get i Proc.RaisesValueError polled
            (Proc.finish (Proc.Returns b) new))
     = PyStr.strip b
  /\ fst (Proc.get i Proc.RaisesValueError polled
            (Proc.finish Proc.RaisesValueError
               (Proc.finish (Proc.Returns b) new)))
     = PyStr.strip b ++ PyStr.strip b.
Proof.
  cbv zeta. split; [|split].
  - destruct c; reflexivity.
  - cbn. now rewrite append_empty_r.
  - cbn. now rewrite !append_empty_r.
Qed.

(** ** Dictionaries with string keys *)

Lemma Py_eq_sym (a b : PyVal) : Py.eq a b = Py.eq b a.
Proof.
  destruct a as [|x|m|s], b as [|y|n|t]; simpl; try reflexivity.
  - now destruct x, y.
  - apply Z.eqb_sym.
  - apply String.eqb_sym.
Qed.

Lemma Py_eq_VStr_l (t : string) (x : PyVal) :
  Py.eq (VStr t) x = true <-> x = VStr t.
Proof. rewrite Py_eq_sym. apply Py_eq_VStr. Qed.

Lemma Py_eq_VStr_neq (a b : string) : a <> b -> Py.eq (VStr a) (VStr b) = false.
Proof. intros H. simpl. now apply String.eqb_neq. Qed.

(** Assigning to one key leaves the other keys as they are. *)
Lemma Dict_get_set_other (a b : string) (v : PyVal) (d : Dict.t) :
  a <> b -> Dict.get (VStr a) (Dict.set (VStr b) v d) = Dict.get (VStr a) d.
Proof.
  intros Hne. pose proof (Py_eq_VStr_neq a b Hne) as N.
  induction d as [|[k1 v1] r IH]; cbn [Dict.get Dict.set Dict.pop dict_wf forallb fst].
  - now rewrite N.
  - destruct (Py.eq (VStr b) k1) eqn:E; cbn [Dict.get Dict.set Dict.pop dict_wf forallb fst].
    + apply Py_eq_VStr_l in E. subst k1. now rewrite N.
    + now rewrite IH.
Qed.

Lemma Dict_mem_set (k0 : PyVal) (b : string) (v : PyVal) (d : Dict.t) :
  Dict.mem k0 (Dict.set (VStr b) v d) = Dict.mem k0 d || Py.eq k0 (VStr b).
Proof.
  unfold Dict.mem. induction d as [|[k1 v1] r IH]; cbn [Dict.get Dict.set Dict.pop dict_wf forallb fst].
  - now destruct (Py.eq k0 (VStr b)).
  - destruct (Py.eq (VStr b) k1) eqn:E; cbn [Dict.get Dict.set Dict.pop dict_wf forallb fst].
    + apply Py_eq_VStr_l in E. subst k1.
      now destruct (Py.eq k0 (VStr b)), (Dict.get k0 r).
    + destruct (Py.eq k0 k1); [reflexivity | exact IH].
Qed.


Lemma dict_wf_set (b : string) (v : PyVal) (d : Dict.t) :
  dict_wf d = true -> dict_wf (Dict.set (VStr b) v d) = true.
Proof.
  induction d as [|[k1 v1] r IH]; cbn [Dict.get Dict.set Dict.pop dict_wf forallb fst]; [reflexivity|].
  intros H. apply andb_true_iff in H as [H1 H2].
  destruct (Py.eq (VStr b) k1) eqn:E; cbn [Dict.get Dict.set Dict.pop dict_wf forallb fst].
  - now rewrite H1, H2.
  - rewrite Dict_mem_set, (IH H2).
    apply negb_true_iff in H1. rewrite H1.
    rewrite Py_eq_sym, E. reflexivity.
Qed.


(** Once a key is removed from a [dict] it is not found. *)
Lemma Dict_get_pop_same (a : string) (d : Dict.t) :
  dict_wf d = true -> Dict.get (VStr a) (Dict.pop (VStr a) d) = None.
Proof.
  induction d as [|[k1 v1] r IH]; cbn [Dict.get Dict.set Dict.pop dict_wf forallb fst]; [reflexivity|].
  intros H. apply andb_true_iff in H as [H1 H2].
  destruct (Py.eq (VStr a) k1) eqn:E; cbn [Dict.get Dict.set Dict.pop dict_wf forallb fst].
  - apply Py_eq_VStr_l in E. subst k1.
    apply negb_true_iff in H1. unfold Dict.mem in H1.
    now destruct (Dict.get (VStr a) r).
  - rewrite E. now apply IH.
Qed.

Lemma keys_known_set (b : string) (v : PyVal) (d : Dict.t) :
  In b setting_keys -> keys_known d = true ->
  keys_known (Dict.set (VStr b) v d) = true.
Proof.
  intros Hb. unfold keys_known.
  assert (Eb : existsb (String.eqb b) setting_keys = true).
  { apply existsb_exists. exists b. split; [exact Hb | apply String.eqb_refl]. }
  induction d as [|[k1 v1] r IH]; cbn [Dict.get Dict.set Dict.pop dict_wf forallb fst].
  - intros _. now rewrite Eb.
  - intros H. apply andb_true_iff in H as [H1 H2].
    destruct (Py.eq (VStr b) k1); cbn [Dict.get Dict.set Dict.pop dict_wf forallb fst].
    + now rewrite H1, H2.
    + rewrite H1. now apply IH.
Qed.


(** A key that is not one of the setters' is not in the settings. *)
Lemma keys_known_get (a : string) (d : Dict.t) :
  keys_known d = true -> ~ In a setting_keys -> Dict.get (VStr a) d = None.
Proof.
  unfold keys_known. intros H Ha. induction d as [|[k1 v1] r IH];
    cbn [Dict.get]; [reflexivity|].
  cbn [forallb fst] in H. apply andb_true_iff in H as [H1 H2].
  destruct (Py.eq (VStr a) k1) eqn:E; [|now apply IH].
  exfalso. apply Py_eq_VStr_l in E. subst k1.
  apply Ha. apply existsb_exists in H1 as [x [Hx Ex]].
  apply String.eqb_eq in Ex. now subst x.
Qed.

(** ** Relations that every method respects *)

Section Steps.

(** A relation between the job before and after, which holds across every
    assignment the methods make. *)
Variable R : Job -> Job -> Prop.
Hypothesis R_refl : forall j, R j j.
Hypothesis R_trans : forall a b c, R a b -> R b c -> R a c.
Hypothesis R_set : forall k v j,
  In k setting_keys -> R j (with_settings (Dict.set (VStr k) v (_settings j)) j).
Hypothesis R_pop : forall k j,
  R j (with_settings (Dict.pop k (_settings j)) j).
Hypothesis R_flush : forall j,
  R j (with_submitLinesSoFar (flush_text j) (with_settings [] j)).
Hypothesis R_append : forall t j,
  R j (with_submitLinesSoFar (submitLinesSoFar j ++ t) j).
Hypothesis R_path : forall p j, R j (with_executablePath p j).
Hypothesis R_cluster : forall c j, R j (with_cluster c j).

Lemma steps_ret {A} (a : A) : steps R (ret a).
Proof. intros s. apply R_refl. Qed.

Lemma steps_raise {A} (e : Exn) : steps R (@raise A e).
Proof. intros s. apply R_refl. Qed.

Lemma steps_lift {A} (r : Res A) : steps R (lift r).
Proof. intros s. apply R_refl. Qed.

Lemma steps_get_job : steps R get_job.
Proof. intros s. apply R_refl. Qed.

Lemma steps_modify_world (g : World -> World) : steps R (modify_world g).
Proof. intros s. apply R_refl. Qed.

Lemma steps_Process_run (args : string) (inp : option string) :
  steps R (Process_run args inp).
Proof. intros s. apply R_refl. Qed.

Lemma steps_modify_job (g : Job -> Job) :
  (forall j, R j (g j)) -> steps R (modify_job g).
Proof. intros H s. apply H. Qed.

Lemma steps_bind {A B} (m : M A) (k : A -> M B) :
  steps R m -> (forall a, steps R (k a)) -> steps R (bind m k).
Proof.
  intros Hm Hk s. unfold bind. specialize (Hm s).
  destruct (m s) as [[a|e|] s']; cbn [snd] in *; try exact Hm.
  apply (R_trans _ _ _ Hm). apply Hk.
Qed.

Lemma steps_try_except {A} (m h : M A) (catches : Exn -> bool) :
  steps R m -> steps R h -> steps R (try_except m catches h).
Proof.
  intros Hm Hh s. unfold try_except. specialize (Hm s).
  destruct (m s) as [[a|e|] s']; cbn [snd] in *; try exact Hm.
  destruct (catches e); cbn [snd]; [|exact Hm].
  apply (R_trans _ _ _ Hm). apply Hh.
Qed.

Lemma steps_set_setting (k : string) (v : PyVal) :
  In k setting_keys -> steps R (set_setting k v).
Proof. intros H s. now apply R_set. Qed.

Lemma steps_generateSubmitString (update : bool) :
  steps R (_generateSubmitString update).
Proof. intros s. destruct update; [apply R_flush | apply R_refl]. Qed.

Ltac in_keys := simpl; repeat (first [left; reflexivity | right]).

Ltac steps_step :=
  first
    [ apply steps_ret
    | apply steps_raise
    | apply steps_lift
    | apply steps_get_job
    | apply steps_modify_world
    | apply steps_Process_run
    | apply steps_set_setting; in_keys
    | apply steps_generateSubmitString
    | apply steps_modify_job; intros; cbv beta;
      first [ apply R_pop | apply R_append | apply R_path | apply R_cluster ]
    | apply steps_try_except
    | apply steps_bind; [|intros]
    | match goal with
      | |- steps R (match ?x with _ => _ end) => destruct x
      end ].

Lemma steps_setExecutable (x : string) : steps R (setExecutable x).
Proof.
  unfold setExecutable, _resolveExecutable, setTransferExecutable,
    getExecutable, get_setting, submitShell_execute, submitShell, execute,
    print_err.
  repeat steps_step.
Qed.

Lemma steps_checkQueue : steps R _checkQueue.
Proof.
  unfold _checkQueue, submitShell_execute, submitShell, execute.
  repeat steps_step.
Qed.

Lemma steps_wait_loop (fuel : nat) :
  forall currPollTime retval msg,
    steps R (wait_loop fuel currPollTime retval msg).
Proof.
  induction fuel as [|fuel IH]; intros currPollTime retval msg;
    cbn [wait_loop]; unfold read_mesg, print_err, print_end, sleep.
  - repeat steps_step.
  - repeat first [ apply IH | apply steps_checkQueue | steps_step ].
Qed.

Lemma steps_getter (k : string) : steps R (getter k).
Proof.
  unfold getter, ignore, getUniverse, getUsername, getServer, getExecutable,
    getTransferExecutable, getArguments, getInitialDirectory, getInput,
    getOutput, getError, getLog, getRequirements, getMatlabLock, getCPUNum,
    getRAM, getDiskSpace, getTransferFiles, getWhenTransferOutput,
    getNotification, getEmail, get_setting.
  repeat steps_step.
Qed.

(** Every method respects [R]. *)
Lemma steps_run_op (pickle_load : string -> Exn + Dict.t) (o : Op) :
  steps R (run_op pickle_load o).
Proof.
  destruct o; cbn [run_op];
    unfold ignore, setUniverse, setTransferExecutable, setArguments,
      setInitialDirectory, setInput, setOutput, setError, setLog,
      setRequirements, setMatlabLock, setCPUNum, setRAM, setDiskSpace,
      setTransferFiles, setWhenTransferOutput, setNotification, setEmail,
      saveSubmitFile, Job_str, getUsername, getServer, queue, submit, wait,
      poll, status, py_int, read_mesg, outputFn_print, outputFn_str,
      submitShell_execute, submitShell, execute, print, print_end, print_err;
    repeat first
      [ apply steps_setExecutable
      | apply steps_getter
      | apply steps_checkQueue
      | apply steps_wait_loop
      | steps_step ].
Qed.

Lemma steps_run_ops (pickle_load : string -> Exn + Dict.t) (ops : list Op) :
  forall s, R (job s) (job (run_ops pickle_load ops s)).
Proof.
  induction ops as [|o r IH]; intros s; [apply R_refl|].
  cbn [run_ops]. apply (R_trans _ _ _ (steps_run_op pickle_load o s)). apply IH.
Qed.


End Steps.

(** ** The accumulated text and the settings under every method *)

Lemma text_grew_refl (j : Job) : text_grew j j.
Proof. exists EmptyString. now rewrite append_empty_r. Qed.

Lemma text_grew_trans (a b c : Job) :
  text_grew a b -> text_grew b c -> text_grew a c.
Proof.
  intros [t Ht] [u Hu]. exists (t ++ u). now rewrite Hu, Ht, append_assoc.
Qed.

(** X3.  No method ever takes text away from the accumulated submission
    text or rewrites it: after any sequence of methods, each returning or
    raising, the text is the earlier text followed by what was added. *)
Theorem accumulated_text_only_grows (pickle_load : string -> Exn + Dict.t)
    (ops : list Op) (s : St) :
  exists added,
    submitLinesSoFar (job (run_ops pickle_load ops s))
    = submitLinesSoFar (job s) ++ added.
Proof.
  apply (steps_run_ops text_grew text_grew_refl text_grew_trans); intros.
  - exists EmptyString. cbn. now rewrite append_empty_r.
  - exists EmptyString. cbn. now rewrite append_empty_r.
  - exists (setting_lines (_settings j)). reflexivity.
  - exists t. reflexivity.
  - exists EmptyString. cbn. now rewrite append_empty_r.
  - exists EmptyString. cbn. now rewrite append_empty_r.
Qed.


Lemma settings_ok_set (k : string) (v : PyVal) (j : Job) :
  In k setting_keys -> settings_ok j ->
  settings_ok (with_settings (Dict.set (VStr k) v (_settings j)) j).
Proof.
  intros Hk [W K]. split; cbn [_settings with_settings].
  - now apply dict_wf_set.
  - now apply keys_known_set.
Qed.









(** ** Getters after setters *)

Lemma get_after_set (k : string) (e : Exn) (v : PyVal) (s : St) :
  get_setting k e (snd (set_setting k v s))
  = (Ok v, snd (set_setting k v s)).
Proof.
  unfold get_setting, set_setting, modify_job. rewrite bind_get_job.
  cbn [snd job _settings with_settings]. now rewrite Dict_get_set_same.
Qed.

Lemma get_after_other_set (k k' : string) (e : Exn) (v : PyVal) (s : St) :
  k <> k' ->
  fst (get_setting k e (snd (set_setting k' v s))) = fst (get_setting k e s).
Proof.
  intros H. unfold get_setting, set_setting, modify_job.
  rewrite !bind_get_job. cbn [snd job _settings with_settings].
  rewrite (Dict_get_set_other k k' v _ H).
  now destruct (Dict.get (VStr k) (_settings (job s))).
Qed.

(** X5.  For the attributes whose setter stores its argument as it is and
    whose getter names the same key, the getter called right after the
    setter returns the value that was set: the initial directory, the
    input, output, error and log files, the requirements, the file transfer
    mode, the notification and a given e-mail address; [getArguments]
    returns the argument string between double quotes.  Such a setter
    changes what no getter of another key returns. *)
Theorem getters_return_what_setters_stored (s : St) (v : PyVal)
    (a : string) (pickle_load : string -> Exn + Dict.t) :
  getInitialDirectory (snd (setInitialDirectory v s))
  = (Ok v, snd (setInitialDirectory v s))
  /\ getInput (snd (setInput v s)) = (Ok v, snd (setInput v s))
  /\ getOutput (snd (setOutput v s)) = (Ok v, snd (setOutput v s))
  /\ getError (snd (setError v s)) = (Ok v, snd (setError v s))
  /\ getLog (snd (setLog v s)) = (Ok v, snd (setLog v s))
  /\ getRequirements (snd (setRequirements v s))
     = (Ok v, snd (setRequirements v s))
  /\ getTransferFiles (snd (setTransferFiles v s))
     = (Ok v, snd (setTransferFiles v s))
  /\ getNotification (snd (setNotification v s))
     = (Ok v, snd (setNotification v s))
  /\ getArguments (snd (setArguments a s))
     = (Ok (VStr (PyStr.chr PyStr.dquote ++ a ++ PyStr.chr PyStr.dquote)),
        snd (setArguments a s))
  /\ (Py.truthy v = true ->
      getEmail (snd (setEmail pickle_load v s))
      = (Ok v, snd (setEmail pickle_load v s)))
  /\ (forall k k' e w, k <> k' ->
        fst (get_setting k e (snd (set_setting k' w s)))
        = fst (get_setting k e s)).
Proof.
  repeat split; try apply get_after_set.
  - intros H. unfold setEmail. rewrite H. apply get_after_set.
  - intros. now apply get_after_other_set.
Qed.

Lemma getters_return_what_setters_stored_witness :
  Py.truthy (VStr "kollerg@wlu.edu") = true
  /\ fst (getEmail (snd (setEmail Sample.no_pickle (VStr "kollerg@wlu.edu")
                           (Sample.new_job []))))
     = Ok (VStr "kollerg@wlu.edu")
  /\ fst (getError (snd (setOutput (VStr "out.txt") (Sample.new_job []))))
     = fst (getError (Sample.new_job [])).
Proof.
  destruct (getters_return_what_setters_stored (Sample.new_job [])
              (VStr "kollerg@wlu.edu") EmptyString Sample.no_pickle)
    as (_ & _ & _ & _ & _ & _ & _ & _ & _ & E & _).
  destruct (getters_return_what_setters_stored (Sample.new_job [])
              VNone EmptyString Sample.no_pickle)
    as (_ & _ & _ & _ & _ & _ & _ & _ & _ & _ & O).
  split; [reflexivity|]. split.
  - now rewrite (E eq_refl).
  - apply (O "Error" "Output" (EmptySetting "Error") (VStr "out.txt")).
    discriminate.
Defined.

Lemma not_a_setting_key : ~ In "when_to_transfer_ouput" setting_keys.
Proof.
  unfold setting_keys. simpl. intros H.
  repeat (destruct H as [H|H]; [discriminate H|]). exact H.
Qed.

(** X6.  [getWhenTransferOutput] reads a key that no setter assigns to (it
    lacks a letter): on a job whose settings hold only the setters' keys it
    raises [EmptySetting], also right after [setWhenTransferOutput], which
    does store its value under the key the submission file needs. *)
Theorem getWhenTransferOutput_never_finds_the_setting (s : St) (v : PyVal) :
  settings_ok (job s) ->
  let s' := snd (setWhenTransferOutput v s) in
  getWhenTransferOutput s
  = (Raise (EmptySetting "when_to_transfer_output"), s)
  /\ Dict.get (VStr "when_to_transfer_output") (_settings (job s')) = Some v
  /\ getWhenTransferOutput s'
     = (Raise (EmptySetting "when_to_transfer_output"), s').
Proof.
  intros Hok s'.
  assert (G : forall x, settings_ok (job x) ->
                        getWhenTransferOutput x
                        = (Raise (EmptySetting "when_to_transfer_output"), x)).
  { intros x [_ K]. unfold getWhenTransferOutput, get_setting.
    rewrite bind_get_job.
    now rewrite (keys_known_get _ _ K not_a_setting_key). }
  split; [now apply G|]. split.
  - apply Dict_get_set_same.
  - apply G. subst s'. unfold setWhenTransferOutput, set_setting, modify_job.
    cbn [snd job]. apply settings_ok_set; [|exact Hok].
    unfold setting_keys. simpl. tauto.
Qed.

Lemma getWhenTransferOutput_never_finds_the_setting_witness :
  settings_ok (job (Sample.new_job []))
  /\ fst (getWhenTransferOutput
            (snd (setWhenTransferOutput (VStr "ON_EXIT") (Sample.new_job []))))
     = Raise (EmptySetting "when_to_transfer_output").
Proof.
  assert (H : settings_ok (job (Sample.new_job []))) by (split; reflexivity).
  split; [exact H|].
  destruct (getWhenTransferOutput_never_finds_the_setting
              (Sample.new_job []) (VStr "ON_EXIT") H) as [_ [_ E]].
  now rewrite E.
Defined.

(** X7.  [setMatlabLock] with a true argument makes [getMatlabLock] return
    [True]; with a false one it removes the setting, and [getMatlabLock]
    then raises [EmptySetting] instead of returning [False]. *)
Theorem getMatlabLock_after_setMatlabLock (s : St) (v : PyVal) :
  dict_wf (_settings (job s)) = true ->
  let s' := snd (setMatlabLock v s) in
  fst (setMatlabLock v s) = Ok tt
  /\ (Py.truthy v = true -> getMatlabLock s' = (Ok true, s'))
  /\ (Py.truthy v = false ->
      getMatlabLock s' = (Raise (EmptySetting "MatlabLock"), s')).
Proof.
  intros W s'. subst s'. unfold setMatlabLock.
  destruct (Py.truthy v) eqn:T.
  - split; [reflexivity|]. split; [intros _|discriminate].
    unfold getMatlabLock.
    rewrite (bind_ok _ _ _ _ _ (get_after_set "concurrency_limits" _ _ s)).
    reflexivity.
  - rewrite bind_get_job.
    assert (G : forall x, Dict.get (VStr "concurrency_limits")
                            (_settings (job x)) = None ->
                          getMatlabLock x
                          = (Raise (EmptySetting "MatlabLock"), x)).
    { intros x E. unfold getMatlabLock, get_setting, bind, get_job.
      now rewrite E. }
    unfold Dict.mem.
    destruct (Dict.get (VStr "concurrency_limits") (_settings (job s))) eqn:E.
    + split; [reflexivity|]. split; [discriminate|intros _].
      apply G. cbn [modify_job snd job _settings with_settings].
      now apply Dict_get_pop_same.
    + split; [reflexivity|]. split; [discriminate|intros _].
      now apply G.
Qed.

Lemma getMatlabLock_after_setMatlabLock_witness :
  dict_wf (_settings (job (Sample.new_job []))) = true
  /\ fst (getMatlabLock (snd (setMatlabLock (VBool true) (Sample.new_job []))))
     = Ok true
  /\ fst (getMatlabLock
            (snd (setMatlabLock (VBool false)
                    (snd (setMatlabLock (VBool true) (Sample.new_job []))))))
     = Raise (EmptySetting "MatlabLock").
Proof.
  assert (W : dict_wf (_settings (job (Sample.new_job []))) = true)
    by reflexivity.
  assert (W' : dict_wf (_settings (job (snd (setMatlabLock (VBool true)
                                              (Sample.new_job []))))) = true)
    by reflexivity.
  destruct (getMatlabLock_after_setMatlabLock _ (VBool true) W) as [_ [A _]].
  destruct (getMatlabLock_after_setMatlabLock _ (VBool false) W') as [_ [_ B]].
  split; [exact W|]. split.
  - now rewrite (A eq_refl).
  - now rewrite (B eq_refl).
Defined.

(** ** Methods that only ask *)

(** X8.  The getters, [str(job)], [saveSubmitFile], [poll], [wait] and
    [status] (with [print] or [str]) leave every attribute of the job as it
    is, whether they return or raise. *)
Theorem queries_leave_the_job_alone (pickle_load : string -> Exn + Dict.t)
    (o : Op) (s : St) :
  is_query o = true -> job (snd (run_op pickle_load o s)) = job s.
Proof.
  destruct o; intros H; try discriminate H; cbn [run_op].
  - apply (keeps_getter (fun j => j)).
  - reflexivity.
  - reflexivity.
  - apply (keeps_wait (fun j => j)).
  - unfold ignore. apply (keeps_bind (fun j => j));
      [apply keeps_poll | intros; apply keeps_ret].
  - unfold ignore. apply (keeps_bind (fun j => j));
      [apply keeps_status; intros msg x; reflexivity
      | intros; apply keeps_ret].
  - unfold ignore. apply (keeps_bind (fun j => j));
      [apply keeps_status; intros msg x; reflexivity
      | intros; apply keeps_ret].
Qed.

Lemma queries_leave_the_job_alone_witness :
  is_query OpPoll = true
  /\ job (snd (run_op Sample.no_pickle OpPoll
                 (Sample.submitted_job [Sample.one_left])))
     = job (Sample.submitted_job [Sample.one_left]).
Proof.
  split; [reflexivity|].
  apply (queries_leave_the_job_alone Sample.no_pickle OpPoll). reflexivity.
Defined.

(** ** Finding the executable *)

Lemma resolveExecutable_eq (s : St) (sh : Shell) (x : string) :
  _submitShell (job s) = Some sh ->
  let c1 := shell_call sh ("ls " ++ x) None in
  let s1 := called s c1 in
  let c2 := shell_call sh ("which " ++ x) None in
  let s2 := called s1 c2 in
  _resolveExecutable x s
  = if negb (exitcode (answer s c1) =? 0) then
      if exitcode (answer s1 c2) =? 0
      then (Ok (PyStr.strip (PyStr.strip (output (answer s1 c2)))), s2)
      else
        match Dict.get (VStr "Executable") (_settings (job s)) with
        | Some e =>
            (Ok x,
             mkSt (job s)
               (with_stderr
                  (stderr (world s2)
                   ++ PyStr.join " "
                        ["Warning: Could not find Executable:"; Py.str e]
                   ++ PyStr.chr PyStr.newline) (world s2)))
        | None => (Raise (RequiredSetting "Executable"), s2)
        end
    else (Ok x, s1).
Proof.
  intros Hs c1 s1 c2 s2.
  assert (Hs1 : _submitShell (job s1) = Some sh) by exact Hs.
  unfold _resolveExecutable.
  step (submitShell_execute_eq sh ("ls " ++ x) None false s Hs).
  fold c1 s1. destruct (negb (exitcode (answer s c1) =? 0)); [|reflexivity].
  step (submitShell_execute_eq sh ("which " ++ x) None false s1 Hs1).
  fold c2 s2. destruct (exitcode (answer s1 c2) =? 0); [reflexivity|].
  unfold getExecutable, get_setting, bind, get_job.
  change (_settings (job s2)) with (_settings (job s)).
  now destruct (Dict.get (VStr "Executable") (_settings (job s))).
Qed.

(** [_resolveExecutable] changes nothing in the job, with or without a
    shell. *)
Lemma resolveExecutable_job (x : string) (s : St) :
  job (snd (_resolveExecutable x s)) = job s.
Proof.
  destruct (_submitShell (job s)) as [sh|] eqn:Hs.
  - rewrite (resolveExecutable_eq s sh x Hs). cbv zeta.
    destruct (negb (exitcode _ =? 0)); [|reflexivity].
    destruct (exitcode _ =? 0); [reflexivity|].
    now destruct (Dict.get (VStr "Executable") (_settings (job s))).
  - unfold _resolveExecutable, submitShell_execute, submitShell, bind, get_job.
    now rewrite Hs.
Qed.

(** X9.  [_resolveExecutable(x)] never changes the job.  On a job that has
    its shell: when [ls x] exits with 0 it returns [x]; else when [which x]
    exits with 0 it returns the output of [which], stripped; when both fail
    it reads the [Executable] setting for its warning, so it raises
    [RequiredSetting] on a job that has none, and otherwise warns about the
    executable set before, not about [x], and returns [x]. *)
Theorem resolveExecutable_by_cases (s : St) (sh : Shell) (x : string) :
  _submitShell (job s) = Some sh ->
  let c1 := shell_call sh ("ls " ++ x) None in
  let s1 := called s c1 in
  let c2 := shell_call sh ("which " ++ x) None in
  let s2 := called s1 c2 in
  job (snd (_resolveExecutable x s)) = job s
  /\ (exitcode (answer s c1) = 0 -> _resolveExecutable x s = (Ok x, s1))
  /\ (exitcode (answer s c1) <> 0 -> exitcode (answer s1 c2) = 0 ->
      _resolveExecutable x s
      = (Ok (PyStr.strip (PyStr.strip (output (answer s1 c2)))), s2))
  /\ (exitcode (answer s c1) <> 0 -> exitcode (answer s1 c2) <> 0 ->
      Dict.get (VStr "Executable") (_settings (job s)) = None ->
      _resolveExecutable x s = (Raise (RequiredSetting "Executable"), s2))
  /\ (exitcode (answer s c1) <> 0 -> exitcode (answer s1 c2) <> 0 ->
      forall e, Dict.get (VStr "Executable") (_settings (job s)) = Some e ->
      fst (_resolveExecutable x s) = Ok x
      /\ stderr (world (snd (_resolveExecutable x s)))
         = stderr (world s)
           ++ ("Warning: Could not find Executable: " ++ Py.str e)
           ++ PyStr.chr PyStr.newline).
Proof.
  intros Hs c1 s1 c2 s2.
  pose proof (resolveExecutable_eq s sh x Hs) as E. cbv zeta in E.
  fold c1 s1 c2 s2 in E.
  split; [apply resolveExecutable_job|]. rewrite E.
  split; [|split; [|split]].
  - intros H. apply Z.eqb_eq in H. now rewrite H.
  - intros H1 H2. apply Z.eqb_neq in H1. apply Z.eqb_eq in H2.
    now rewrite H1, H2.
  - intros H1 H2 N. apply Z.eqb_neq in H1, H2. rewrite H1, H2. cbn [negb].
    now rewrite N.
  - intros H1 H2 e Se. apply Z.eqb_neq in H1, H2. rewrite H1, H2. cbn [negb].
    rewrite Se. split; [reflexivity|]. cbn [snd world stderr with_stderr].
    cbn [PyStr.join String.concat]. now rewrite !append_assoc.
Qed.

Lemma resolveExecutable_by_cases_witness :
  _submitShell (job Cases.lost_job) = Some Sample.local_shell
  /\ fst (_resolveExecutable "nosuch" Cases.lost_job)
     = Raise (RequiredSetting "Executable")
  /\ fst (_resolveExecutable "echo" Sample.echo_job) = Ok "/bin/echo".
Proof.
  assert (H1 : _submitShell (job Cases.lost_job) = Some Sample.local_shell)
    by reflexivity.
  assert (H2 : _submitShell (job Sample.echo_job) = Some Sample.local_shell)
    by reflexivity.
  destruct (resolveExecutable_by_cases Cases.lost_job _ "nosuch" H1)
    as (_ & _ & _ & N & _).
  destruct (resolveExecutable_by_cases Sample.echo_job _ "echo" H2)
    as (_ & _ & W & _).
  split; [exact H1|]. split.
  - rewrite N; [reflexivity | vm_compute; discriminate
                | vm_compute; discriminate | reflexivity].
  - rewrite W; [reflexivity | vm_compute; discriminate | reflexivity].
Defined.

(** ** [queue]: what it refuses and what it appends *)

Lemma bind_inv {A B} (m : M A) (k : A -> M B) (s s' : St) (b : B) :
  bind m k s = (Ok b, s') ->
  exists a s1, m s = (Ok a, s1) /\ k a s1 = (Ok b, s').
Proof.
  unfold bind. destruct (m s) as [[a|e|] s1]; intros H; try discriminate H.
  now exists a, s1.
Qed.

Lemma lstrip_blank (s : string) :
  PyStr.forallb_str PyStr.isspace s = true -> PyStr.lstrip s = EmptyString.
Proof.
  induction s as [|c r IH]; [reflexivity|]. cbn [PyStr.forallb_str PyStr.lstrip].
  intros H. apply andb_true_iff in H as [Hc Hr]. now rewrite Hc, IH.
Qed.

(** X10.  [queue] on a command line that is empty or made of blanks raises
    [IndexError] and changes nothing: there is no first word to take as
    the executable. *)
Theorem queue_of_blank_command_line (command_line : string) (times : PyVal)
    (s : St) :
  PyStr.forallb_str PyStr.isspace command_line = true ->
  queue command_line times s
  = (Raise (IndexError "list index out of range"), s).
Proof.
  intros H. unfold queue, PyStr.strip. rewrite (lstrip_blank _ H). reflexivity.
Qed.

Lemma queue_of_blank_command_line_witness :
  PyStr.forallb_str PyStr.isspace "   " = true
  /\ queue "   " (VInt 1) Sample.echo_job
     = (Raise (IndexError "list index out of range"), Sample.echo_job).
Proof.
  split; [reflexivity|].
  apply (queue_of_blank_command_line "   " (VInt 1) Sample.echo_job).
  reflexivity.
Defined.

(** X11.  [queue] on a job that has its shell and no [Executable] setting,
    for a program that neither [ls] nor [which] finds, raises
    [RequiredSetting('Executable')] from the warning of
    [_resolveExecutable]; nothing is queued and the job is as it was. *)
Theorem queue_of_unknown_program (command_line : string) (times : PyVal)
    (s : St) (sh : Shell) (x : string) (rest : list string) :
  _submitShell (job s) = Some sh ->
  has_bad_quote (PyStr.strip command_line) = false ->
  Shlex.split (PyStr.strip command_line) = Ok (x :: rest) ->
  let c1 := shell_call sh ("ls " ++ x) None in
  let c2 := shell_call sh ("which " ++ x) None in
  exitcode (answer s c1) <> 0 ->
  exitcode (answer (called s c1) c2) <> 0 ->
  Dict.get (VStr "Executable") (_settings (job s)) = None ->
  fst (queue command_line times s) = Raise (RequiredSetting "Executable")
  /\ job (snd (queue command_line times s)) = job s.
Proof.
  intros Hs Hq Ht c1 c2 H1 H2 N.
  pose proof (resolveExecutable_eq s sh x Hs) as E. cbv zeta in E.
  fold c1 c2 in E. apply Z.eqb_neq in H1, H2.
  rewrite H1, H2, N in E. cbn [negb] in E.
  assert (Es : setExecutable x s
               = (Raise (RequiredSetting "Executable"),
                  called (called s c1) c2)).
  { unfold setExecutable. now rewrite (bind_raise _ _ _ _ _ E). }
  unfold queue. rewrite Hq, Ht.
  rewrite (bind_ok _ _ s s (x :: rest) eq_refl).
  rewrite (bind_ok _ _ s s x eq_refl).
  rewrite (bind_raise _ _ _ _ _ Es). split; reflexivity.
Qed.

Lemma queue_of_unknown_program_witness :
  _submitShell (job Cases.lost_job) = Some Sample.local_shell
  /\ fst (queue "nosuch -v" (VInt 1) Cases.lost_job)
     = Raise (RequiredSetting "Executable")
  /\ job (snd (queue "nosuch -v" (VInt 1) Cases.lost_job))
     = job Cases.lost_job.
Proof.
  assert (H : _submitShell (job Cases.lost_job) = Some Sample.local_shell)
    by reflexivity.
  split; [exact H|].
  apply (queue_of_unknown_program "nosuch -v" (VInt 1) Cases.lost_job
           Sample.local_shell "nosuch" ["-v"] H);
    try reflexivity; vm_compute; discriminate.
Defined.

Lemma snd_bind {A B} (m : M A) (k : A -> M B) (s : St) :
  snd (bind m k s)
  = match m s with
    | (Ok a, s1) => snd (k a s1)
    | (_, s1) => s1
    end.
Proof. unfold bind. now destruct (m s) as [[a|e|] s1]. Qed.

(** What [setExecutable] does once the path is resolved, on a job with a
    recorded path and no [Executable] setting. *)
Lemma setExecutable_recorded (newPath : string) (s1 : St) :
  Py.truthy (_executablePath (job s1)) = true ->
  Dict.mem (VStr "Executable") (_settings (job s1)) = false ->
  let s' :=
    snd (((if PyStr.contains "/"
                (PyStr.replace (String PyStr.backslash "/") EmptyString newPath)
           then setTransferExecutable (VBool false) else ret tt) ;;
          j <- get_job ;;
          if negb (Py.truthy (_executablePath j)) then
            set_setting "Executable" (VStr newPath) ;;
            e <- getExecutable ;;
            modify_job (with_executablePath e)
          else
            if Dict.mem (VStr "Executable") (_settings j) then
              e <- getExecutable ;;
              if negb (Py.eq e (VStr newPath)) then
                print_err
                  ["Warning: Generally speaking, only one executable should "
                   ++ "be used per submission."] ;;
                set_setting "Executable" (VStr newPath)
              else ret tt
            else ret tt) s1) in
  Dict.mem (VStr "Executable") (_settings (job s')) = false
  /\ _executablePath (job s') = _executablePath (job s1).
Proof.
  intros Hp Hm.
  assert (N : Py.eq (VStr "Executable") (VStr "transfer_executable") = false)
    by reflexivity.
  destruct (PyStr.contains "/"
              (PyStr.replace (String PyStr.backslash "/") EmptyString newPath)).
  - rewrite (bind_ok _ _ _ _ _ (setTransferExecutable_bool s1 false)).
    rewrite bind_get_job. cbn [job _executablePath with_settings _settings].
    rewrite Hp. cbn [negb]. rewrite Dict_mem_set, Hm, N.
    cbn [orb ret snd job _settings _executablePath with_settings].
    rewrite Dict_mem_set, Hm, N. split; reflexivity.
  - rewrite (bind_ok _ _ s1 s1 tt eq_refl). rewrite bind_get_job.
    rewrite Hp. cbn [negb]. rewrite Hm. cbn [ret snd]. now split.
Qed.

(** X12.  Once a path of the executable is recorded and the settings hold
    no [Executable] (after a flush), [setExecutable] writes no [Executable]
    setting, whatever its argument and whatever the shell answers: the
    stanzas queued after the first one carry no [Executable] line. *)
Theorem setExecutable_after_flush_writes_nothing (x : string) (s : St) :
  Py.truthy (_executablePath (job s)) = true ->
  Dict.mem (VStr "Executable") (_settings (job s)) = false ->
  let s' := snd (setExecutable x s) in
  Dict.mem (VStr "Executable") (_settings (job s')) = false
  /\ _executablePath (job s') = _executablePath (job s).
Proof.
  intros Hp Hm s'. subst s'. unfold setExecutable. rewrite snd_bind.
  pose proof (resolveExecutable_job x s) as J.
  destruct (_resolveExecutable x s) as [[newPath|e|] s1];
    cbn [snd] in J; try (now rewrite J).
  rewrite <- J in Hp, Hm.
  destruct (setExecutable_recorded newPath s1 Hp Hm) as [A B].
  split; [exact A|]. now rewrite <- J.
Qed.

Lemma setExecutable_after_flush_writes_nothing_witness :
  let s := Sample.queued_job Cases.second_stanza_script in
  Py.truthy (_executablePath (job s)) = true
  /\ Dict.mem (VStr "Executable") (_settings (job s)) = false
  /\ Dict.mem (VStr "Executable")
       (_settings (job (snd (setExecutable "hostname" s)))) = false
  /\ _executablePath (job (snd (setExecutable "hostname" s)))
     = VStr "/usr/bin/whoami".
Proof.
  intros s.
  assert (Hp : Py.truthy (_executablePath (job s)) = true) by reflexivity.
  assert (Hm : Dict.mem (VStr "Executable") (_settings (job s)) = false)
    by reflexivity.
  destruct (setExecutable_after_flush_writes_nothing "hostname" s Hp Hm)
    as [A B].
  split; [exact Hp|]. split; [exact Hm|]. split; [exact A|].
  rewrite B. reflexivity.
Defined.

(** [setExecutable] assigns to the keys [Executable] and
    [transfer_executable] only. *)
Lemma setExecutable_other_keys (x k : string) (s : St) :
  k <> "Executable" -> k <> "transfer_executable" ->
  Dict.get (VStr k) (_settings (job (snd (setExecutable x s))))
  = Dict.get (VStr k) (_settings (job s)).
Proof.
  intros H1 H2. unfold setExecutable. rewrite snd_bind.
  pose proof (resolveExecutable_job x s) as J.
  destruct (_resolveExecutable x s) as [[newPath|e|] s1]; cbn [snd] in J;
    try (now rewrite J).
  rewrite <- J. clear J s.
  rewrite snd_bind.
  assert (T : exists s2,
             (if PyStr.contains "/"
                   (PyStr.replace (String PyStr.backslash "/") EmptyString
                      newPath)
              then setTransferExecutable (VBool false) else ret tt) s1
             = (Ok tt, s2)
             /\ Dict.get (VStr k) (_settings (job s2))
                = Dict.get (VStr k) (_settings (job s1))).
  { destruct (PyStr.contains _ _).
    - eexists. split; [reflexivity|].
      cbn [job _settings with_settings]. now apply Dict_get_set_other.
    - eexists. split; reflexivity. }
  destruct T as [s2 [-> <-]].
  rewrite bind_get_job.
  destruct (negb (Py.truthy (_executablePath (job s2)))).
  - unfold set_setting, getExecutable, get_setting, modify_job, bind, get_job.
    cbn [fst snd job _settings with_settings].
    rewrite Dict_get_set_same.
    cbn [snd job _settings with_executablePath with_settings].
    now apply Dict_get_set_other.
  - destruct (Dict.mem (VStr "Executable") (_settings (job s2))) eqn:M;
      [|reflexivity].
    unfold getExecutable, get_setting, bind, get_job.
    unfold Dict.mem in M.
    destruct (Dict.get (VStr "Executable") (_settings (job s2))) as [e|];
      [|discriminate M].
    cbn [ret].
    destruct (negb (Py.eq e (VStr newPath))); [|reflexivity].
    unfold print_err, set_setting, modify_job, modify_world.
    cbn [snd job _settings with_settings].
    now apply Dict_get_set_other.
Qed.

(** X13.  A [queue] that returns has added one stanza to the accumulated
    text and left the settings empty.  The stanza holds one line, the key,
    [ = ], the value and a line feed, for each setting pending when the
    flush is made: the settings as [setExecutable], called on the first
    word of the command line, leaves them, with [Arguments] set to the
    remaining words between double quotes when there are any; every
    setting pending before the call under another key than [Executable],
    [transfer_executable] and [Arguments] is among them with its value.
    The stanza ends with the directive [Queue], which carries the number of
    runs unless that number equals 1.  The text a [submit()] would send
    next is exactly the accumulated text. *)
Theorem queue_appends_one_stanza (command_line : string) (times : PyVal)
    (s : St) :
  fst (queue command_line times s) = Ok tt ->
  let s' := snd (queue command_line times s) in
  let cl := PyStr.strip command_line in
  let feed := String "010"%char EmptyString in
  let quote := String "034"%char EmptyString in
  let line := fun kv : PyVal * PyVal =>
    Py.str (fst kv) ++ " = " ++ Py.str (snd kv) ++ feed in
  let directive :=
    if Py.eq times (VInt 1) then "Queue" ++ feed
    else "Queue " ++ Py.str times ++ feed in
  exists first words e r executable args,
    Shlex.split cl = Ok (first :: words)
    /\ PyStr.split " " cl = e :: r
    /\ join_continued e r = Ok (executable, args)
    /\ let s1 := snd (setExecutable first s) in
       let argStr := PyStr.join " " args in
       let d :=
         if PyStr.nonempty argStr
         then Dict.set (VStr "Arguments") (VStr (quote ++ argStr ++ quote))
                       (_settings (job s1))
         else _settings (job s1) in
       submitLinesSoFar (job s')
       = (submitLinesSoFar (job s)
          ++ String.concat EmptyString (map line d)) ++ directive
       /\ (forall k v,
             k <> "Executable" -> k <> "transfer_executable" ->
             k <> "Arguments" ->
             Dict.get (VStr k) (_settings (job s)) = Some v ->
             Dict.get (VStr k) d = Some v)
       /\ _settings (job s') = []
       /\ flush_text (job s') = submitLinesSoFar (job s').
Proof.
  intros H s'. subst s'. cbv zeta.
  destruct (queue command_line times s) as [res s'] eqn:Q.
  cbn [fst] in H. subst res. cbn [snd].
  unfold queue in Q.
  destruct (has_bad_quote (PyStr.strip command_line)); [discriminate Q|].
  apply bind_inv in Q as (toks & s1 & Q1 & Q).
  apply bind_inv in Q as (first & s2 & Q2 & Q).
  apply bind_inv in Q as (u3 & s3 & Q3 & Q).
  apply bind_inv in Q as ([executable args] & s4 & Q4 & Q).
  apply bind_inv in Q as (u5 & s5 & Q5 & Q).
  rewrite (bind_ok _ _ _ _ _ (generateSubmitString_true s5)) in Q.
  injection Q as <-.
  assert (E1 : s1 = s) by (unfold lift in Q1; congruence).
  assert (T : Shlex.split (PyStr.strip command_line) = Ok toks)
    by (unfold lift in Q1; congruence).
  subst s1.
  destruct toks as [|first' words]; [discriminate Q2|].
  unfold ret in Q2. injection Q2 as -> <-.
  destruct (PyStr.split " " (PyStr.strip command_line)) as [|e r] eqn:P;
    [discriminate Q4|].
  assert (E4 : s4 = s3 /\ join_continued e r = Ok (executable, args)).
  { unfold lift in Q4. destruct (join_continued e r) as [[x y]|x|];
      try discriminate Q4. injection Q4 as -> -> ->. now split. }
  destruct E4 as [-> JC].
  assert (E3 : s3 = snd (setExecutable first s)) by (now rewrite Q3).
  assert (L3 : submitLinesSoFar (job s3) = submitLinesSoFar (job s)).
  { pose proof (keeps_setExecutable submitLinesSoFar
                  (fun _ _ => eq_refl) (fun _ _ => eq_refl) first s) as K.
    now rewrite Q3 in K. }
  exists first, words, e, r, executable, args.
  split; [exact T|]. split; [reflexivity|]. split; [exact JC|].
  rewrite <- E3.
  assert (E5 : _settings (job s5)
               = (if PyStr.nonempty (PyStr.join " " args)
                  then Dict.set (VStr "Arguments")
                         (VStr (String "034"%char EmptyString
                                ++ PyStr.join " " args
                                ++ String "034"%char EmptyString))
                         (_settings (job s3))
                  else _settings (job s3))
               /\ submitLinesSoFar (job s5) = submitLinesSoFar (job s3)).
  { destruct (PyStr.nonempty (PyStr.join " " args)).
    - unfold setArguments, set_setting, modify_job in Q5.
      injection Q5 as _ <-. split; reflexivity.
    - unfold ret in Q5. injection Q5 as _ <-. split; reflexivity. }
  destruct E5 as [D5 L5]. rewrite <- D5.
  cbn [job flushed _settings submitLinesSoFar with_submitLinesSoFar
       with_settings].
  split; [|split; [|split]].
  - unfold flush_text, setting_lines. rewrite L5, L3.
    f_equal. now destruct (Py.eq times (VInt 1)).
  - intros k v K1 K2 K3 G. rewrite D5.
    assert (G3 : Dict.get (VStr k) (_settings (job s3)) = Some v).
    { rewrite E3. now rewrite setExecutable_other_keys. }
    destruct (PyStr.nonempty (PyStr.join " " args)); [|exact G3].
    now rewrite Dict_get_set_other.
  - reflexivity.
  - unfold flush_text.
    cbn [_settings submitLinesSoFar with_submitLinesSoFar with_settings].
    unfold setting_lines. cbn [map String.concat]. apply append_empty_r.
Qed.

Lemma queue_appends_one_stanza_witness :
  let s := snd (setOutput (VStr "hello.out") Sample.echo_job) in
  let s' := snd (queue "echo hello world" (VInt 3) s) in
  fst (queue "echo hello world" (VInt 3) s) = Ok tt
  /\ submitLinesSoFar (job s) = EmptyString
  /\ submitLinesSoFar (job s')
     = "Universe = vanilla" ++ Sample.nl
       ++ "request_cpus = 1" ++ Sample.nl
       ++ "request_memory = 1024" ++ Sample.nl
       ++ "request_disk = 32" ++ Sample.nl
       ++ "Output = hello.out" ++ Sample.nl
       ++ "transfer_executable = False" ++ Sample.nl
       ++ "Executable = /bin/echo" ++ Sample.nl
       ++ "Arguments = " ++ Sample.dq ++ "hello world" ++ Sample.dq
       ++ Sample.nl
       ++ "Queue 3" ++ Sample.nl
  /\ _settings (job s') = [].
Proof.
  intros s s'.
  assert (H : fst (queue "echo hello world" (VInt 3) s) = Ok tt)
    by (vm_compute; reflexivity).
  destruct (queue_appends_one_stanza _ _ _ H)
    as (first & words & e & r & executable & args & A & B & C & D & _ & E & _).
  vm_compute in A. injection A as <- <-.
  vm_compute in B. injection B as <- <-.
  vm_compute in C. injection C as <- <-.
  split; [exact H|]. split; [reflexivity|]. split; [|exact E].
  fold s' in D. rewrite D. vm_compute. reflexivity.
Defined.



(** ** [wait], [poll] and [status] when the queue command succeeds *)

(** X15.  [wait()] on a job with a cluster number other than 0, while the
    queue command exits with status 0.  With a [maxPollTime] that is not
    negative: if the replies number 0 to [n - 1] name the cluster and the
    reply number [n] does not, [wait] returns after [n + 1] calls of the
    queue command and [n] sleeps, and the sleep before the call number
    [k + 1] lasts the smaller of 1 + k/2 and [maxPollTime].  With a negative
    [maxPollTime] and a first reply that names the cluster, [sleep] refuses
    the first interval: [wait] raises [ValueError] after one call of the
    queue command and no sleep. *)
Theorem wait_sleeps_capped_linear_intervals (sh : Shell) (c : Z)
    (n fuel : nat) (s : St) :
  cluster (job s) = Some c -> c <> 0 -> _submitShell (job s) = Some sh ->
  (forall k, (k < n)%nat ->
             exitcode (check_reply s sh c k) = 0
             /\ still_queued c (check_reply s sh c k) = true) ->
  still_queued c (check_reply s sh c n) = false ->
  (n <= fuel)%nat ->
  ((0 <= maxPollTime (job s))%Q ->
   fst (wait fuel s) = Ok tt
   /\ sleeps (world (snd (wait fuel s)))
      = (rev (map (fun k => py_min (poll_time k) (maxPollTime (job s)))
                  (seq 0 n))
         ++ sleeps (world s))%list
   /\ calls (world (snd (wait fuel s)))
      = (repeat (check_call sh c) (S n) ++ calls (world s))%list)
  /\ ((maxPollTime (job s) < 0)%Q -> (0 < n)%nat ->
      fst (wait fuel s)
      = Raise (ValueError "sleep length must be non-negative")
      /\ sleeps (world (snd (wait fuel s))) = sleeps (world s)
      /\ calls (world (snd (wait fuel s)))
         = check_call sh c :: calls (world s))
  /\ (forall k, (poll_time k == 1 + (1 # 2) * inject_Z (Z.of_nat k))%Q)
  /\ (forall a b, (py_min a b == Qmin a b)%Q).
Proof.
  intros Hc Hnz Hs Hgood Hend Hfuel. split; [|split].
  - intros Hcap.
    destruct (wait_schedule sh c n fuel s Hc Hnz Hs Hcap Hgood Hend Hfuel)
      as (A & B & C).
    split; [exact A|]. split; [now rewrite B, backoff_intervals | exact C].
  - intros Hcap Hn. destruct fuel as [|fuel]; [lia|].
    destruct (Hgood O Hn) as [Hr Hq].
    now apply wait_negative_cap.
  - split; [apply poll_time_value | apply py_min_is_min].
Qed.

Lemma wait_sleeps_capped_linear_intervals_witness :
  let rest := [Sample.one_left; Sample.one_left; Sample.one_left;
               Sample.none_left] in
  let s := Sample.impatient_job (5 # 4) rest in
  let s' := Sample.impatient_job (- (1 # 2)) rest in
  cluster (job s) = Some 42
  /\ _submitShell (job s) = Some Sample.local_shell
  /\ still_queued 42 (check_reply s Sample.local_shell 42 3) = false
  /\ (0 <= maxPollTime (job s))%Q
  /\ fst (wait 3 s) = Ok tt
  /\ sleeps (world (snd (wait 3 s))) = [5 # 4; 5 # 4; 1]%Q
  /\ (maxPollTime (job s') < 0)%Q
  /\ fst (wait 3 s') = Raise (ValueError "sleep length must be non-negative")
  /\ sleeps (world (snd (wait 3 s'))) = [].
Proof.
  intros rest s s'.
  assert (Hc : cluster (job s) = Some 42) by reflexivity.
  assert (Hs : _submitShell (job s) = Some Sample.local_shell) by reflexivity.
  assert (He : still_queued 42 (check_reply s Sample.local_shell 42 3) = false)
    by reflexivity.
  assert (Hg : forall k, (k < 3)%nat ->
                 exitcode (check_reply s Sample.local_shell 42 k) = 0
                 /\ still_queued 42 (check_reply s Sample.local_shell 42 k)
                    = true).
  { intros k Hk. destruct k as [|[|[|k]]]; try (split; reflexivity). lia. }
  assert (Hp : (0 <= maxPollTime (job s))%Q) by discriminate.
  destruct (wait_sleeps_capped_linear_intervals Sample.local_shell 42 3 3 s
              Hc ltac:(discriminate) Hs Hg He (le_n 3)) as (P & _).
  destruct (P Hp) as (A & B & _).
  assert (Hc' : cluster (job s') = Some 42) by reflexivity.
  assert (Hs' : _submitShell (job s') = Some Sample.local_shell)
    by reflexivity.
  assert (He' : still_queued 42 (check_reply s' Sample.local_shell 42 3)
                = false) by reflexivity.
  assert (Hg' : forall k, (k < 3)%nat ->
                  exitcode (check_reply s' Sample.local_shell 42 k) = 0
                  /\ still_queued 42 (check_reply s' Sample.local_shell 42 k)
                     = true).
  { intros k Hk. destruct k as [|[|[|k]]]; try (split; reflexivity). lia. }
  assert (Hn : (maxPollTime (job s') < 0)%Q) by reflexivity.
  destruct (wait_sleeps_capped_linear_intervals Sample.local_shell 42 3 3 s'
              Hc' ltac:(discriminate) Hs' Hg' He' (le_n 3)) as (_ & N & _).
  destruct (N Hn ltac:(lia)) as (A' & B' & _).
  split; [exact Hc|]. split; [exact Hs|]. split; [exact He|].
  split; [exact Hp|]. split; [exact A|]. split; [rewrite B; reflexivity|].
  split; [exact Hn|]. split; [exact A'|]. rewrite B'. reflexivity.
Defined.

(** X16.  A cluster number 0 counts as no cluster number for [poll] and
    [wait]: both raise [SubmissionError('_checkQueue()')] without asking
    the queue, since [_checkQueue] tests the truth value of the number;
    [status], which tests for [None], does ask the queue for cluster 0. *)
Theorem cluster_zero_is_not_polled (s : St) (sh : Shell) (fuel : nat) :
  cluster (job s) = Some 0 -> _submitShell (job s) = Some sh ->
  poll s = (Raise (SubmissionError "_checkQueue()"), s)
  /\ wait fuel s = (Raise (SubmissionError "_checkQueue()"), s)
  /\ calls (world (snd (status outputFn_str s)))
     = status_call sh 0 :: calls (world s).
Proof.
  intros Hc Hs. split; [now apply poll_cluster_zero|].
  split; [now apply wait_cluster_zero|].
  destruct (Z.eq_dec (exitcode (answer s (status_call sh 0))) 0) as [E|E].
  - now rewrite (status_zero_exit outputFn_str s sh 0 Hc Hs E).
  - now rewrite (status_nonzero_exit outputFn_str s sh 0 Hc Hs E).
Qed.

Lemma cluster_zero_is_not_polled_witness :
  let s := Cases.cluster_zero_job [Sample.one_left] in
  cluster (job s) = Some 0
  /\ _submitShell (job s) = Some Sample.local_shell
  /\ fst (poll s) = Raise (SubmissionError "_checkQueue()")
  /\ fst (wait 5 s) = Raise (SubmissionError "_checkQueue()").
Proof.
  intros s.
  assert (Hc : cluster (job s) = Some 0) by reflexivity.
  assert (Hs : _submitShell (job s) = Some Sample.local_shell) by reflexivity.
  destruct (cluster_zero_is_not_polled s _ 5%nat Hc Hs) as (A & B & _).
  split; [exact Hc|]. split; [exact Hs|]. split.
  - now rewrite A.
  - now rewrite B.
Defined.

(** X17.  [status] on a job with a cluster number, when the queue command
    exits with status 0, hands the reply, stripped, to its formatter and
    returns what the formatter returns: [status(str)] returns the text and
    prints nothing, [status()] prints it with a line end and returns
    [None]. *)
Theorem status_hands_reply_to_formatter (s : St) (sh : Shell) (c : Z) :
  cluster (job s) = Some c -> _submitShell (job s) = Some sh ->
  exitcode (answer s (status_call sh c)) = 0 ->
  let msg := PyStr.strip (output (answer s (status_call sh c))) in
  status outputFn_str s = (Ok (VStr msg), called s (status_call sh c))
  /\ fst (status outputFn_print s) = Ok VNone
  /\ stdout (world (snd (status outputFn_print s)))
     = stdout (world s) ++ msg ++ PyStr.chr PyStr.newline
  /\ stdout (world (snd (status outputFn_str s))) = stdout (world s).
Proof.
  intros Hc Hs Hr msg.
  rewrite (status_zero_exit outputFn_str s sh c Hc Hs Hr).
  rewrite (status_zero_exit outputFn_print s sh c Hc Hs Hr).
  repeat split.
Qed.

Lemma status_hands_reply_to_formatter_witness :
  let s := Sample.submitted_job [Sample.one_left] in
  cluster (job s) = Some 42
  /\ _submitShell (job s) = Some Sample.local_shell
  /\ exitcode (answer s (status_call Sample.local_shell 42)) = 0
  /\ fst (status outputFn_str s) = Ok (VStr "42.0").
Proof.
  intros s.
  assert (Hc : cluster (job s) = Some 42) by reflexivity.
  assert (Hs : _submitShell (job s) = Some Sample.local_shell) by reflexivity.
  assert (Hr : exitcode (answer s (status_call Sample.local_shell 42)) = 0)
    by reflexivity.
  destruct (status_hands_reply_to_formatter s _ 42 Hc Hs Hr) as [A _].
  split; [exact Hc|]. split; [exact Hs|]. split; [exact Hr|].
  now rewrite A.
Defined.

(** ** [Shell]: where a command runs *)

(** X18.  A [Shell] made for no server, or for [localhost] in whatever
    letter case, launches a command as it is given and asks nothing to make
    itself.  A [Shell] for another server launches [ssh user@server command]
    for the user it was given, and [ssh server command] when that user is
    the empty string; given no user it first runs [whoami] once and takes
    the answer, stripped, for the user.  [execute] launches that one
    command, with the input it was given. *)
Theorem shell_runs_locally_or_over_ssh (server user : option string)
    (c : string) (inp : option string) (rb : bool) (s : St) :
  let run := (sh <- Shell_init server user ;; execute sh c inp rb) in
  let whoami := mkCall "whoami" None in
  let me := PyStr.strip (PyStr.strip (output (answer s whoami))) in
  let at_ := fun u : string =>
               if PyStr.nonempty u then u ++ "@" else EmptyString in
  ((server = None
    \/ exists h, server = Some h /\ PyStr.lower h = "localhost") ->
   calls (world (snd (run s))) = mkCall c inp :: calls (world s))
  /\ (forall h u,
        server = Some h -> PyStr.lower h <> "localhost" -> user = Some u ->
        calls (world (snd (run s)))
        = mkCall ("ssh " ++ at_ u ++ h ++ " " ++ c) inp :: calls (world s))
  /\ (forall h,
        server = Some h -> PyStr.lower h <> "localhost" -> user = None ->
        calls (world (snd (run s)))
        = mkCall ("ssh " ++ at_ me ++ h ++ " " ++ c) inp
            :: whoami :: calls (world s)).
Proof.
  cbv zeta. split; [|split].
  - intros [->|[h [-> Hl]]]; unfold Shell_init; cbv zeta.
    + reflexivity.
    + rewrite Hl. reflexivity.
  - intros h u -> Hl ->. unfold Shell_init. cbv zeta.
    apply String.eqb_neq in Hl. rewrite Hl.
    unfold bind, ret, execute, Process_run, _buildFullCommand, bind, ret.
    cbn [local remoteUser remoteServer Py.of_opt Py.truthy Py.str snd world
         calls with_calls job].
    destruct (PyStr.nonempty u); cbn [snd world calls with_calls];
      f_equal; f_equal; cbn; now rewrite ?append_assoc.
  - intros h -> Hl ->. unfold Shell_init. cbv zeta.
    apply String.eqb_neq in Hl. rewrite Hl.
    unfold bind, ret, execute, Process_run, _buildFullCommand, bind, ret,
      Process_get, answer.
    cbn [local remoteUser remoteServer Py.of_opt Py.truthy Py.str snd world
         calls with_calls job append].
    destruct (PyStr.nonempty _); cbn [snd world calls with_calls];
      f_equal; f_equal; cbn; now rewrite ?append_assoc.
Qed.

Lemma shell_runs_locally_or_over_ssh_witness :
  let s := mkSt blank_job
             (Sample.world_of [mkReply 0 ("kollerg" ++ Sample.nl)]) in
  let launched := fun server user =>
    calls (world (snd ((sh <- Shell_init server user ;;
                        execute sh "condor_q" None false) s))) in
  launched (Some "LocalHost") (Some "kollerg") = [mkCall "condor_q" None]
  /\ launched (Some "condor.cs.wlu.edu") (Some "kollerg")
     = [mkCall "ssh kollerg@condor.cs.wlu.edu condor_q" None]
  /\ launched (Some "condor.cs.wlu.edu") None
     = [mkCall "ssh kollerg@condor.cs.wlu.edu condor_q" None;
        mkCall "whoami" None].
Proof.
  intros s launched. split; [|split].
  - destruct (shell_runs_locally_or_over_ssh (Some "LocalHost")
                (Some "kollerg") "condor_q" None false s) as [A _].
    apply A. right. exists "LocalHost". split; reflexivity.
  - destruct (shell_runs_locally_or_over_ssh (Some "condor.cs.wlu.edu")
                (Some "kollerg") "condor_q" None false s) as [_ [B _]].
    unfold launched.
    rewrite (B "condor.cs.wlu.edu" "kollerg" eq_refl);
      [reflexivity | vm_compute; discriminate | reflexivity].
  - destruct (shell_runs_locally_or_over_ssh (Some "condor.cs.wlu.edu")
                None "condor_q" None false s) as [_ [_ C]].
    unfold launched.
    rewrite (C "condor.cs.wlu.edu" eq_refl);
      [reflexivity | vm_compute; discriminate | reflexivity].
Defined.

(** ** [Job.__init__]: the job it leaves *)

(** The job and the world when [__init__] reaches its last statement,
    [self.setEmail(None)]. *)
Lemma Job_init_eq (pickle_load : string -> Exn + Dict.t) (universe : PyVal)
    (user : option string) (host : string) (s : St) :
  Py.in_list universe validUniverses = true ->
  let whoami := mkCall "whoami" None in
  let which := mkCall "which condor_submit" None in
  let me := PyStr.strip (PyStr.strip (output (answer s whoami))) in
  let name := match user with Some u => u | None => me end in
  let found :=
    exitcode (oracle (world s) (which :: whoami :: calls (world s))) =? 0 in
  let sh := if (found && String.eqb name me)
               || String.eqb (PyStr.lower host) "localhost"
            then mkShell true None None
            else mkShell false (Some host) (Some name) in
  Job_init pickle_load universe user host s
  = setEmail pickle_load VNone
      (mkSt (mkJob validUniverses
               [(VStr "Universe", universe); (VStr "request_cpus", VInt 1);
                (VStr "request_memory", VInt 1024);
                (VStr "request_disk", VInt 32)]
               EmptyString (Some sh) (VStr EmptyString) None (30 # 1)
               (Some me) (Some name) host)
            (with_calls (which :: whoami :: calls (world s)) (world s))).
Proof.
  intros Hv. cbv zeta. unfold Job_init, answer.
  destruct s as [j [o c so se sl fi]].
  unfold bind at 1. cbn [modify_job].
  unfold bind at 1. unfold try_except, bind at 1.
  cbn [Process_run modify_job job world calls oracle with_calls].
  unfold bind at 1, setUniverse at 1, bind at 1.
  cbn [get_job job _validUniverses with_submitterUsername blank_job].
  rewrite Hv. cbn [negb].
  destruct user as [u|];
    cbv beta iota zeta delta
      [bind Process_run modify_job get_job set_setting
       _setUsername _setServer setCPUNum setRAM setDiskSpace getUsername
       getServer ret job world _validUniverses
       with_submitterUsername with_settings with_username with_server
       with_submitShell _settings submitLinesSoFar _submitShell
       _executablePath cluster maxPollTime _submitterUsername username server
       with_calls calls oracle stdout stderr sleeps files Process_get
       Py.of_opt Py.eq append Shell_init];
    cbn [Dict.set Py.eq String.eqb Ascii.eqb Bool.eqb].
  all: repeat
         (match goal with
          | |- context [if ?b then _ else _] => destruct b
          end;
          cbv beta iota delta
            [job world server username calls oracle andb orb]);
       reflexivity.
Qed.

(** [setEmail(None)] on a job with its shell: the one command it runs, what
    it returns and what it leaves of the settings. *)
Lemma setEmail_None_runs (pickle_load : string -> Exn + Dict.t) (s : St)
    (sh : Shell) :
  _submitShell (job s) = Some sh ->
  let reply := answer s (mail_map_call sh) in
  let r := setEmail pickle_load VNone s in
  calls (world (snd r)) = mail_map_call sh :: calls (world s)
  /\ (fst r = Ok tt
      \/ exitcode reply = 0
         /\ exists e, pickle_load (output reply) = inl e /\ fst r = Raise e)
  /\ (_settings (job (snd r)) = _settings (job s)
      \/ exists v, _settings (job (snd r))
                   = Dict.set (VStr "notify_user") v (_settings (job s))).
Proof.
  intros Hs. cbv zeta. unfold setEmail. cbn [Py.truthy].
  step (submitShell_execute_eq sh mail_map_command None true s Hs).
  fold (mail_map_call sh).
  destruct (exitcode (answer s (mail_map_call sh)) =? 0) eqn:E.
  - apply Z.eqb_eq in E.
    destruct (pickle_load (output (answer s (mail_map_call sh))))
      as [e|emails] eqn:P.
    + split; [reflexivity|]. split; [|now left].
      right. split; [exact E|]. now exists e.
    + unfold getUsername, bind, get_job, ret, print_err, modify_world,
        set_setting, modify_job.
      cbn [fst snd job world called username].
      destruct (Dict.get (Py.of_opt (username (job s))) emails) as [a|].
      * split; [reflexivity|]. split; [now left|]. right. now exists a.
      * destruct (Dict.get VNone emails) as [a|];
          (split; [reflexivity|]; split; [now left|]; right;
           eexists; reflexivity).
  - split; [reflexivity|]. split; now left.
Qed.

(** X19.  [Job(universe, username, server)] with one of the seven universes
    runs three commands: [whoami], [which condor_submit] and, through the
    shell it chose, the command that reads the mail map.  The job is for
    the user given, else for the user [whoami] names.  Its shell is local
    when [condor_submit] was found and the job is for the user who runs the
    script, and also when the server is [localhost]; else it is a shell on
    the server for the user of the job.  The call returns unless the mail
    map was read and could not be unpickled; either way the job holds the
    universe, one CPU, 1024 of memory and 32 of disk. *)
Theorem new_job_shell_commands_and_settings
    (pickle_load : string -> Exn + Dict.t) (universe : PyVal)
    (user : option string) (host : string) (s : St) :
  Py.in_list universe validUniverses = true ->
  let r := Job_init pickle_load universe user host s in
  let whoami := mkCall "whoami" None in
  let which := mkCall "which condor_submit" None in
  let me := PyStr.strip (PyStr.strip (output (answer s whoami))) in
  let name := match user with Some u => u | None => me end in
  let found :=
    exitcode (oracle (world s) (which :: whoami :: calls (world s))) =? 0 in
  let sh := if (found && String.eqb name me)
               || String.eqb (PyStr.lower host) "localhost"
            then mkShell true None None
            else mkShell false (Some host) (Some name) in
  let history := mail_map_call sh :: which :: whoami :: calls (world s) in
  let reply := oracle (world s) history in
  calls (world (snd r)) = history
  /\ username (job (snd r)) = Some name
  /\ _submitShell (job (snd r)) = Some sh
  /\ (fst r = Ok tt
      \/ exitcode reply = 0
         /\ exists e, pickle_load (output reply) = inl e /\ fst r = Raise e)
  /\ Dict.get (VStr "Universe") (_settings (job (snd r))) = Some universe
  /\ Dict.get (VStr "request_cpus") (_settings (job (snd r))) = Some (VInt 1)
  /\ Dict.get (VStr "request_memory") (_settings (job (snd r)))
     = Some (VInt 1024)
  /\ Dict.get (VStr "request_disk") (_settings (job (snd r)))
     = Some (VInt 32).
Proof.
  intros Hv. cbv zeta.
  rewrite (Job_init_eq pickle_load universe user host s Hv).
  match goal with
  | |- context [setEmail pickle_load VNone ?s0] => set (s1 := s0)
  end.
  match goal with
  | |- context [mail_map_call ?x] => set (sh := x)
  end.
  assert (Hs : _submitShell (job s1) = Some sh) by reflexivity.
  destruct (setEmail_None_runs pickle_load s1 sh Hs) as [C [R D]].
  split; [exact C|].
  split; [now rewrite (keeps_setEmail username)|].
  split; [now rewrite (keeps_setEmail _submitShell)|].
  split; [exact R|].
  assert (G : forall k,
             k <> "notify_user" ->
             Dict.get (VStr k)
               (_settings (job (snd (setEmail pickle_load VNone s1))))
             = Dict.get (VStr k) (_settings (job s1))).
  { intros k Hk. destruct D as [->|[v ->]]; [reflexivity|].
    now apply Dict_get_set_other. }
  repeat split; (rewrite G; [reflexivity | discriminate]).
Qed.

Lemma new_job_shell_commands_and_settings_witness :
  let s := mkSt blank_job (Sample.world_of Sample.init_script) in
  let r := Job_init Sample.no_pickle (VStr "vanilla") None
             "condor.cs.wlu.edu" s in
  Py.in_list (VStr "vanilla") validUniverses = true
  /\ calls (world (snd r))
     = [mkCall "cat /mnt/config/scripts/mail_map.pickle" None;
        mkCall "which condor_submit" None; mkCall "whoami" None]
  /\ username (job (snd r)) = Some "kollerg"
  /\ _submitShell (job (snd r)) = Some Sample.local_shell.
Proof.
  intros s r.
  assert (Hv : Py.in_list (VStr "vanilla") validUniverses = true)
    by reflexivity.
  destruct (new_job_shell_commands_and_settings Sample.no_pickle
              (VStr "vanilla") None "condor.cs.wlu.edu" s Hv)
    as [C [U [S _]]].
  split; [exact Hv|]. split; [exact C|]. split; [exact U|]. exact S.
Defined.

(** X20.  [Job(universe, ...)] with a value that is none of the seven
    universes raises [InvalidUniverseError] with that value, after it ran
    [whoami] and no other command; it prints nothing. *)
Theorem new_job_rejects_unknown_universe
    (pickle_load : string -> Exn + Dict.t) (universe : PyVal)
    (user : option string) (host : string) (s : St) :
  Py.in_list universe validUniverses = false ->
  let r := Job_init pickle_load universe user host s in
  fst r = Raise (InvalidUniverseError universe)
  /\ calls (world (snd r)) = mkCall "whoami" None :: calls (world s)
  /\ stdout (world (snd r)) = stdout (world s)
  /\ stderr (world (snd r)) = stderr (world s)
  /\ _submitShell (job (snd r)) = None.
Proof.
  intros Hv r.
  assert (E : r = (Raise (InvalidUniverseError universe),
                   mkSt (with_submitterUsername
                           (Some (PyStr.strip
                                    (Process_get
                                       (answer s (mkCall "whoami" None)))))
                           blank_job)
                        (with_calls (mkCall "whoami" None :: calls (world s))
                                    (world s)))).
  { subst r. unfold Job_init.
    unfold bind at 1. cbn [modify_job].
    unfold bind at 1. unfold try_except, bind at 1.
    cbn [Process_run modify_job job world calls oracle with_calls].
    unfold bind at 1, setUniverse at 1, bind at 1.
    cbn [get_job job _validUniverses with_submitterUsername blank_job].
    rewrite Hv. reflexivity. }
  rewrite E. repeat split.
Qed.

Lemma new_job_rejects_unknown_universe_witness :
  let s := mkSt blank_job (Sample.world_of Sample.init_script) in
  let r := Job_init Sample.no_pickle (VStr "Vanilla") None
             "condor.cs.wlu.edu" s in
  Py.in_list (VStr "Vanilla") validUniverses = false
  /\ fst r = Raise (InvalidUniverseError (VStr "Vanilla"))
  /\ calls (world (snd r)) = [mkCall "whoami" None].
Proof.
  intros s r.
  assert (Hv : Py.in_list (VStr "Vanilla") validUniverses = false)
    by reflexivity.
  destruct (new_job_rejects_unknown_universe Sample.no_pickle
              (VStr "Vanilla") None "condor.cs.wlu.edu" s Hv)
    as [R [C _]].
  split; [exact Hv|]. split; [exact R|]. exact C.
Defined.
